(** * Build Process Watcher backend: token service, run store, ingestion

    A shallow embedding of the Go backend
    ([internal/auth], [internal/storage], [internal/handlers],
    [internal/cleanup]) together with the properties of its
    specification that concern tokens, sample parsing and the run
    lifecycle, and further properties of the store, the routes and the
    cleanup.

    Of Go's library the development implements what the backend
    calls: [strings], [strconv], [encoding/hex], [encoding/base64] and,
    for the token data, [unicode/utf8] and [encoding/json].

    Go strings are byte sequences; they are modelled by [string], whose
    characters are the 256 byte values.  Go's [int] and [int64] are
    modelled by [Z] with the 64-bit wrap-around written out ([wrap64]).
    Wall-clock instants are integers counting nanoseconds since the Unix
    epoch. *)

From Stdlib Require Import ZArith Ascii String List Lia Bool.
From stdpp Require Import base option list gmap strings.

Local Open Scope Z_scope.

(** ** Machine integers *)

Definition wrap64 (z : Z) : Z := (z + 2 ^ 63) mod 2 ^ 64 - 2 ^ 63.

Definition min_int64 : Z := - 2 ^ 63.
Definition max_int64 : Z := 2 ^ 63 - 1.

Definition in_int64 (z : Z) : bool := (min_int64 <=? z) && (z <=? max_int64).

(** ** Bytes *)

Definition byte_of (n : nat) : ascii := ascii_of_nat n.
Definition code (c : ascii) : Z := Z.of_nat (nat_of_ascii c).

Fixpoint bytes (l : list nat) : string :=
  match l with
  | [] => EmptyString
  | n :: l' => String (byte_of n) (bytes l')
  end.

Fixpoint rev_string_onto (s acc : string) : string :=
  match s with
  | EmptyString => acc
  | String c s' => rev_string_onto s' (String c acc)
  end.

Definition rev_string (s : string) : string := rev_string_onto s EmptyString.

(** ** Package [strings] *)

Module strings.

(** [strings.Split(s, sep)] for a one-byte separator, the only kind the
    backend uses (".", "|", ":", " " and the newline).  The result
    always has at least one element; [Split "" sep] is [[""]]. *)
Fixpoint Split (s : string) (sep : ascii) : list string :=
  match s with
  | EmptyString => [EmptyString]
  | String c s' =>
      if Ascii.eqb c sep then EmptyString :: Split s' sep
      else match Split s' sep with
           | [] => [String c EmptyString]
           | p :: ps => String c p :: ps
           end
  end.

Definition HasPrefix (s prefix : string) : bool := String.prefix prefix s.

Definition HasSuffix (s suffix : string) : bool :=
  String.prefix (rev_string suffix) (rev_string s).

(** [strings.TrimSuffix]: [s] without the trailing [suffix], or [s]
    itself when it does not end with [suffix]. *)
Definition TrimSuffix (s suffix : string) : string :=
  if HasSuffix s suffix
  then String.substring 0 (String.length s - String.length suffix) s
  else s.

Definition TrimPrefix (s prefix : string) : string :=
  if HasPrefix s prefix
  then String.substring (String.length prefix)
         (String.length s - String.length prefix) s
  else s.

(** White space as [unicode.IsSpace] sees it in a UTF-8 byte string:
    the six ASCII characters, and the encodings of U+0085, U+00A0,
    U+1680, U+2000..U+200A, U+2028, U+2029, U+202F, U+205F, U+3000. *)
Definition asciiSpace (c : ascii) : bool :=
  let n := code c in
  (n =? 9) || (n =? 10) || (n =? 11) || (n =? 12) || (n =? 13) || (n =? 32).

Definition space2 (c1 c2 : ascii) : bool :=
  (code c1 =? 194) && ((code c2 =? 133) || (code c2 =? 160)).

Definition space3 (c1 c2 c3 : ascii) : bool :=
  let '(a, b, c) := (code c1, code c2, code c3) in
  ((a =? 225) && (b =? 154) && (c =? 128))
  || ((a =? 226) && (b =? 128)
      && (((128 <=? c) && (c <=? 138)) || (c =? 168) || (c =? 169) || (c =? 175)))
  || ((a =? 226) && (b =? 129) && (c =? 159))
  || ((a =? 227) && (b =? 128) && (c =? 128)).

(** Leading white space removed.  [sp2] and [sp3] receive the bytes of
    a candidate rune in the order of the string. *)
Fixpoint trimLeftWith (sp2 : ascii -> ascii -> bool)
    (sp3 : ascii -> ascii -> ascii -> bool) (s : string) : string :=
  match s with
  | EmptyString => EmptyString
  | String c1 r1 =>
      if asciiSpace c1 then trimLeftWith sp2 sp3 r1
      else match r1 with
           | EmptyString => s
           | String c2 r2 =>
               if sp2 c1 c2 then trimLeftWith sp2 sp3 r2
               else match r2 with
                    | EmptyString => s
                    | String c3 r3 =>
                        if sp3 c1 c2 c3 then trimLeftWith sp2 sp3 r3 else s
                    end
           end
  end.

Definition TrimLeftSpace (s : string) : string := trimLeftWith space2 space3 s.

(** Trailing white space is found on the reversed string, where the
    bytes of a rune appear last byte first. *)
Definition TrimRightSpace (s : string) : string :=
  rev_string
    (trimLeftWith (fun c2 c1 => space2 c1 c2)
                  (fun c3 c2 c1 => space3 c1 c2 c3) (rev_string s)).

Definition TrimSpace (s : string) : string := TrimRightSpace (TrimLeftSpace s).

End strings.

(** ** Package [strconv] *)

Module strconv.

Definition isDigit (c : ascii) : bool := (48 <=? code c) && (code c <=? 57).

(** [lower(c)] of the Go library: [c | ('x' - 'X')]. *)
Definition lower (c : ascii) : Z := Z.lor (code c) 32.

Definition isHexLetter (c : ascii) : bool := (97 <=? lower c) && (lower c <=? 102).

(** A run of decimal digits read as a number, [None] if another
    character occurs. *)
Fixpoint digits (s : string) (acc : Z) : option Z :=
  match s with
  | EmptyString => Some acc
  | String c s' =>
      if isDigit c then digits s' (acc * 10 + (code c - 48)) else None
  end.

(** [strconv.Atoi]: an optional sign and at least one decimal digit;
    values outside the 64-bit [int] are a range error. *)
Definition Atoi (s : string) : option Z :=
  match s with
  | EmptyString => None
  | String c r =>
      let '(neg, body) :=
        if Ascii.eqb c "-" then (true, r)
        else if Ascii.eqb c "+" then (false, r) else (false, s) in
      match body with
      | EmptyString => None
      | _ =>
          match digits body 0 with
          | None => None
          | Some n =>
              let v := if neg then - n else n in
              if in_int64 v then Some v else None
          end
      end
  end.

(** A [float64].  [Finite neg m e] is [(-1)^neg * m * 2^e]. *)
Inductive float64 : Type :=
| Finite (neg : bool) (m : Z) (e : Z)
| Inf (neg : bool)
| NaN.

(** Round the positive rational [n / d] to the nearest [float64],
    ties to even; [None] when the result overflows. *)
Definition round64 (n d : Z) : option (Z * Z) :=
  let l := Z.log2 n - Z.log2 d in
  let fl := if d * 2 ^ Z.max l 0 <=? n * 2 ^ Z.max (- l) 0 then l else l - 1 in
  let e := Z.max (fl - 52) (-1074) in
  let n' := n * 2 ^ Z.max (- e) 0 in
  let d' := d * 2 ^ Z.max e 0 in
  let q := n' / d' in
  let r := n' mod d' in
  let m := if 2 * r <? d' then q
           else if d' <? 2 * r then q + 1
           else if Z.even q then q else q + 1 in
  if (0 <=? e) && (2 ^ 1024 <=? m * 2 ^ e) then None else Some (m, e).

Definition mkFloat (neg : bool) (mant : Z) (base : Z) (exp : Z) : option float64 :=
  if mant =? 0 then Some (Finite neg 0 0)
  else match round64 (mant * base ^ Z.max exp 0) (base ^ Z.max (- exp) 0) with
       | None => None
       | Some (m, e) => Some (Finite neg m e)
       end.

Fixpoint lowerEq (s ref : string) : bool :=
  match s, ref with
  | EmptyString, EmptyString => true
  | String c s', String r ref' =>
      let c' := if (65 <=? code c) && (code c <=? 90) then code c + 32 else code c in
      (c' =? code r) && lowerEq s' ref'
  | _, _ => false
  end.

(** The strings [special] consumes entirely. *)
Definition special (s : string) : option float64 :=
  match s with
  | EmptyString => None
  | String c r =>
      let isInf x := lowerEq x "inf" || lowerEq x "infinity" in
      if Ascii.eqb c "+" then (if isInf r then Some (Inf false) else None)
      else if Ascii.eqb c "-" then (if isInf r then Some (Inf true) else None)
      else if isInf s then Some (Inf false)
      else if lowerEq s "nan" then Some NaN
      else None
  end.

(** [underscoreOK] on the part after the sign and the base prefix:
    an underscore only between digits ([saw] is the class of the last
    character: 0 for a digit or the prefix, 1 for an underscore, 2 for
    anything else). *)
Fixpoint underscoresFrom (hex : bool) (saw : Z) (s : string) : bool :=
  match s with
  | EmptyString => negb (saw =? 1)
  | String c s' =>
      if isDigit c || (hex && isHexLetter c) then underscoresFrom hex 0 s'
      else if Ascii.eqb c "_" then
        (saw =? 0) && underscoresFrom hex 1 s'
      else if saw =? 1 then false
      else underscoresFrom hex 2 s'
  end.

Definition underscoreOK (s : string) : bool :=
  let s1 := match s with
            | String c r => if Ascii.eqb c "-" || Ascii.eqb c "+" then r else s
            | _ => s
            end in
  match s1 with
  | String c0 (String c1 r) =>
      if Ascii.eqb c0 "0" && ((lower c1 =? 98) || (lower c1 =? 111) || (lower c1 =? 120))
      then underscoresFrom (lower c1 =? 120) 0 r
      else underscoresFrom false 2 s1
  | _ => underscoresFrom false 2 s1
  end.

(** The mantissa loop of [readFloat]: digits, underscores and at most
    one point.  Returns the digits read as an integer, the number of
    digits after the point, whether a digit and an underscore were
    seen, and the unread rest. *)
Fixpoint mantissa (hex : bool) (s : string) (mant frac : Z)
    (sawdot sawdigits under : bool) : Z * Z * bool * bool * string :=
  match s with
  | EmptyString => (mant, frac, sawdigits, under, s)
  | String c s' =>
      if Ascii.eqb c "_" then mantissa hex s' mant frac sawdot sawdigits true
      else if Ascii.eqb c "." then
        if sawdot then (mant, frac, sawdigits, under, s)
        else mantissa hex s' mant frac true sawdigits under
      else if isDigit c then
        mantissa hex s' (mant * (if hex then 16 else 10) + (code c - 48))
          (if sawdot then frac + 1 else frac) sawdot true under
      else if hex && isHexLetter c then
        mantissa hex s' (mant * 16 + (lower c - 97 + 10))
          (if sawdot then frac + 1 else frac) sawdot true under
      else (mant, frac, sawdigits, under, s)
  end.

(** The digits of an exponent; the value stops growing at 10000. *)
Fixpoint exponent (s : string) (e : Z) (under : bool) : Z * bool * string :=
  match s with
  | EmptyString => (e, under, s)
  | String c s' =>
      if Ascii.eqb c "_" then exponent s' e true
      else if isDigit c then
        exponent s' (if e <? 10000 then e * 10 + (code c - 48) else e) under
      else (e, under, s)
  end.

(** [readFloat] followed by the conversion, on a string that must be
    consumed entirely. *)
Definition readFloat (s : string) : option float64 :=
  let '(neg, s1) :=
    match s with
    | String c r =>
        if Ascii.eqb c "+" then (false, r)
        else if Ascii.eqb c "-" then (true, r) else (false, s)
    | _ => (false, s)
    end in
  let '(hex, s2) :=
    match s1 with
    | String c0 (String c1 (String c2 r)) =>
        if Ascii.eqb c0 "0" && (lower c1 =? 120) then (true, String c2 r)
        else (false, s1)
    | _ => (false, s1)
    end in
  let '(mant, frac, sawdigits, under, s3) := mantissa hex s2 0 0 false false false in
  if negb sawdigits then None
  else
    let expChar := if hex then 112 else 101 in
    let finish (e : Z) (under : bool) (rest : string) :=
      if under && negb (underscoreOK s) then None
      else match rest with
           | EmptyString =>
               if hex then mkFloat neg mant 2 (e - 4 * frac)
               else mkFloat neg mant 10 (e - frac)
           | _ => None
           end in
    match s3 with
    | String c s4 =>
        if lower c =? expChar then
          match s4 with
          | EmptyString => None
          | String c' r =>
              let '(esign, s5) :=
                if Ascii.eqb c' "+" then (1, r)
                else if Ascii.eqb c' "-" then (-1, r) else (1, s4) in
              match s5 with
              | String d _ =>
                  if isDigit d then
                    let '(e, under', rest) := exponent s5 0 under in
                    finish (e * esign) under' rest
                  else None
              | EmptyString => None
              end
          end
        else if hex then None
        else finish 0 under s3
    | EmptyString => if hex then None else finish 0 under s3
    end.

(** [strconv.ParseFloat(s, 64)]; [None] stands for a non-nil error
    (syntax or range). *)
Definition ParseFloat (s : string) : option float64 :=
  match special s with
  | Some f => Some f
  | None => readFloat s
  end.

(** The conversion [int(f)]: the fraction is discarded.  A value that
    does not fit (and an infinity or a NaN) gives the smallest [int],
    as the conversion instruction of amd64 does. *)
Definition int_of_float (f : float64) : Z :=
  match f with
  | Finite neg m e =>
      let mag := if 0 <=? e then m * 2 ^ e else m / 2 ^ (- e) in
      let v := if neg then - mag else mag in
      if in_int64 v then v else min_int64
  | _ => min_int64
  end.

End strconv.

(** ** Package [time] *)

Module time.

(** An instant: nanoseconds since the Unix epoch. *)
Definition Time : Type := Z.
(** A [Duration] is an [int64] count of nanoseconds. *)
Definition Duration : Type := Z.

Definition Millisecond : Duration := 1000000.
Definition Second : Duration := 1000000000.
Definition Minute : Duration := 60 * Second.
Definition Hour : Duration := 60 * Minute.

Definition minDuration : Duration := min_int64.
Definition maxDuration : Duration := max_int64.

(** The zero [Time], January 1 of year 1, 00:00 UTC. *)
Definition Zero : Time := -62135596800 * Second.

Definition Add (t : Time) (d : Duration) : Time := t + d.

(** [t.After(u)]. *)
Definition After (t u : Time) : bool := u <? t.

(** [t.Sub(u)]: the difference, held at the largest or smallest
    [Duration] when it does not fit. *)
Definition Sub (t u : Time) : Duration :=
  if maxDuration <? t - u then maxDuration
  else if t - u <? minDuration then minDuration
  else t - u.

(** [t.UnixNano()], computed in [int64]. *)
Definition UnixNano (t : Time) : Z := wrap64 t.

End time.

(** ** Package [models] *)

Module models.

Module Sample.
(** [GCTime] is not declared in [models.go]; [ParseData] fills it
    from its local [var gcTime int]. *)
Record t : Type := mk {
  Timestamp : Z;
  ElapsedTime : Z;
  PID : string;
  Name : string;
  HeapUsed : Z;
  HeapCap : Z;
  RSS : Z;
  GCTime : Z;
  RunID : string
}.
End Sample.

Module ProcessInfo.
(** Declared as the tests of the package use it. *)
Record t : Type := mk {
  PID : string;
  Name : string;
  VMFlags : list string
}.
End ProcessInfo.

Module RunDoc.
Record t : Type := mk {
  ID : string;
  RunID : string;
  StartTime : time.Time;
  EndTime : time.Time;
  CreatedAt : time.Time;
  UpdatedAt : time.Time;
  UpdatedAtTimestamp : Z;
  Samples : list Sample.t;
  ProcessInfo : gmap string ProcessInfo.t;
  Finished : bool;
  FinishedAt : time.Time
}.

Definition withSamples (d : t) (ss : list Sample.t) : t :=
  mk (ID d) (RunID d) (StartTime d) (EndTime d) (CreatedAt d) (UpdatedAt d)
     (UpdatedAtTimestamp d) ss (ProcessInfo d) (Finished d) (FinishedAt d).

Definition withUpdated (d : t) (at_ : time.Time) (millis : Z) : t :=
  mk (ID d) (RunID d) (StartTime d) (EndTime d) (CreatedAt d) at_
     millis (Samples d) (ProcessInfo d) (Finished d) (FinishedAt d).

Definition withFinished (d : t) (b : bool) (at_ : time.Time) : t :=
  mk (ID d) (RunID d) (StartTime d) (EndTime d) (CreatedAt d) (UpdatedAt d)
     (UpdatedAtTimestamp d) (Samples d) (ProcessInfo d) b at_.

Definition withProcessInfo (d : t) (m : gmap string ProcessInfo.t) : t :=
  mk (ID d) (RunID d) (StartTime d) (EndTime d) (CreatedAt d) (UpdatedAt d)
     (UpdatedAtTimestamp d) (Samples d) m (Finished d) (FinishedAt d).
End RunDoc.

Module TokenData.
Record t : Type := mk {
  RunID : string;
  ExpiresAt : time.Time;
  CreatedAt : time.Time
}.
End TokenData.

Module IngestRequest.
Record t : Type := mk {
  RunID : string;
  Data : string;
  ProcessInfo : option ProcessInfo.t
}.
End IngestRequest.

Module TokenResponse.
Record t : Type := mk {
  Token : string;
  ExpiresAt : time.Time
}.
End TokenResponse.

Module RunResponse.
(** [FinishedAt] is a pointer, [None] when the handler leaves it unset.
    [ProcessInfo] is not declared in [models.go]; the handler of a run
    copies it from the document. *)
Record t : Type := mk {
  Samples : list Sample.t;
  ProcessInfo : gmap string ProcessInfo.t;
  Finished : bool;
  FinishedAt : option time.Time;
  UpdatedAt : time.Time
}.
End RunResponse.

End models.

Import models.

(** ** The world: the Firestore collection "runs" and the clock

    A handler or a store operation is a function of the world.  The
    collection maps document ids to run documents, read back as they
    were written.  Every read, write and listing the client makes is
    recorded in [ops].
    [time.Now()] returns the next reading of the clock.  Transport
    failures of the client are not part of the model: a read fails only
    because the document does not exist. *)

Inductive FsOp : Type :=
| OpGet (id : string)
| OpSet (id : string)
| OpDocuments.

Record World : Type := mkWorld {
  runs : gmap string RunDoc.t;
  ops : list FsOp;
  clock : nat -> time.Time;
  ticks : nat
}.

Definition M (A : Type) : Type := World -> A * World.

Definition ret {A} (a : A) : M A := fun w => (a, w).

Definition bind {A B} (m : M A) (k : A -> M B) : M B :=
  fun w => let '(a, w') := m w in k a w'.

Notation "x <- m ;; k" := (bind m (fun x => k))
  (at level 100, m at next level, right associativity).
Notation "m ;;; k" := (bind m (fun _ => k))
  (at level 100, right associativity).

(** [time.Now()]. *)
Definition Now : M time.Time :=
  fun w => (clock w (ticks w), mkWorld (runs w) (ops w) (clock w) (S (ticks w))).

(** [doc.Get]: [None] is the NotFound error, with a snapshot that does
    not exist. *)
Definition docGet (id : string) : M (option RunDoc.t) :=
  fun w => (runs w !! id,
            mkWorld (runs w) (ops w ++ [OpGet id]) (clock w) (ticks w)).

(** [doc.Set]. *)
Definition docSet (id : string) (d : RunDoc.t) : M unit :=
  fun w => (tt, mkWorld (<[id := d]> (runs w)) (ops w ++ [OpSet id]) (clock w) (ticks w)).

(** [Collection("runs").Documents]: all documents, in the order of the
    iterator. *)
Definition documents : M (list (string * RunDoc.t)) :=
  fun w => (map_to_list (runs w),
            mkWorld (runs w) (ops w ++ [OpDocuments]) (clock w) (ticks w)).

(** [doc.Ref.Delete]: the document is gone from the collection.  The
    log [ops] keeps the reads, the writes and the listings; a deletion
    shows in [runs]. *)
Definition docDelete (id : string) : M unit :=
  fun w => (tt, mkWorld (delete id (runs w)) (ops w) (clock w) (ticks w)).

(** [Collection("runs").Where("updated_at_timestamp", "<", cutoff).Documents]:
    the documents whose field is below the cutoff, read before the
    caller changes any of them.  The iterator of a query has an order
    of its own; nothing below depends on the order of the list. *)
Definition documentsBefore (cutoffTimestamp : Z) : M (list (string * RunDoc.t)) :=
  fun w => (List.filter
              (fun doc => RunDoc.UpdatedAtTimestamp (snd doc) <? cutoffTimestamp)
              (map_to_list (runs w)),
            mkWorld (runs w) (ops w ++ [OpDocuments]) (clock w) (ticks w)).

(** Errors of the store. *)
Inductive error : Type :=
| ErrNotFound (id : string)
| ErrOther (msg : string).

(** [strings.Contains(err.Error(), "not found")]. *)
Definition isNotFound (e : error) : bool :=
  match e with
  | ErrNotFound _ => true
  | ErrOther _ => false
  end.

(** ** Package [storage] *)

Module storage.

(** [ToMillis]: [t.UnixNano() / int64(time.Millisecond)]; the division
    of Go truncates toward zero. *)
Definition ToMillis (t : time.Time) : Z :=
  Z.quot (time.UnixNano t) time.Millisecond.

(** [GetRun]. *)
Definition GetRun (runID : string) : M (option RunDoc.t * option error) :=
  snapshot <- docGet runID ;;
  match snapshot with
  | None => ret (None, Some (ErrNotFound runID))
  | Some runDoc => ret (Some runDoc, None)
  end.

(** [StoreSamples]: read the document (or start a new one), append,
    refresh the update time, write the document back. *)
Definition StoreSamples (runID : string) (samples : list Sample.t)
    : M (option error) :=
  snapshot <- docGet runID ;;
  runDoc <- match snapshot with
            | Some d => ret d
            | None =>
                startTime <- Now ;;
                createdAt <- Now ;;
                ret (RunDoc.mk runID runID startTime time.Zero createdAt
                       time.Zero 0 [] ∅ false time.Zero)
            end ;;
  let runDoc := RunDoc.withSamples runDoc (RunDoc.Samples runDoc ++ samples) in
  now <- Now ;;
  let runDoc := RunDoc.withUpdated runDoc now (ToMillis now) in
  docSet runID runDoc ;;;
  ret None.

(** Modelled from the spec: [StoreProcessInfo] is called by the ingest
    handler but is not part of this version of [storage.go].  It
    merges one entry, keyed by process id, into the process metadata
    of the run by the same read-modify-write as [StoreSamples]. *)
Definition StoreProcessInfo (runID : string) (info : ProcessInfo.t)
    : M (option error) :=
  snapshot <- docGet runID ;;
  match snapshot with
  | None => ret (Some (ErrNotFound runID))
  | Some runDoc =>
      let runDoc :=
        RunDoc.withProcessInfo runDoc
          (<[ProcessInfo.PID info := info]> (RunDoc.ProcessInfo runDoc)) in
      docSet runID runDoc ;;;
      ret None
  end.

(** [MarkRunAsFinished]. *)
Definition MarkRunAsFinished (runID : string) : M (option error) :=
  snapshot <- docGet runID ;;
  match snapshot with
  | None => ret (Some (ErrNotFound runID))
  | Some runDoc =>
      if RunDoc.Finished runDoc then ret None
      else
        now <- Now ;;
        let runDoc := RunDoc.withFinished runDoc true now in
        let runDoc := RunDoc.withUpdated runDoc now (ToMillis now) in
        docSet runID runDoc ;;;
        ret None
  end.

(** The loop of [FindStaleRuns] over the documents of the iterator. *)
Fixpoint staleLoop (timeout : time.Duration) (docs : list (string * RunDoc.t))
    (staleRuns : list string) : M (list string) :=
  match docs with
  | [] => ret staleRuns
  | (id, runDoc) :: rest =>
      if RunDoc.Finished runDoc then staleLoop timeout rest staleRuns
      else
        now <- Now ;;
        let timeSinceLastUpdate := time.Sub now (RunDoc.UpdatedAt runDoc) in
        if timeout <? timeSinceLastUpdate
        then staleLoop timeout rest (staleRuns ++ [id])
        else staleLoop timeout rest staleRuns
  end.

(** [FindStaleRuns]. *)
Definition FindStaleRuns (timeout : time.Duration)
    : M (list string * option error) :=
  docs <- documents ;;
  staleRuns <- staleLoop timeout docs [] ;;
  ret (staleRuns, None).

(** The fields of a line: split at "|" and trimmed.  [None] when the
    line is empty or has neither 6 nor 7 fields. *)
Definition fields (line : string) : option (list string) :=
  let line := strings.TrimSpace line in
  if String.eqb line "" then None
  else
    let parts := strings.Split line "|" in
    if negb (length parts =? 6)%nat && negb (length parts =? 7)%nat then None
    else Some (map strings.TrimSpace parts).

(** A memory figure: the "MB" suffix removed, read as a float,
    converted to [int]. *)
Definition parseMB (part : string) : option Z :=
  let str := strings.TrimSuffix (strings.TrimSuffix part "MB") "MB" in
  match strconv.ParseFloat str with
  | None => None
  | Some f => Some (strconv.int_of_float f)
  end.

(** The GC time of a line with [parts]. *)
Definition parseGC (parts : list string) : Z :=
  if (length parts =? 7)%nat then
    let gcTimeStr :=
      strings.TrimSuffix (strings.TrimSuffix (nth 6 parts "") "ms") "ms" in
    if negb (String.eqb gcTimeStr "N/A") && negb (String.eqb gcTimeStr "") then
      match strconv.ParseFloat gcTimeStr with
      | None => 0
      | Some gcTimeFloat => strconv.int_of_float gcTimeFloat
      end
    else 0
  else 0.

(** The part of the loop body of [ParseData] that follows the field
    count check: [None] where the body says [continue]. *)
Definition parseParts (parts : list string) (startTime : time.Time)
    : option Sample.t :=
  let part i := nth i parts "" in
  let timeParts := strings.Split (part 0%nat) ":" in
  if negb (length timeParts =? 3)%nat then None
  else
    match strconv.Atoi (nth 0 timeParts ""),
          strconv.Atoi (nth 1 timeParts ""),
          strconv.Atoi (nth 2 timeParts "") with
    | Some hours, Some minutes, Some seconds =>
        let elapsedTime := wrap64 (hours * 3600 + minutes * 60 + seconds) in
        match parseMB (part 3%nat) with
        | None => None
        | Some heapUsed =>
            match parseMB (part 4%nat) with
            | None => None
            | Some heapCap =>
                match parseMB (part 5%nat) with
                | None => None
                | Some rss =>
                    let gcTime := parseGC parts in
                    let timestamp :=
                      time.Add startTime (wrap64 (elapsedTime * time.Second)) in
                    (* the literal names no RunID: the field keeps the
                       zero value of its type *)
                    Some (Sample.mk (ToMillis timestamp) elapsedTime
                            (part 1%nat) (part 2%nat) heapUsed heapCap rss
                            gcTime "")
                end
            end
        end
    | _, _, _ => None
    end.

(** One iteration of the loop of [ParseData]. *)
Definition parseLine (line : string) (startTime : time.Time) : option Sample.t :=
  match fields line with
  | None => None
  | Some parts => parseParts parts startTime
  end.

(** The loop of [ParseData], with [samples] as accumulated so far. *)
Fixpoint parseLines (lines : list string) (startTime : time.Time)
    (samples : list Sample.t) : list Sample.t :=
  match lines with
  | [] => samples
  | line :: rest =>
      match parseLine line startTime with
      | None => parseLines rest startTime samples
      | Some sample => parseLines rest startTime (samples ++ [sample])
      end
  end.

(** [ParseData]. *)
Definition ParseData (data : string) (startTime : time.Time)
    : list Sample.t * option error :=
  let lines := strings.Split (strings.TrimSpace data) "010" in
  (parseLines lines startTime [], None).

(** The loop of [DeleteOldRuns] over the documents of the query. *)
Fixpoint deleteLoop (docs : list (string * RunDoc.t)) (deletedRuns : list string)
    : M (list string) :=
  match docs with
  | [] => ret deletedRuns
  | (id, _) :: rest =>
      docDelete id ;;;
      deleteLoop rest (deletedRuns ++ [id])
  end.

(** [DeleteOldRuns]; the negation of the period is the one of [int64]. *)
Definition DeleteOldRuns (retentionPeriod : time.Duration)
    : M (list string * option error) :=
  now <- Now ;;
  let cutoffTime := time.Add now (wrap64 (- retentionPeriod)) in
  let cutoffTimestamp := ToMillis cutoffTime in
  docs <- documentsBefore cutoffTimestamp ;;
  deletedRuns <- deleteLoop docs [] ;;
  ret (deletedRuns, None).

End storage.

(** ** Package [encoding/hex] *)

Module hex.

Definition hextable : string := "0123456789abcdef".

Definition digit (n : Z) : ascii :=
  match String.get (Z.to_nat n) hextable with
  | Some c => c
  | None => "0"%char
  end.

Fixpoint EncodeToString (src : string) : string :=
  match src with
  | EmptyString => EmptyString
  | String c r =>
      String (digit (code c / 16)) (String (digit (code c mod 16)) (EncodeToString r))
  end.

Definition fromHexChar (c : ascii) : option Z :=
  let n := code c in
  if (48 <=? n) && (n <=? 57) then Some (n - 48)
  else if (97 <=? n) && (n <=? 102) then Some (n - 97 + 10)
  else if (65 <=? n) && (n <=? 70) then Some (n - 65 + 10)
  else None.

(** [hex.DecodeString]: pairs of hexadecimal digits of either case;
    [None] for an invalid byte or an odd length. *)
Fixpoint DecodeString (s : string) : option string :=
  match s with
  | EmptyString => Some EmptyString
  | String p (String q r) =>
      match fromHexChar p, fromHexChar q with
      | Some a, Some b =>
          match DecodeString r with
          | Some t => Some (String (byte_of (Z.to_nat (a * 16 + b))) t)
          | None => None
          end
      | _, _ => None
      end
  | String _ EmptyString => None
  end.

End hex.

(** ** Package [encoding/base64], the padded URL encoding *)

Module base64.

Definition encodeURL : string :=
  "ABCDEFGHIJKLMNOPQRSTUVWXYZabcdefghijklmnopqrstuvwxyz0123456789-_".

Definition padChar : ascii := "="%char.

Definition encChar (n : Z) : ascii :=
  match String.get (Z.to_nat n) encodeURL with
  | Some c => c
  | None => "A"%char
  end.

Fixpoint indexIn (c : ascii) (s : string) (i : Z) : option Z :=
  match s with
  | EmptyString => None
  | String d r => if Ascii.eqb c d then Some i else indexIn c r (i + 1)
  end.

(** The decode map: the position of a character in the alphabet. *)
Definition decChar (c : ascii) : option Z := indexIn c encodeURL 0.

Definition byte (n : Z) : ascii := byte_of (Z.to_nat n).

Fixpoint EncodeToString (src : string) : string :=
  match src with
  | EmptyString => EmptyString
  | String a EmptyString =>
      let a := code a in
      String (encChar (a / 4)) (String (encChar (a mod 4 * 16))
        (String padChar (String padChar EmptyString)))
  | String a (String b EmptyString) =>
      let '(a, b) := (code a, code b) in
      String (encChar (a / 4)) (String (encChar (a mod 4 * 16 + b / 16))
        (String (encChar (b mod 16 * 4)) (String padChar EmptyString)))
  | String a (String b (String c r)) =>
      let '(a, b, c) := (code a, code b, code c) in
      String (encChar (a / 4)) (String (encChar (a mod 4 * 16 + b / 16))
        (String (encChar (b mod 16 * 4 + c / 64)) (String (encChar (c mod 64))
          (EncodeToString r))))
  end.

(** Quanta of four characters; padding only in the last one. *)
Fixpoint decodeQuanta (s : string) : option string :=
  match s with
  | EmptyString => Some EmptyString
  | String c1 (String c2 (String c3 (String c4 r))) =>
      match decChar c1, decChar c2 with
      | Some s1, Some s2 =>
          let b1 := byte (s1 * 4 + s2 / 16) in
          if Ascii.eqb c3 padChar then
            if Ascii.eqb c4 padChar && String.eqb r "" then Some (String b1 EmptyString)
            else None
          else
            match decChar c3 with
            | None => None
            | Some s3 =>
                let b2 := byte (s2 mod 16 * 16 + s3 / 4) in
                if Ascii.eqb c4 padChar then
                  if String.eqb r "" then Some (String b1 (String b2 EmptyString))
                  else None
                else
                  match decChar c4 with
                  | None => None
                  | Some s4 =>
                      let b3 := byte (s3 mod 4 * 64 + s4) in
                      match decodeQuanta r with
                      | Some t => Some (String b1 (String b2 (String b3 t)))
                      | None => None
                      end
                  end
            end
      | _, _ => None
      end
  | _ => None
  end.

(** The decoder ignores carriage returns and line feeds. *)
Fixpoint stripNewlines (s : string) : string :=
  match s with
  | EmptyString => EmptyString
  | String c r =>
      if (code c =? 13) || (code c =? 10) then stripNewlines r
      else String c (stripNewlines r)
  end.

Definition DecodeString (s : string) : option string :=
  decodeQuanta (stripNewlines s).

End base64.

(** ** Package [unicode/utf8] *)

Module utf8.

(** U+FFFD, the replacement character. *)
Definition RuneError : Z := 65533.

Definition continuation (b : Z) : bool := (128 <=? b) && (b <=? 191).

(** [utf8.DecodeRuneInString]: the first rune of [s] and its width in
    bytes; [(RuneError, 1)] when [s] does not begin with a well-formed
    encoding (overlong forms, surrogates and values above U+10FFFF are
    not well formed) and [(RuneError, 0)] when [s] is empty. *)
Definition DecodeRuneInString (s : string) : Z * nat :=
  match s with
  | EmptyString => (RuneError, 0%nat)
  | String c0 r0 =>
      let b0 := code c0 in
      if b0 <? 128 then (b0, 1%nat)
      else
        match r0 with
        | EmptyString => (RuneError, 1%nat)
        | String c1 r1 =>
            let b1 := code c1 in
            if (194 <=? b0) && (b0 <=? 223) then
              if continuation b1
              then ((b0 - 192) * 64 + (b1 - 128), 2%nat)
              else (RuneError, 1%nat)
            else
              match r1 with
              | EmptyString => (RuneError, 1%nat)
              | String c2 r2 =>
                  let b2 := code c2 in
                  if (224 <=? b0) && (b0 <=? 239) then
                    let lo := if b0 =? 224 then 160 else 128 in
                    let hi := if b0 =? 237 then 159 else 191 in
                    if (lo <=? b1) && (b1 <=? hi) && continuation b2
                    then (((b0 - 224) * 64 + (b1 - 128)) * 64 + (b2 - 128), 3%nat)
                    else (RuneError, 1%nat)
                  else
                    match r2 with
                    | EmptyString => (RuneError, 1%nat)
                    | String c3 _ =>
                        let b3 := code c3 in
                        if (240 <=? b0) && (b0 <=? 244) then
                          let lo := if b0 =? 240 then 144 else 128 in
                          let hi := if b0 =? 244 then 143 else 191 in
                          if (lo <=? b1) && (b1 <=? hi) && continuation b2
                             && continuation b3
                          then ((((b0 - 240) * 64 + (b1 - 128)) * 64 + (b2 - 128)) * 64
                                + (b3 - 128), 4%nat)
                          else (RuneError, 1%nat)
                        else (RuneError, 1%nat)
                    end
              end
        end
  end.

(** [utf8.EncodeRune]: the encoding of a rune, that of U+FFFD for a
    surrogate and for a value that is no code point. *)
Definition EncodeRune (r : Z) : string :=
  let byte (n : Z) := byte_of (Z.to_nat n) in
  if (0 <=? r) && (r <=? 127) then String (byte r) EmptyString
  else if (128 <=? r) && (r <=? 2047) then
    String (byte (192 + r / 64)) (String (byte (128 + r mod 64)) EmptyString)
  else if (r <? 0) || (1114111 <? r) || ((55296 <=? r) && (r <=? 57343)) then
    String (byte 239) (String (byte 191) (String (byte 189) EmptyString))
  else if r <=? 65535 then
    String (byte (224 + r / 4096))
      (String (byte (128 + (r / 64) mod 64)) (String (byte (128 + r mod 64)) EmptyString))
  else
    String (byte (240 + r / 262144))
      (String (byte (128 + (r / 4096) mod 64))
         (String (byte (128 + (r / 64) mod 64))
            (String (byte (128 + r mod 64)) EmptyString))).

(** The loop [for i < len(s) { r, size := DecodeRuneInString(s[i:]); i += size }]:
    the runes of [s], each with the bytes it was read from.  [skip]
    counts the bytes of the current rune that are still to pass. *)
Fixpoint runesFrom (skip : nat) (s : string) : list (Z * string) :=
  match s with
  | EmptyString => []
  | String _ r =>
      match skip with
      | S k => runesFrom k r
      | O =>
          let '(rune, size) := DecodeRuneInString s in
          (rune, String.substring 0 size s) :: runesFrom (size - 1) r
      end
  end.

Definition runes (s : string) : list (Z * string) := runesFrom 0 s.

(** A byte that begins no well-formed encoding. *)
Definition invalid (rune : Z * string) : bool :=
  (fst rune =? RuneError) && (String.length (snd rune) =? 1)%nat.

(** [utf8.ValidString]. *)
Definition ValidString (s : string) : bool :=
  forallb (fun rune => negb (invalid rune)) (runes s).

End utf8.

(** ** Package [encoding/json], for [models.TokenData]

    [Marshal] writes the object
    [{"run_id":...,"expires_at":...,"created_at":...}], the members in
    the order of the fields of the struct.  A time is written by
    [Time.MarshalJSON], for a server whose zone is UTC. *)

Module json.

Definition quoteMark : string := bytes [34%nat].
Definition backslash : string := bytes [92%nat].

(** [htmlSafeSet]: the ASCII characters [Marshal] copies into a string
    literal. *)
Definition htmlSafe (b : Z) : bool :=
  (32 <=? b) && (b <=? 127)
  && negb ((b =? 34) || (b =? 92) || (b =? 60) || (b =? 62) || (b =? 38)).

(** One rune of a string as [appendString] writes it: an escape for
    the ASCII characters outside [htmlSafeSet], the escape of U+FFFD for a byte
    that begins no well-formed encoding, an escape for U+2028 and
    U+2029, and the bytes of the rune otherwise. *)
Definition quoteRune (rune : Z * string) : string :=
  let '(r, raw) := rune in
  if r <? 128 then
    if htmlSafe r then raw
    else if (r =? 92) || (r =? 34) then backslash +:+ raw
    else if r =? 8 then backslash +:+ "b"
    else if r =? 12 then backslash +:+ "f"
    else if r =? 10 then backslash +:+ "n"
    else if r =? 13 then backslash +:+ "r"
    else if r =? 9 then backslash +:+ "t"
    else backslash +:+ "u00"
           +:+ String (hex.digit (r / 16)) (String (hex.digit (r mod 16)) EmptyString)
  else if utf8.invalid rune then backslash +:+ "ufffd"
  else if (r =? 8232) || (r =? 8233) then
    backslash +:+ "u202" +:+ String (hex.digit (r mod 16)) EmptyString
  else raw.

Fixpoint concat (l : list string) : string :=
  match l with
  | [] => EmptyString
  | s :: l' => s +:+ concat l'
  end.

(** A string as a JSON string literal. *)
Definition quote (s : string) : string :=
  quoteMark +:+ concat (map quoteRune (utf8.runes s)) +:+ quoteMark.

(** *** Times *)

Definition isLeap (year : Z) : bool :=
  (year mod 4 =? 0) && (negb (year mod 100 =? 0) || (year mod 400 =? 0)).

(** [daysIn]. *)
Definition daysIn (month year : Z) : Z :=
  if month =? 2 then (if isLeap year then 29 else 28)
  else if (month =? 4) || (month =? 6) || (month =? 9) || (month =? 11) then 30
  else 31.

(** The date of the day that lies [days] days after 1 January 1970, in
    the proleptic Gregorian calendar, as [Time.Date] gives it. *)
Definition civil (days : Z) : Z * Z * Z :=
  let z := days + 719468 in
  let era := z / 146097 in
  let doe := z - era * 146097 in
  let yoe := (doe - doe / 1460 + doe / 36524 - doe / 146096) / 365 in
  let doy := doe - (365 * yoe + yoe / 4 - yoe / 100) in
  let mp := (5 * doy + 2) / 153 in
  let day := doy - (153 * mp + 2) / 5 + 1 in
  let month := if mp <? 10 then mp + 3 else mp - 9 in
  let year := yoe + era * 400 + (if month <=? 2 then 1 else 0) in
  (year, month, day).

(** The number of days from 1 January 1970 to the given date, as
    [time.Date] counts them. *)
Definition daysFromCivil (year month day : Z) : Z :=
  let y := if month <=? 2 then year - 1 else year in
  let era := y / 400 in
  let yoe := y - era * 400 in
  let mp := if 2 <? month then month - 3 else month + 9 in
  let doy := (153 * mp + 2) / 5 + day - 1 in
  let doe := yoe * 365 + yoe / 4 - yoe / 100 + doy in
  era * 146097 + doe - 719468.

Definition decimalDigit (n : Z) : ascii := byte_of (Z.to_nat (48 + n mod 10)).

(** [appendInt(x, width)] for [0 <= x < 10 ^ width]. *)
Fixpoint pad (width : nat) (x : Z) (acc : string) : string :=
  match width with
  | O => acc
  | S w => pad w (x / 10) (String (decimalDigit x) acc)
  end.

(** The characters of [s] without the zeros it ends with. *)
Definition trimZeros (s : string) : string :=
  let fix dropZeros (r : string) : string :=
    match r with
    | String c r' => if code c =? 48 then dropZeros r' else r
    | EmptyString => EmptyString
    end in
  rev_string (dropZeros (rev_string s)).

(** The layout [RFC3339Nano] of an instant in UTC:
    [2006-01-02T15:04:05.999999999Z], the fraction without the zeros
    it ends with and left out when it is zero. *)
Definition formatRFC3339Nano (t : time.Time) : string :=
  let secs := t / time.Second in
  let nanos := t mod time.Second in
  let '(year, month, day) := civil (secs / 86400) in
  let sod := secs mod 86400 in
  pad 4 year "" +:+ "-" +:+ pad 2 month "" +:+ "-" +:+ pad 2 day "" +:+ "T"
  +:+ pad 2 (sod / 3600) "" +:+ ":" +:+ pad 2 (sod / 60 mod 60) "" +:+ ":"
  +:+ pad 2 (sod mod 60) ""
  +:+ (if nanos =? 0 then "" else "." +:+ trimZeros (pad 9 nanos ""))
  +:+ "Z".

(** [Time.MarshalJSON]: an error for a year outside of [0, 9999]. *)
Definition marshalTime (t : time.Time) : option string :=
  let '(year, _, _) := civil (t / time.Second / 86400) in
  if (0 <=? year) && (year <=? 9999)
  then Some (quoteMark +:+ formatRFC3339Nano t +:+ quoteMark)
  else None.

(** [json.Marshal] of a [TokenData]. *)
Definition Marshal (d : TokenData.t) : option string :=
  match marshalTime (TokenData.ExpiresAt d), marshalTime (TokenData.CreatedAt d) with
  | Some expiresAt, Some createdAt =>
      Some ("{" +:+ quote "run_id" +:+ ":" +:+ quote (TokenData.RunID d)
            +:+ "," +:+ quote "expires_at" +:+ ":" +:+ expiresAt
            +:+ "," +:+ quote "created_at" +:+ ":" +:+ createdAt +:+ "}")
  | _, _ => None
  end.

(** *** Reading *)

(** What the decoder needs of a JSON value: whether it is [null], the
    bytes between the quotes of a string, or that it is of another
    kind (a number, a truth value, an array, an object). *)
Inductive value : Type :=
| Null
| Str (raw : string)
| Other.

Definition isSpace (c : ascii) : bool :=
  (code c =? 32) || (code c =? 9) || (code c =? 10) || (code c =? 13).

Fixpoint skipSpace (s : string) : string :=
  match s with
  | String c r => if isSpace c then skipSpace r else s
  | EmptyString => EmptyString
  end.

Definition isHex (c : ascii) : bool :=
  match hex.fromHexChar c with
  | Some _ => true
  | None => false
  end.

(** Four hexadecimal digits at the head of [s]. *)
Definition hex4 (s : string) : option Z :=
  match s with
  | String a (String b (String c (String d _))) =>
      match hex.fromHexChar a, hex.fromHexChar b, hex.fromHexChar c,
            hex.fromHexChar d with
      | Some x, Some y, Some z, Some u => Some (((x * 16 + y) * 16 + z) * 16 + u)
      | _, _, _, _ => None
      end
  | _ => None
  end.

Definition simpleEscape (c : ascii) : bool :=
  let b := code c in
  (b =? 34) || (b =? 92) || (b =? 47) || (b =? 98) || (b =? 102) || (b =? 110)
  || (b =? 114) || (b =? 116).

(** The scanner inside a string literal, from behind its opening quote:
    the bytes up to the closing quote and what follows it.  A control
    character and a backslash that begins no escape are errors. *)
Fixpoint scanString (s : string) : option (string * string) :=
  match s with
  | EmptyString => None
  | String c r =>
      if code c =? 34 then Some (EmptyString, r)
      else if code c <? 32 then None
      else if code c =? 92 then
        match r with
        | String e r' =>
            if simpleEscape e || ((code e =? 117) && bool_decide (is_Some (hex4 r')))
            then match scanString r' with
                 | Some (raw, rest) => Some (String c (String e raw), rest)
                 | None => None
                 end
            else None
        | EmptyString => None
        end
      else match scanString r with
           | Some (raw, rest) => Some (String c raw, rest)
           | None => None
           end
  end.

Fixpoint skipDigits (s : string) : string :=
  match s with
  | String c r => if strconv.isDigit c then skipDigits r else s
  | EmptyString => EmptyString
  end.

(** At least one digit, and the digits that follow. *)
Definition digits1 (s : string) : option string :=
  match s with
  | String c r => if strconv.isDigit c then Some (skipDigits r) else None
  | EmptyString => None
  end.

(** The scanner on a number: what follows it. *)
Definition scanNumber (s : string) : option string :=
  let s := match s with
           | String c r => if code c =? 45 then r else s
           | EmptyString => s
           end in
  match s with
  | String c r =>
      let int := if code c =? 48 then Some r
                 else if strconv.isDigit c then Some (skipDigits r) else None in
      match int with
      | None => None
      | Some s =>
          let frac := match s with
                      | String d r' => if code d =? 46 then digits1 r' else Some s
                      | EmptyString => Some s
                      end in
          match frac with
          | None => None
          | Some s =>
              match s with
              | String e r' =>
                  if (code e =? 101) || (code e =? 69) then
                    match r' with
                    | String sign r'' =>
                        if (code sign =? 43) || (code sign =? 45)
                        then digits1 r'' else digits1 r'
                    | EmptyString => None
                    end
                  else Some s
              | EmptyString => Some s
              end
          end
      end
  | EmptyString => None
  end.

(** The scanner on a value at the head of [s], white space before it
    passed: the value and what follows it.  [scanMembers] reads the
    members of an object from behind its brace, [scanElements] the
    elements of an array from behind its bracket. *)
Fixpoint scanValue (fuel : nat) (s : string) : option (value * string) :=
  match fuel with
  | O => None
  | S fuel =>
      match skipSpace s with
      | EmptyString => None
      | String c r =>
          if code c =? 123 then
            match scanMembers fuel r with
            | Some (_, rest) => Some (Other, rest)
            | None => None
            end
          else if code c =? 91 then
            match skipSpace r with
            | String c' r' =>
                if code c' =? 93 then Some (Other, r')
                else match scanElements fuel r with
                     | Some rest => Some (Other, rest)
                     | None => None
                     end
            | EmptyString => None
            end
          else if code c =? 34 then
            match scanString r with
            | Some (raw, rest) => Some (Str raw, rest)
            | None => None
            end
          else if String.prefix "true" (String c r)
          then Some (Other, String.substring 4 (String.length r) (String c r))
          else if String.prefix "false" (String c r)
          then Some (Other, String.substring 5 (String.length r) (String c r))
          else if String.prefix "null" (String c r)
          then Some (Null, String.substring 4 (String.length r) (String c r))
          else match scanNumber (String c r) with
               | Some rest => Some (Other, rest)
               | None => None
               end
      end
  end
with scanMembers (fuel : nat) (s : string) : option (list (string * value) * string) :=
  match fuel with
  | O => None
  | S fuel =>
      match skipSpace s with
      | String q r =>
          if code q =? 125 then Some ([], r)
          else if code q =? 34 then
            match scanString r with
            | Some (key, rest) =>
                match skipSpace rest with
                | String colon rest' =>
                    if code colon =? 58 then
                      match scanValue fuel rest' with
                      | Some (v, rest'') =>
                          match skipSpace rest'' with
                          | String sep rest3 =>
                              if code sep =? 125 then Some ([(key, v)], rest3)
                              else if code sep =? 44 then
                                match skipSpace rest3 with
                                | String q' _ =>
                                    if code q' =? 34 then
                                      match scanMembers fuel rest3 with
                                      | Some (members, rest4) =>
                                          Some ((key, v) :: members, rest4)
                                      | None => None
                                      end
                                    else None
                                | EmptyString => None
                                end
                              else None
                          | EmptyString => None
                          end
                      | None => None
                      end
                    else None
                | EmptyString => None
                end
            | None => None
            end
          else None
      | EmptyString => None
      end
  end
with scanElements (fuel : nat) (s : string) : option string :=
  match fuel with
  | O => None
  | S fuel =>
      match scanValue fuel s with
      | Some (_, rest) =>
          match skipSpace rest with
          | String sep rest' =>
              if code sep =? 93 then Some rest'
              else if code sep =? 44 then scanElements fuel rest'
              else None
          | EmptyString => None
          end
      | None => None
      end
  end.

(** The fuel of the scanner on a text: every call passes a byte of the
    text or is followed by one that does. *)
Definition fuelFor (data : string) : nat := 2 * String.length data + 2.

(** Nothing but white space is left. *)
Definition atEnd (s : string) : bool :=
  match skipSpace s with
  | EmptyString => true
  | String _ _ => false
  end.

Definition prepend (s : string) (o : option string) : option string :=
  match o with
  | Some t => Some (s +:+ t)
  | None => None
  end.

(** [utf16.DecodeRune] of a surrogate pair, U+FFFD when it is none. *)
Definition decodeSurrogates (r1 r2 : Z) : Z :=
  if (55296 <=? r1) && (r1 <? 56320) && (56320 <=? r2) && (r2 <? 57344)
  then (r1 - 55296) * 1024 + (r2 - 56320) + 65536
  else utf8.RuneError.

(** [unquote] on the bytes between the quotes of a literal: the
    escapes are read, and a byte that begins no well-formed encoding
    becomes U+FFFD.  [skip] counts the bytes that belong to what was
    just read. *)
Fixpoint unquoteFrom (skip : nat) (s : string) : option string :=
  match s with
  | EmptyString => Some EmptyString
  | String c r =>
      match skip with
      | S k => unquoteFrom k r
      | O =>
          let b := code c in
          if b =? 92 then
            match r with
            | EmptyString => None
            | String e r' =>
                let one (n : nat) := prepend (bytes [n]) (unquoteFrom 1 r) in
                let be := code e in
                if (be =? 34) || (be =? 92) || (be =? 47) || (be =? 39)
                then prepend (String e EmptyString) (unquoteFrom 1 r)
                else if be =? 98 then one 8%nat
                else if be =? 102 then one 12%nat
                else if be =? 110 then one 10%nat
                else if be =? 114 then one 13%nat
                else if be =? 116 then one 9%nat
                else if be =? 117 then
                  match hex4 r' with
                  | None => None
                  | Some rr =>
                      if (55296 <=? rr) && (rr <? 57344) then
                        let next := String.substring 4 6 r' in
                        let rr1 := match next with
                                   | String x (String y h) =>
                                       if (code x =? 92) && (code y =? 117)
                                       then match hex4 h with
                                            | Some v => v
                                            | None => -1
                                            end
                                       else -1
                                   | _ => -1
                                   end in
                        let dec := decodeSurrogates rr rr1 in
                        if dec =? utf8.RuneError
                        then prepend (utf8.EncodeRune utf8.RuneError) (unquoteFrom 5 r)
                        else prepend (utf8.EncodeRune dec) (unquoteFrom 11 r)
                      else prepend (utf8.EncodeRune rr) (unquoteFrom 5 r)
                  end
                else None
            end
          else if (b =? 34) || (b <? 32) then None
          else if b <? 128 then prepend (String c EmptyString) (unquoteFrom 0 r)
          else
            let '(rr, size) := utf8.DecodeRuneInString s in
            prepend (utf8.EncodeRune rr) (unquoteFrom (size - 1) r)
      end
  end.

Definition unquote (raw : string) : option string := unquoteFrom 0 raw.

(** The name of a member folded for the comparison with the name of a
    field: ASCII letters in lower case, and the two letters outside
    ASCII that fold into it, U+017F into "s" and U+212A into "k". *)
Definition foldRune (rune : Z * string) : string :=
  let '(r, raw) := rune in
  if (65 <=? r) && (r <=? 90) then bytes [Z.to_nat (r + 32)]
  else if r =? 383 then "s"
  else if r =? 8490 then "k"
  else raw.

Definition foldName (name : string) : string :=
  concat (map foldRune (utf8.runes name)).

(** [parseRFC3339] on a run of decimal digits with bounds. *)
Definition parseUint (s : string) (min max : Z) : option Z :=
  match strconv.digits s 0 with
  | Some x => if (min <=? x) && (x <=? max) then Some x else None
  | None => None
  end.

(** The fraction of a second: [(nanoseconds, what follows)]. *)
Definition parseFraction (s : string) : Z * string :=
  match s with
  | String dot (String d r) =>
      if (code dot =? 46) && strconv.isDigit d then
        let rest := skipDigits r in
        let len := (String.length (String d r) - String.length rest)%nat in
        let kept := String.substring 0 (Nat.min len 9) (String d r) in
        match strconv.digits kept 0 with
        | Some n => (n * 10 ^ Z.of_nat (9 - String.length kept), rest)
        | None => (0, rest)
        end
      else (0, s)
  | _ => (0, s)
  end.

(** [parseStrictRFC3339] on the bytes between the quotes. *)
Definition parseRFC3339 (s : string) : option time.Time :=
  let sub (i n : nat) := String.substring i n s in
  let has (i : nat) (c : Z) :=
    match String.get i s with
    | Some x => code x =? c
    | None => false
    end in
  if (String.length s <? 19)%nat then None
  else
    match parseUint (sub 0%nat 4%nat) 0 9999, parseUint (sub 5%nat 2%nat) 1 12 with
    | Some year, Some month =>
        match parseUint (sub 8%nat 2%nat) 1 (daysIn month year),
              parseUint (sub 11%nat 2%nat) 0 23,
              parseUint (sub 14%nat 2%nat) 0 59, parseUint (sub 17%nat 2%nat) 0 59 with
        | Some day, Some hour, Some min, Some sec =>
            if has 4%nat 45 && has 7%nat 45 && has 10%nat 84 && has 13%nat 58
               && has 16%nat 58 then
              let '(nsec, zone) :=
                parseFraction (String.substring 19 (String.length s - 19) s) in
              let t := ((daysFromCivil year month day * 86400 + hour * 3600
                         + min * 60 + sec) * time.Second + nsec) in
              if String.eqb zone "Z" then Some t
              else if negb (String.length zone =? 6)%nat then None
              else
                match parseUint (String.substring 1 2 zone) 0 23,
                      parseUint (String.substring 4 2 zone) 0 59,
                      String.get 0 zone, String.get 3 zone with
                | Some hr, Some mm, Some sign, Some colon =>
                    if ((code sign =? 45) || (code sign =? 43)) && (code colon =? 58)
                    then
                      let offset := (hr * 60 + mm) * 60 in
                      let offset := if code sign =? 45 then - offset else offset in
                      Some (t - offset * time.Second)
                    else None
                | _, _, _, _ => None
                end
            else None
        | _, _, _, _ => None
        end
    | _, _ => None
    end.

(** One member of the object stored into the struct: [None] is the
    error of the decoder.  A member named like no field is passed, and
    [null] leaves a field as it is. *)
Definition setField (d : option TokenData.t) (member : string * value)
    : option TokenData.t :=
  match d, unquote (fst member) with
  | Some d, Some name =>
      let key := foldName name in
      if String.eqb key "run_id" then
        match snd member with
        | Null => Some d
        | Str raw =>
            match unquote raw with
            | Some runID =>
                Some (TokenData.mk runID (TokenData.ExpiresAt d) (TokenData.CreatedAt d))
            | None => None
            end
        | _ => None
        end
      else if String.eqb key "expires_at" then
        match snd member with
        | Null => Some d
        | Str raw =>
            match parseRFC3339 raw with
            | Some t => Some (TokenData.mk (TokenData.RunID d) t (TokenData.CreatedAt d))
            | None => None
            end
        | _ => None
        end
      else if String.eqb key "created_at" then
        match snd member with
        | Null => Some d
        | Str raw =>
            match parseRFC3339 raw with
            | Some t => Some (TokenData.mk (TokenData.RunID d) (TokenData.ExpiresAt d) t)
            | None => None
            end
        | _ => None
        end
      else Some d
  | _, _ => None
  end.

(** [json.Unmarshal] into a [TokenData] that holds the zero values:
    an error for a text that is not valid JSON, for a value that is
    neither an object nor [null], and for a member of the name of a
    field whose value does not fit it. *)
Definition Unmarshal (data : string) : option TokenData.t :=
  let zero := TokenData.mk EmptyString time.Zero time.Zero in
  match skipSpace data with
  | String c r =>
      if code c =? 123 then
        match scanMembers (fuelFor data) r with
        | Some (members, rest) =>
            if atEnd rest then fold_left setField members (Some zero) else None
        | None => None
        end
      else
        match scanValue (fuelFor data) data with
        | Some (Null, rest) => if atEnd rest then Some zero else None
        | _ => None
        end
  | EmptyString => None
  end.

End json.

(** ** Package [net/http] *)

Module http.

(** A request as the handlers of a path read it: the method,
    [r.URL.Path] and [r.Header.Get], which is [""] for a header the
    request does not carry. *)
Record Request : Type := mkRequest {
  Method : string;
  Path : string;
  Header : string -> string
}.

Definition MethodGet : string := "GET".
Definition MethodPost : string := "POST".
Definition MethodOptions : string := "OPTIONS".

Definition StatusOK : Z := 200.
Definition StatusBadRequest : Z := 400.
Definition StatusUnauthorized : Z := 401.
Definition StatusMethodNotAllowed : Z := 405.
Definition StatusInternalServerError : Z := 500.

(** What a handler writes: the answer to a CORS preflight, an
    [http.Error], or status 200 with a JSON body. *)
Inductive Response (A : Type) : Type :=
| Preflight
| Error (msg : string) (code : Z)
| OK (body : A).

Arguments Preflight {A}.
Arguments Error {A} msg code.
Arguments OK {A} body.

Definition StatusCode {A} (r : Response A) : Z :=
  match r with
  | Preflight => StatusOK
  | Error _ code => code
  | OK _ => StatusOK
  end.

End http.

(** ** Package [auth] *)

Module auth.

(** What the token service takes from its environment: the signing
    key, HMAC-SHA256 ([hmac key message]) and the JSON codec of
    [TokenData]. *)
Record Env : Type := mkEnv {
  secretKey : string;
  hmac : string -> string -> string;
  jsonMarshal : TokenData.t -> option string;
  jsonUnmarshal : string -> option TokenData.t
}.

Inductive TokenError : Type :=
| ErrMarshal
| ErrFormat
| ErrDecodePayload
| ErrDecodeSignature
| ErrSignature
| ErrUnmarshal
| ErrExpired
| ErrRunIDMismatch.

(** [GenerateToken]. *)
Definition GenerateToken (E : Env) (runID : string)
    : M (string * time.Time * option TokenError) :=
  t <- Now ;;
  let expiresAt := time.Add t (2 * time.Hour) in
  createdAt <- Now ;;
  let tokenData := TokenData.mk runID expiresAt createdAt in
  match jsonMarshal E tokenData with
  | None => ret (EmptyString, time.Zero, Some ErrMarshal)
  | Some payload =>
      let signature := hmac E (secretKey E) payload in
      let token :=
        base64.EncodeToString payload +:+ "." +:+ hex.EncodeToString signature in
      ret (token, expiresAt, None)
  end.

(** [ValidateToken]. *)
Definition ValidateToken (E : Env) (token runID : string)
    : M (bool * option TokenError) :=
  let parts := strings.Split token "." in
  if negb (length parts =? 2)%nat then ret (false, Some ErrFormat)
  else
    let payloadEncoded := nth 0 parts "" in
    let signatureHex := nth 1 parts "" in
    match base64.DecodeString payloadEncoded with
    | None => ret (false, Some ErrDecodePayload)
    | Some payload =>
        match hex.DecodeString signatureHex with
        | None => ret (false, Some ErrDecodeSignature)
        | Some signature =>
            let expectedSignature := hmac E (secretKey E) payload in
            if negb (String.eqb signature expectedSignature)
            then ret (false, Some ErrSignature)
            else
              match jsonUnmarshal E payload with
              | None => ret (false, Some ErrUnmarshal)
              | Some tokenData =>
                  now <- Now ;;
                  if time.After now (TokenData.ExpiresAt tokenData)
                  then ret (false, Some ErrExpired)
                  else if negb (String.eqb (TokenData.RunID tokenData) runID)
                  then ret (false, Some ErrRunIDMismatch)
                  else ret (true, None)
              end
        end
    end.



(** [RequireAdminAuth], with the package variable [adminSecret] as an
    argument. *)
Definition RequireAdminAuth (adminSecret : string) (r : http.Request) : bool :=
  let providedSecret := http.Header r "X-Admin-Secret" in
  if String.eqb providedSecret "" then false
  else String.eqb providedSecret adminSecret.

End auth.

(** ** Package [handlers] *)

Module handlers.

(** An HTTP request as the ingest handler reads it: the method, the
    Authorization header ([""] when absent) and the JSON body, [None]
    when it does not decode. *)
Record Request : Type := mkRequest {
  Method : string;
  Authorization : string;
  Body : option IngestRequest.t
}.

Inductive Response : Type :=
| Preflight
| HttpError (msg : string) (status : Z)
| Success (samples : nat).

Definition StatusOK : Z := 200.
Definition StatusBadRequest : Z := 400.
Definition StatusUnauthorized : Z := 401.
Definition StatusMethodNotAllowed : Z := 405.
Definition StatusInternalServerError : Z := 500.

Definition StatusCode (r : Response) : Z :=
  match r with
  | Preflight => StatusOK
  | HttpError _ status => status
  | Success _ => StatusOK
  end.

(** The part of [Ingest] that follows the validation of the token. *)
Definition ingestAuthorized (req : IngestRequest.t) : M Response :=
  if String.eqb (IngestRequest.RunID req) "" || String.eqb (IngestRequest.Data req) ""
  then ret (HttpError "Missing run_id or data" StatusBadRequest)
  else
    got <- storage.GetRun (IngestRequest.RunID req) ;;
    let '(runDoc, err) := got in
    st <- match runDoc, err with
          | Some runDoc, None => ret (Some (RunDoc.StartTime runDoc))
          | _, Some e =>
              if isNotFound e then (t <- Now ;; ret (Some t)) else ret None
          | None, None => ret None
          end ;;
    match st with
    | None => ret (HttpError "Internal server error" StatusInternalServerError)
    | Some startTime =>
        let '(samples, err) := storage.ParseData (IngestRequest.Data req) startTime in
        match err with
        | Some _ => ret (HttpError "Invalid data format" StatusBadRequest)
        | None =>
            err <- storage.StoreSamples (IngestRequest.RunID req) samples ;;
            match err with
            | Some _ =>
                ret (HttpError "Internal server error" StatusInternalServerError)
            | None =>
                match IngestRequest.ProcessInfo req with
                | Some info =>
                    (* a failure to store the process info is only logged *)
                    storage.StoreProcessInfo (IngestRequest.RunID req) info ;;;
                    ret (Success (length samples))
                | None => ret (Success (length samples))
                end
            end
        end
    end.

(** [Handlers.Ingest]. *)
Definition Ingest (E : auth.Env) (r : Request) : M Response :=
  if String.eqb (Method r) "OPTIONS" then ret Preflight
  else if negb (String.eqb (Method r) "POST")
  then ret (HttpError "Method not allowed" StatusMethodNotAllowed)
  else
    match Body r with
    | None => ret (HttpError "Invalid request body" StatusBadRequest)
    | Some req =>
        let authHeader := Authorization r in
        if String.eqb authHeader ""
        then ret (HttpError "Authorization header required" StatusUnauthorized)
        else
          let tokenParts := strings.Split authHeader " " in
          if negb (length tokenParts =? 2)%nat
             || negb (String.eqb (nth 0 tokenParts "") "Bearer")
          then ret (HttpError "Invalid authorization header format" StatusUnauthorized)
          else
            let token := nth 1 tokenParts "" in
            checked <- auth.ValidateToken E token (IngestRequest.RunID req) ;;
            let '(valid, err) := checked in
            match err with
            | Some _ => ret (HttpError "Token validation failed" StatusUnauthorized)
            | None =>
                if negb valid
                then ret (HttpError "Invalid token" StatusUnauthorized)
                else ingestAuthorized req
            end
    end.

(** [Handlers.Auth]. *)
Definition Auth (E : auth.Env) (r : http.Request)
    : M (http.Response TokenResponse.t) :=
  let runID := strings.TrimPrefix (http.Path r) "/auth/run/" in
  if String.eqb runID ""
  then ret (http.Error "run_id is required" http.StatusBadRequest)
  else
    generated <- auth.GenerateToken E runID ;;
    let '(token, expiresAt, err) := generated in
    match err with
    | Some _ =>
        ret (http.Error "Failed to generate token" http.StatusInternalServerError)
    | None => ret (http.OK (TokenResponse.mk token expiresAt))
    end.

(** [t.IsZero()]. *)
Definition IsZero (t : time.Time) : bool := t =? time.Zero.

(** [Handlers.GetRun]. *)
Definition GetRun (r : http.Request) : M (http.Response RunResponse.t) :=
  if String.eqb (http.Method r) http.MethodOptions then ret http.Preflight
  else if negb (String.eqb (http.Method r) http.MethodGet)
  then ret (http.Error "Method not allowed" http.StatusMethodNotAllowed)
  else
    let path := strings.TrimPrefix (http.Path r) "/runs/" in
    if String.eqb path ""
    then ret (http.Error "Run ID required" http.StatusBadRequest)
    else
      let runID := path in
      got <- storage.GetRun runID ;;
      let '(runDoc, err) := got in
      match runDoc, err with
      | Some runDoc, None =>
          ret (http.OK
                 (RunResponse.mk (RunDoc.Samples runDoc) (RunDoc.ProcessInfo runDoc)
                    (RunDoc.Finished runDoc)
                    (if negb (IsZero (RunDoc.FinishedAt runDoc))
                     then Some (RunDoc.FinishedAt runDoc) else None)
                    (RunDoc.UpdatedAt runDoc)))
      | _, _ =>
          ret (http.Error "Internal server error" http.StatusInternalServerError)
      end.

(** [Handlers.FinishRun]; the body of the answer is its message. *)
Definition FinishRun (E : auth.Env) (r : http.Request) : M (http.Response string) :=
  if String.eqb (http.Method r) http.MethodOptions then ret http.Preflight
  else if negb (String.eqb (http.Method r) http.MethodPost)
  then ret (http.Error "Method not allowed" http.StatusMethodNotAllowed)
  else
    let runID := strings.TrimPrefix (http.Path r) "/finish/" in
    if String.eqb runID ""
    then ret (http.Error "Run ID required" http.StatusBadRequest)
    else
      let authHeader := http.Header r "Authorization" in
      if String.eqb authHeader ""
      then ret (http.Error "Authorization header required" http.StatusUnauthorized)
      else
        let tokenParts := strings.Split authHeader " " in
        if negb (length tokenParts =? 2)%nat
           || negb (String.eqb (nth 0 tokenParts "") "Bearer")
        then ret (http.Error "Invalid authorization header format"
                    http.StatusUnauthorized)
        else
          let token := nth 1 tokenParts "" in
          checked <- auth.ValidateToken E token runID ;;
          let '(valid, err) := checked in
          match err with
          | Some _ =>
              ret (http.Error "Token validation failed" http.StatusUnauthorized)
          | None =>
              if negb valid
              then ret (http.Error "Invalid token" http.StatusUnauthorized)
              else
                err <- storage.MarkRunAsFinished runID ;;
                match err with
                | Some _ =>
                    ret (http.Error "Internal server error"
                           http.StatusInternalServerError)
                | None =>
                    ret (http.OK ("Run " +:+ runID +:+ " marked as finished"))
                end
          end.

End handlers.

(** ** Package [cleanup] *)

Module cleanup.

Definition BuildTimeout : time.Duration := 5 * time.Minute.
Definition DataRetentionPeriod : time.Duration := 3 * time.Hour.

(** The loop of [StartStaleRunCleanup] over the runs it found: a run
    that cannot be marked is only logged. *)
Fixpoint markStale (staleRuns : list string) : M unit :=
  match staleRuns with
  | [] => ret tt
  | runID :: rest =>
      storage.MarkRunAsFinished runID ;;;
      markStale rest
  end.

(** What [StartStaleRunCleanup] does each time its ticker fires. *)
Definition staleRunCleanupTick : M unit :=
  found <- storage.FindStaleRuns BuildTimeout ;;
  let '(staleRuns, err) := found in
  match err with
  | Some _ => ret tt
  | None => markStale staleRuns
  end.

(** What [StartDataRetentionCleanup] does each time its ticker fires. *)
Definition dataRetentionCleanupTick : M unit :=
  storage.DeleteOldRuns DataRetentionPeriod ;;;
  ret tt.

(** The loop of [HandleManualStaleCleanup] over the runs it found. *)
Fixpoint markCleaned (staleRuns cleanedRuns : list string) : M (list string) :=
  match staleRuns with
  | [] => ret cleanedRuns
  | runID :: rest =>
      err <- storage.MarkRunAsFinished runID ;;
      match err with
      | Some _ => markCleaned rest cleanedRuns
      | None => markCleaned rest (cleanedRuns ++ [runID])
      end
  end.

(** The answer of the manual sweep of stale runs. *)
Module StaleReport.
Record t : Type := mk {
  success : bool;
  total_checked : nat;
  stale_found : nat;
  cleaned_up : nat;
  cleaned_runs : list string
}.
End StaleReport.

(** The answer of the manual deletion of old runs. *)
Module RetentionReport.
Record t : Type := mk {
  success : bool;
  cutoff_time : time.Time;
  deleted_count : nat;
  deleted_runs : list string
}.
End RetentionReport.

(** [HandleManualStaleCleanup]; the text of the error of the store
    follows the message of the 500 answer. *)
Definition HandleManualStaleCleanup (adminSecret : string) (r : http.Request)
    : M (http.Response StaleReport.t) :=
  if String.eqb (http.Method r) http.MethodOptions then ret http.Preflight
  else if negb (String.eqb (http.Method r) http.MethodPost)
  then ret (http.Error "Method not allowed" http.StatusMethodNotAllowed)
  else if negb (auth.RequireAdminAuth adminSecret r)
  then ret (http.Error "Unauthorized - admin secret required" http.StatusUnauthorized)
  else
    found <- storage.FindStaleRuns BuildTimeout ;;
    let '(staleRuns, err) := found in
    match err with
    | Some _ =>
        ret (http.Error "Error finding stale runs: " http.StatusInternalServerError)
    | None =>
        cleanedRuns <- markCleaned staleRuns [] ;;
        ret (http.OK
               (StaleReport.mk true (length staleRuns) (length staleRuns)
                  (length cleanedRuns) cleanedRuns))
    end.

(** [HandleManualDataRetentionCleanup]. *)
Definition HandleManualDataRetentionCleanup (adminSecret : string) (r : http.Request)
    : M (http.Response RetentionReport.t) :=
  if String.eqb (http.Method r) http.MethodOptions then ret http.Preflight
  else if negb (String.eqb (http.Method r) http.MethodPost)
  then ret (http.Error "Method not allowed" http.StatusMethodNotAllowed)
  else if negb (auth.RequireAdminAuth adminSecret r)
  then ret (http.Error "Unauthorized - admin secret required" http.StatusUnauthorized)
  else
    deleted <- storage.DeleteOldRuns DataRetentionPeriod ;;
    let '(deletedRuns, err) := deleted in
    match err with
    | Some _ =>
        ret (http.Error "Error deleting runs: " http.StatusInternalServerError)
    | None =>
        now <- Now ;;
        ret (http.OK
               (RetentionReport.mk true
                  (time.Add now (wrap64 (- DataRetentionPeriod)))
                  (length deletedRuns) deletedRuns))
    end.

End cleanup.

(** * Vocabulary of the properties *)

(** ** Worlds *)

(** The clock reading the next [time.Now()] returns. *)
Definition reading (w : World) : time.Time := clock w (ticks w).

(** The world after one reading of the clock. *)
Definition tick (w : World) : World :=
  mkWorld (runs w) (ops w) (clock w) (S (ticks w)).

(** The world after the client calls [l]. *)
Definition logged (l : list FsOp) (w : World) : World :=
  mkWorld (runs w) (ops w ++ l) (clock w) (ticks w).

(** ** Samples *)

(** The timestamp of a sample taken [elapsed] seconds into a run that
    started at [T]. *)
Definition stamp (T : time.Time) (elapsed : Z) : Z :=
  storage.ToMillis (time.Add T (wrap64 (elapsed * time.Second))).

(** A sample moved to a run that started at [T]. *)
Definition retime (T : time.Time) (s : Sample.t) : Sample.t :=
  Sample.mk (stamp T (Sample.ElapsedTime s)) (Sample.ElapsedTime s) (Sample.PID s)
    (Sample.Name s) (Sample.HeapUsed s) (Sample.HeapCap s) (Sample.RSS s)
    (Sample.GCTime s) (Sample.RunID s).

(** The number of fields of a line, as the loop of [ParseData] counts
    them. *)
Definition fieldCount (line : string) : nat :=
  length (strings.Split (strings.TrimSpace line) "|").

(** The line of the specification's parsing example, and variations. *)
Definition sampleLine : string :=
  "00:01:30 | 123 | GradleDaemon | 100MB | 200MB | 300MB".

Definition laterLine : string :=
  "00:01:35 | 123 | GradleDaemon | 110MB | 210MB | 310MB".

Definition fourColumns : string := "00:01:30 | 123 | GradleDaemon | 100MB".

Definition heapUnavailable : string :=
  "00:01:30 | 123 | GradleDaemon | N/A | 200MB | 300MB".

Definition newline : string := String "010" EmptyString.

(** ** Run documents *)

(** The document [MarkRunAsFinished] writes at [now]. *)
Definition finishedDoc (d : RunDoc.t) (now : time.Time) : RunDoc.t :=
  RunDoc.mk (RunDoc.ID d) (RunDoc.RunID d) (RunDoc.StartTime d) (RunDoc.EndTime d)
    (RunDoc.CreatedAt d) now (storage.ToMillis now) (RunDoc.Samples d)
    (RunDoc.ProcessInfo d) true now.

(** The start time the ingest handler parses against. *)
Definition startTimeFor (runID : string) (w : World) : time.Time :=
  match runs w !! runID with
  | Some d => RunDoc.StartTime d
  | None => reading w
  end.

(** ** Strings *)

Fixpoint allChars (P : ascii -> bool) (s : string) : bool :=
  match s with
  | EmptyString => true
  | String c r => P c && allChars P r
  end.

Definition isNot (sep : ascii) (c : ascii) : bool := negb (Ascii.eqb c sep).

(** Neither the separator of a token nor a character the base64
    decoder skips. *)
Definition plainChar (c : ascii) : bool :=
  isNot "." c && negb (code c =? 13) && negb (code c =? 10).

(** What the round trip needs of the character of a sextet. *)
Definition sextetOK (n : Z) : bool :=
  match base64.decChar (base64.encChar n) with
  | Some m => m =? n
  | None => false
  end
  && plainChar (base64.encChar n) && isNot base64.padChar (base64.encChar n).

(** ** Tokens *)

(** The JSON codec gives back the token data [d] when it has serialised
    it, as [encoding/json] does for a run id that is valid UTF-8. *)
Definition RoundTrip (E : auth.Env) (d : TokenData.t) : Prop :=
  forall p, auth.jsonMarshal E d = Some p -> auth.jsonUnmarshal E p = Some d.

(** The decoded halves of a token: the payload and the signature.
    [None] unless the token is exactly two halves around one ".", the
    first in base64 and the second in hexadecimal. *)
Definition tokenHalves (token : string) : option (string * string) :=
  match strings.Split token "." with
  | [payloadEncoded; signatureHex] =>
      match base64.DecodeString payloadEncoded, hex.DecodeString signatureHex with
      | Some payload, Some signature => Some (payload, signature)
      | _, _ => None
      end
  | _ => None
  end.

(** The reasons of the specification to reject a token at [now]:
    malformed structure (the halves do not decode, or the payload is not
    a serialised token), signature mismatch, expiry, run-id mismatch. *)
Inductive Rejected (E : auth.Env) (token runID : string) (now : time.Time) : Prop :=
| RejectedMalformed :
    tokenHalves token = None -> Rejected E token runID now
| RejectedPayload payload signature :
    tokenHalves token = Some (payload, signature) ->
    auth.jsonUnmarshal E payload = None -> Rejected E token runID now
| RejectedSignature payload signature :
    tokenHalves token = Some (payload, signature) ->
    signature <> auth.hmac E (auth.secretKey E) payload -> Rejected E token runID now
| RejectedExpired payload signature d :
    tokenHalves token = Some (payload, signature) ->
    auth.jsonUnmarshal E payload = Some d ->
    TokenData.ExpiresAt d < now -> Rejected E token runID now
| RejectedRunID payload signature d :
    tokenHalves token = Some (payload, signature) ->
    auth.jsonUnmarshal E payload = Some d ->
    TokenData.RunID d <> runID -> Rejected E token runID now.


(** ** A small environment to run the service in

    The clock stands at the epoch.  The MAC is the key followed by the
    message, and the codec writes the run id of a token issued at the
    epoch: enough to issue a token and check it. *)

Definition demoExpiry : time.Time := 2 * time.Hour.

Definition demoEnv : auth.Env :=
  auth.mkEnv "secret"
    (fun key message => key +:+ message)
    (fun d =>
       if (TokenData.ExpiresAt d =? demoExpiry) && (TokenData.CreatedAt d =? 0)
       then Some (TokenData.RunID d) else None)
    (fun p => Some (TokenData.mk p demoExpiry 0)).

Definition demoWorld : World := mkWorld ∅ [] (fun _ => 0) 0.

Definition demoToken : string :=
  Eval vm_compute in fst (fst (fst (auth.GenerateToken demoEnv "run1" demoWorld))).

Definition demoDoc : RunDoc.t :=
  RunDoc.mk "run1" "run1" 0 time.Zero 0 0 0 [] ∅ false time.Zero.

Definition demoStore : World := mkWorld {["run1" := demoDoc]} [] (fun _ => 0) 0.

Definition demoRequest (authHeader data : string) : handlers.Request :=
  handlers.mkRequest "POST" authHeader
    (Some (IngestRequest.mk "run1" data None)).

Definition demoBearer : string := "Bearer " +:+ demoToken.

(** Three runs seen one hundred minutes after the epoch: one updated
    six minutes ago, one four minutes ago, one finished long ago. *)
Definition staleNow : time.Time := 100 * time.Minute.

Definition runUpdatedAt (t : time.Time) (finished : bool) : RunDoc.t :=
  RunDoc.mk "r" "r" 0 time.Zero 0 t (storage.ToMillis t) [] ∅ finished time.Zero.

Definition staleWorld : World :=
  mkWorld
    (<["old" := runUpdatedAt (staleNow - 6 * time.Minute) false]>
       (<["fresh" := runUpdatedAt (staleNow - 4 * time.Minute) false]>
          {["done" := runUpdatedAt 0 true]}))
    [] (fun _ => staleNow) 0.

(** ** More vocabulary: the store over time *)

(** The millisecond field of a document agrees with its update time. *)
Definition Consistent (d : RunDoc.t) : Prop :=
  RunDoc.UpdatedAtTimestamp d = storage.ToMillis (RunDoc.UpdatedAt d).

(** The samples of a run, none for a run that is not stored. *)
Definition samplesOf (runID : string) (w : World) : list Sample.t :=
  match runs w !! runID with
  | Some d => RunDoc.Samples d
  | None => []
  end.

(** The cutoff [DeleteOldRuns] compares the millisecond field with. *)
Definition cutoffFor (retentionPeriod : time.Duration) (now : time.Time) : Z :=
  storage.ToMillis (time.Add now (wrap64 (- retentionPeriod))).

(** A later state of a run document: the same run, started and created
    at the same time, with the samples it had at the front of its
    samples, and finished at the same time when it was finished. *)
Definition Extends (d d' : RunDoc.t) : Prop :=
  RunDoc.ID d' = RunDoc.ID d /\ RunDoc.RunID d' = RunDoc.RunID d
  /\ RunDoc.StartTime d' = RunDoc.StartTime d
  /\ RunDoc.EndTime d' = RunDoc.EndTime d
  /\ RunDoc.CreatedAt d' = RunDoc.CreatedAt d
  /\ RunDoc.Samples d `prefix_of` RunDoc.Samples d'
  /\ (RunDoc.Finished d = true ->
        RunDoc.Finished d' = true /\ RunDoc.FinishedAt d' = RunDoc.FinishedAt d).

(** The collection is the same in both worlds. *)
Definition Untouched (w w' : World) : Prop := runs w' = runs w.

(** Every run of [w] is still stored in [w'], in a later state. *)
Definition Evolves (w w' : World) : Prop :=
  forall id d, runs w !! id = Some d ->
    exists d', runs w' !! id = Some d' /\ Extends d d'.

(** Every document of the collection has a millisecond field that
    agrees with its update time. *)
Definition StoreConsistent (w : World) : Prop :=
  forall id d, runs w !! id = Some d -> Consistent d.

Definition KeepsConsistent (w w' : World) : Prop :=
  StoreConsistent w -> StoreConsistent w'.

(** A computation relates the world it starts in to the world it
    leaves. *)
Definition keeps {A} (R : World -> World -> Prop) (m : M A) : Prop :=
  forall w, R w (snd (m w)).

(** ** The server

    What the server is asked to do: a request on one of its routes, or
    a tick of one of its two background routines. *)
Inductive Call : Type :=
| CallAuth (r : http.Request)
| CallIngest (r : handlers.Request)
| CallGetRun (r : http.Request)
| CallFinishRun (r : http.Request)
| CallCleanupStale (r : http.Request)
| CallCleanupOld (r : http.Request)
| TickStale
| TickRetention.

(** The world after the server has answered a call. *)
Definition serve (E : auth.Env) (adminSecret : string) (c : Call) (w : World) : World :=
  match c with
  | CallAuth r => snd (handlers.Auth E r w)
  | CallIngest r => snd (handlers.Ingest E r w)
  | CallGetRun r => snd (handlers.GetRun r w)
  | CallFinishRun r => snd (handlers.FinishRun E r w)
  | CallCleanupStale r => snd (cleanup.HandleManualStaleCleanup adminSecret r w)
  | CallCleanupOld r => snd (cleanup.HandleManualDataRetentionCleanup adminSecret r w)
  | TickStale => snd (cleanup.staleRunCleanupTick w)
  | TickRetention => snd (cleanup.dataRetentionCleanupTick w)
  end.

(** The world after the server has answered the calls one after the
    other. *)
Definition serveAll (E : auth.Env) (adminSecret : string) (calls : list Call)
    (w : World) : World :=
  fold_left (fun w c => serve E adminSecret c w) calls w.

(** The ingest requests. *)
Definition ingests (c : Call) : bool :=
  match c with
  | CallIngest _ => true
  | _ => false
  end.

(** No run of [w'] is new with respect to [w]. *)
Definition NoNewRuns (w w' : World) : Prop :=
  forall id, runs w !! id = None -> runs w' !! id = None.

(** The calls that reach [DeleteOldRuns]. *)
Definition retention (c : Call) : bool :=
  match c with
  | CallCleanupOld _ | TickRetention => true
  | _ => false
  end.

(** ** Requests *)

(** The characters of a token: the URL alphabet of base64 with its
    padding, the separating dot and the hexadecimal digits. *)
Definition tokenChar (c : ascii) : bool :=
  let n := code c in
  ((48 <=? n) && (n <=? 57)) || ((65 <=? n) && (n <=? 90))
  || ((97 <=? n) && (n <=? 122))
  || (n =? 45) || (n =? 95) || (n =? 61) || (n =? 46).

(** The headers of a request that carries only [Authorization]. *)
Definition authorizationOnly (value : string) : string -> string :=
  fun name => if String.eqb name "Authorization" then value else "".

(** The headers of a request that carries only [X-Admin-Secret]. *)
Definition adminSecretOnly (value : string) : string -> string :=
  fun name => if String.eqb name "X-Admin-Secret" then value else "".

(** The request to finish a run fails authentication. *)
Definition FinishAuthFails (E : auth.Env) (r : http.Request) (w : World) : Prop :=
  let runID := strings.TrimPrefix (http.Path r) "/finish/" in
  let authHeader := http.Header r "Authorization" in
  authHeader = ""
  \/ (forall token, strings.Split authHeader " " <> ["Bearer"; token])
  \/ (exists token, strings.Split authHeader " " = ["Bearer"; token]
                    /\ fst (auth.ValidateToken E token runID w) <> (true, None)).

(** The request to finish run [target] with a bearer token. *)
Definition finishRequest (target token : string) : http.Request :=
  http.mkRequest "POST" ("/finish/" +:+ target)
    (authorizationOnly ("Bearer " +:+ token)).

(** What [Handlers.GetRun] answers for a document. *)
Definition reportOf (d : RunDoc.t) : RunResponse.t :=
  RunResponse.mk (RunDoc.Samples d) (RunDoc.ProcessInfo d) (RunDoc.Finished d)
    (if RunDoc.FinishedAt d =? time.Zero then None else Some (RunDoc.FinishedAt d))
    (RunDoc.UpdatedAt d).

(** A run the stale sweep finishes at [now]. *)
Definition isStale (now : time.Time) (d : RunDoc.t) : bool :=
  negb (RunDoc.Finished d)
  && (cleanup.BuildTimeout <? time.Sub now (RunDoc.UpdatedAt d)).

(** ** More of the small environment *)

(** Two runs seen ten hours after the epoch: one finished and last
    updated four hours ago, one last updated two hours ago. *)
Definition retentionNow : time.Time := 10 * time.Hour.

Definition retentionWorld : World :=
  mkWorld
    (<["old" := runUpdatedAt (retentionNow - 4 * time.Hour) true]>
       {["recent" := runUpdatedAt (retentionNow - 2 * time.Hour) false]})
    [] (fun _ => retentionNow) 0.

(** A request to a cleanup route with an admin secret. *)
Definition adminRequest (method secret : string) : http.Request :=
  http.mkRequest method "/cleanup/stale" (adminSecretOnly secret).

Definition demoAdminSecret : string := "s3cret".

(** A request that carries no header. *)
Definition plainRequest (method path : string) : http.Request :=
  http.mkRequest method path (fun _ => "").

(** A token is asked for, a line is ingested, the run is queried and
    finished, and the stale runs are swept twice. *)
Definition demoCalls : list Call :=
  [CallAuth (plainRequest "POST" "/auth/run/run1");
   CallIngest (demoRequest demoBearer sampleLine);
   CallGetRun (plainRequest "GET" "/runs/run1");
   CallFinishRun (finishRequest "run1" demoToken);
   TickStale;
   CallCleanupStale (adminRequest "POST" demoAdminSecret)].

(** ** The codec of the token service *)

(** A rune as [encoding/json] gives it back after it has written it:
    a byte that begins no well-formed UTF-8 encoding has become
    U+FFFD. *)
Definition coerceRune (rune : Z * string) : string :=
  if utf8.invalid rune then utf8.EncodeRune utf8.RuneError else snd rune.

(** A string after that passage. *)
Definition coerced (s : string) : string :=
  json.concat (map coerceRune (utf8.runes s)).

(** The token service with the codec of [encoding/json]; the key and
    the MAC stay open. *)
Definition jsonEnv (key : string) (mac : string -> string -> string) : auth.Env :=
  auth.mkEnv key mac json.Marshal json.Unmarshal.

(** A run id that is not UTF-8: the single byte 0xFF, as the path
    [/auth/run/%FF] carries it. *)
Definition byteFF : string := bytes [255%nat].

(** U+FFFD in UTF-8. *)
Definition replacement : string := bytes [239%nat; 191%nat; 189%nat].

(** The token that service issues for "run1" at the epoch, with the
    MAC of the small environment. *)
Definition jsonToken : string :=
  Eval vm_compute in
    fst (fst (fst (auth.GenerateToken
                     (jsonEnv "secret" (fun key message => key +:+ message))
                     "run1" demoWorld))).

(** A rune with the bytes it was read from, as the loop over a string
    meets it. *)
Definition decoded (rune : Z * string) : Prop :=
  exists c r,
    fst rune = fst (utf8.DecodeRuneInString (String c r))
    /\ snd rune
       = String.substring 0 (snd (utf8.DecodeRuneInString (String c r))) (String c r).

(** A byte that stands for itself inside a string literal. *)
Definition literalChar (c : ascii) : bool :=
  (32 <=? code c) && negb (code c =? 34) && negb (code c =? 92).

Definition highChar (c : ascii) : bool := 128 <=? code c.

(** An empty store whose clock advances by one second with every
    reading, from the epoch on. *)
Definition tickingWorld : World :=
  mkWorld ∅ [] (fun k => Z.of_nat k * time.Second) 0.

(** * Properties *)

(** ** The library functions on small inputs *)

Example Split_fields : strings.Split "a|b||c" "|" = ["a"; "b"; ""; "c"].
Proof. reflexivity. Qed.

Example Split_empty : strings.Split "" "." = [""].
Proof. reflexivity. Qed.

Example TrimSpace_both_ends :
  strings.TrimSpace (bytes [32; 9; 194; 160; 65; 32; 66; 226; 128; 138; 10]%nat) = "A B".
Proof. reflexivity. Qed.

Example TrimSuffix_unit :
  strings.TrimSuffix "100MB" "MB" = "100" /\ strings.TrimSuffix "0.250s" "ms" = "0.250s".
Proof. by split. Qed.

Example Atoi_values :
  map strconv.Atoi ["30"; "-5"; "+7"; ""; "-"; "1x"; "9223372036854775808"] =
  [Some 30; Some (-5); Some 7; None; None; None; None].
Proof. reflexivity. Qed.

Example ParseFloat_values :
  map (fun s => strconv.int_of_float <$> strconv.ParseFloat s)
    ["100"; "200.9"; "-3.7"; "1e3"; "0x1p4"; "1_000"; "N/A"; ""; "0.250s"; "1e400"] =
  [Some 100; Some 200; Some (-3); Some 1000; Some 16; Some 1000; None; None; None; None].
Proof. by vm_compute. Qed.

Example ParseFloat_rounds :
  strconv.ParseFloat "0.1" = Some (strconv.Finite false 7205759403792794 (-56))
  /\ strconv.ParseFloat "9007199254740993" = Some (strconv.Finite false 4503599627370496 1).
Proof. by vm_compute. Qed.

Example hex_values :
  hex.EncodeToString "Hi!" = "486921" /\ hex.DecodeString "48692A" = Some "Hi*"
  /\ hex.DecodeString "4869f" = None.
Proof. by vm_compute. Qed.

Example base64_values :
  base64.EncodeToString "Hello, world?>" = "SGVsbG8sIHdvcmxkPz4="
  /\ base64.EncodeToString "Hello, world?>>" = "SGVsbG8sIHdvcmxkPz4-"
  /\ base64.DecodeString "SGVsbG8sIHdvcmxkPz4-Pg==" = Some "Hello, world?>>>"
  /\ base64.DecodeString "SGVsbG8sIHdvcmxkPz4-Pg=" = None.
Proof. by vm_compute. Qed.

Example ToMillis_truncates :
  storage.ToMillis 1999999 = 1 /\ storage.ToMillis (-1999999) = -1.
Proof. by vm_compute. Qed.

(** ** Bytes, separators and the encodings *)

Lemma byte_of_code c : byte_of (Z.to_nat (code c)) = c.
Proof. unfold byte_of, code. rewrite Nat2Z.id. apply ascii_nat_embedding. Qed.

Lemma code_range c : 0 <= code c < 256.
Proof. unfold code. pose proof (nat_ascii_bounded c). lia. Qed.

Lemma allChars_impl (P Q : ascii -> bool) s :
  (forall c, P c = true -> Q c = true) -> allChars P s = true -> allChars Q s = true.
Proof.
  intros HPQ. induction s as [|c s IH]; simpl; [done|].
  intros [Hc Hs]%andb_true_iff. by rewrite (HPQ c Hc), IH.
Qed.

(** A string without the separator is a single field. *)
Lemma Split_nosep s sep : allChars (isNot sep) s = true -> strings.Split s sep = [s].
Proof.
  induction s as [|c s IH]; simpl; [done|].
  intros [Hc Hs]%andb_true_iff. unfold isNot in Hc. apply negb_true_iff in Hc.
  by rewrite Hc, (IH Hs).
Qed.

Lemma Split_app s sep t :
  allChars (isNot sep) s = true ->
  strings.Split (s +:+ String sep t) sep = s :: strings.Split t sep.
Proof.
  induction s as [|c s IH]; simpl.
  - intros _. by rewrite Ascii.eqb_refl.
  - intros [Hc Hs]%andb_true_iff. unfold isNot in Hc. apply negb_true_iff in Hc.
    by rewrite Hc, (IH Hs).
Qed.

Lemma hex_byte c r :
  hex.DecodeString
    (String (hex.digit (code c / 16)) (String (hex.digit (code c mod 16)) r)) =
  match hex.DecodeString r with
  | Some t => Some (String c t)
  | None => None
  end.
Proof.
  cbn [hex.DecodeString].
  assert (H : hex.fromHexChar (hex.digit (code c / 16)) = Some (code c / 16)
           /\ hex.fromHexChar (hex.digit (code c mod 16)) = Some (code c mod 16)).
  { destruct c as [[] [] [] [] [] [] [] []]; by vm_compute. }
  destruct H as [-> ->].
  replace (code c / 16 * 16 + code c mod 16) with (code c)
    by (pose proof (Z.div_mod (code c) 16); lia).
  by rewrite byte_of_code.
Qed.

Lemma hex_round_trip s : hex.DecodeString (hex.EncodeToString s) = Some s.
Proof.
  induction s as [|c s IH]; [done|].
  cbn [hex.EncodeToString]. by rewrite hex_byte, IH.
Qed.

Lemma hex_no_dot s : allChars (isNot ".") (hex.EncodeToString s) = true.
Proof.
  induction s as [|c s IH]; [done|]. cbn [hex.EncodeToString allChars].
  assert (H : isNot "." (hex.digit (code c / 16)) = true
           /\ isNot "." (hex.digit (code c mod 16)) = true).
  { destruct c as [[] [] [] [] [] [] [] []]; by vm_compute. }
  destruct H as [-> ->]. by rewrite IH.
Qed.

(** A property of the 64 sextets is checked by running through them. *)
Lemma sextet_cases (P : Z -> bool) :
  forallb P (map Z.of_nat (seq 0 64)) = true ->
  forall n, 0 <= n < 64 -> P n = true.
Proof.
  intros H n Hn. rewrite forallb_forall in H. apply H.
  apply in_map_iff. exists (Z.to_nat n). split; [lia|]. apply in_seq. lia.
Qed.

Lemma sextet_ok n : 0 <= n < 64 -> sextetOK n = true.
Proof. apply sextet_cases. by vm_compute. Qed.

Lemma dec_enc n : 0 <= n < 64 -> base64.decChar (base64.encChar n) = Some n.
Proof.
  intros Hn. pose proof (sextet_ok n Hn) as H. unfold sextetOK in H.
  apply andb_true_iff in H as [[H _]%andb_true_iff _].
  destruct (base64.decChar _) as [m|]; [|done]. apply Z.eqb_eq in H. by subst.
Qed.

Lemma enc_plain n : 0 <= n < 64 -> plainChar (base64.encChar n) = true.
Proof.
  intros Hn. pose proof (sextet_ok n Hn) as H. unfold sextetOK in H.
  by apply andb_true_iff in H as [[_ H]%andb_true_iff _].
Qed.

Lemma enc_not_pad n :
  0 <= n < 64 -> Ascii.eqb (base64.encChar n) base64.padChar = false.
Proof.
  intros Hn. pose proof (sextet_ok n Hn) as H. unfold sextetOK in H.
  apply andb_true_iff in H as [_ H]. unfold isNot in H. by apply negb_true_iff in H.
Qed.

(** Induction on a string three bytes at a time, as the encoder reads
    it. *)
Lemma string_by_triples (P : string -> Prop) :
  P "" ->
  (forall a, P (String a "")) ->
  (forall a b, P (String a (String b ""))) ->
  (forall a b c r, P r -> P (String a (String b (String c r)))) ->
  forall s, P s.
Proof.
  intros H0 H1 H2 H3 s.
  cut (P s /\ (forall a, P (String a s)) /\ (forall a b, P (String a (String b s)))).
  { tauto. }
  induction s as [|c s (IH0 & IH1 & IH2)]; [by auto|].
  split; [apply IH1|]. split; [intros a; apply IH2|]. intros a b. by apply H3.
Qed.

Ltac sextet_range := Z.div_mod_to_equations; lia.

Lemma base64_plain s : allChars plainChar (base64.EncodeToString s) = true.
Proof.
  induction s as [|a|a b|a b c r IH] using string_by_triples; [done|..];
    cbn [base64.EncodeToString allChars];
    pose proof (code_range a); try pose proof (code_range b);
    try pose proof (code_range c);
    rewrite ?enc_plain, ?IH; try done; sextet_range.
Qed.

Lemma stripNewlines_plain s :
  allChars plainChar s = true -> base64.stripNewlines s = s.
Proof.
  induction s as [|c s IH]; simpl; [done|].
  intros [Hc Hs]%andb_true_iff. unfold plainChar in Hc.
  apply andb_true_iff in Hc as [[_ H13]%andb_true_iff H10].
  apply negb_true_iff in H13, H10. by rewrite H13, H10, (IH Hs).
Qed.

Lemma base64_no_dot s : allChars (isNot ".") (base64.EncodeToString s) = true.
Proof.
  eapply allChars_impl; [|apply base64_plain].
  by intros c [[H _]%andb_true_iff _]%andb_true_iff.
Qed.

Lemma decodeQuanta_encode s :
  base64.decodeQuanta (base64.EncodeToString s) = Some s.
Proof.
  induction s as [|a|a b|a b c r IH] using string_by_triples; [done|..];
    cbn [base64.EncodeToString base64.decodeQuanta];
    pose proof (code_range a) as Ha;
    try pose proof (code_range b) as Hb; try pose proof (code_range c) as Hc.
  - rewrite !dec_enc by sextet_range.
    rewrite Ascii.eqb_refl. simpl. unfold base64.byte.
    replace (code a / 4 * 4 + code a mod 4 * 16 / 16) with (code a) by sextet_range.
    by rewrite byte_of_code.
  - rewrite !dec_enc by sextet_range.
    rewrite enc_not_pad by sextet_range.
    rewrite Ascii.eqb_refl. simpl. unfold base64.byte.
    replace (code a / 4 * 4 + (code a mod 4 * 16 + code b / 16) / 16) with (code a)
      by sextet_range.
    replace ((code a mod 4 * 16 + code b / 16) mod 16 * 16 + code b mod 16 * 4 / 4)
      with (code b) by sextet_range.
    by rewrite !byte_of_code.
  - rewrite !dec_enc by sextet_range.
    rewrite !enc_not_pad by sextet_range.
    rewrite IH. unfold base64.byte.
    replace (code a / 4 * 4 + (code a mod 4 * 16 + code b / 16) / 16) with (code a)
      by sextet_range.
    replace ((code a mod 4 * 16 + code b / 16) mod 16 * 16
             + (code b mod 16 * 4 + code c / 64) / 4)
      with (code b) by sextet_range.
    replace ((code b mod 16 * 4 + code c / 64) mod 4 * 64 + code c mod 64)
      with (code c) by sextet_range.
    by rewrite !byte_of_code.
Qed.

Lemma base64_round_trip s : base64.DecodeString (base64.EncodeToString s) = Some s.
Proof.
  unfold base64.DecodeString.
  rewrite stripNewlines_plain by apply base64_plain. apply decodeQuanta_encode.
Qed.

(** * The JSON codec of the token data *)

(** ** Strings *)

Lemma string_append_cons c s t : String c s +:+ t = String c (s +:+ t).
Proof. reflexivity. Qed.

Lemma string_append_nil_l s : "" +:+ s = s.
Proof. reflexivity. Qed.

Lemma string_append_assoc s t u : (s +:+ t) +:+ u = s +:+ (t +:+ u).
Proof. induction s as [|c s IH]; [done|]. by rewrite !string_append_cons, IH. Qed.

Lemma string_append_nil_r s : s +:+ "" = s.
Proof. induction s as [|c s IH]; [done|]. by rewrite string_append_cons, IH. Qed.

Lemma string_length_append s t :
  String.length (s +:+ t) = (String.length s + String.length t)%nat.
Proof. induction s as [|c s IH]; [done|]. rewrite string_append_cons. simpl. by rewrite IH. Qed.

Lemma substring_all s : String.substring 0 (String.length s) s = s.
Proof. induction s as [|c s IH]; [done|]. cbn. by rewrite IH. Qed.

Lemma substring_zero s : String.substring 0 0 s = "".
Proof. by destruct s. Qed.

Lemma allChars_app P s t :
  allChars P (s +:+ t) = allChars P s && allChars P t.
Proof. induction s as [|c s IH]; [done|]. simpl. by rewrite IH, andb_assoc. Qed.

(** ** Runes *)

Lemma runesFrom_decoded s : forall skip, Forall decoded (utf8.runesFrom skip s).
Proof.
  induction s as [|c r IH]; intros skip; [constructor|].
  destruct skip as [|k]; cbn [utf8.runesFrom]; [|apply IH].
  destruct (utf8.DecodeRuneInString (String c r)) as [rune size] eqn:Hd.
  constructor; [|apply IH]. exists c, r. by rewrite Hd.
Qed.

Ltac bools :=
  repeat match goal with
         | H : _ && _ = true |- _ => apply andb_true_iff in H as [? ?]
         | H : (_ <=? _) = true |- _ => apply Z.leb_le in H
         | H : (_ <=? _) = false |- _ => apply Z.leb_gt in H
         | H : (_ <? _) = true |- _ => apply Z.ltb_lt in H
         | H : (_ <? _) = false |- _ => apply Z.ltb_ge in H
         | H : (_ =? _) = true |- _ => apply Z.eqb_eq in H
         | H : (_ =? _) = false |- _ => apply Z.eqb_neq in H
         end.

(** The three kinds of runes of a string: an ASCII character, a byte
    that begins no well-formed encoding, and a well-formed encoding of
    two to four bytes, which [EncodeRune] gives back. *)
Lemma decoded_cases rune :
  decoded rune ->
  (exists c, rune = (code c, String c "") /\ code c < 128)
  \/ (exists c, rune = (utf8.RuneError, String c "") /\ 128 <= code c)
  \/ (128 <= fst rune /\ (2 <= String.length (snd rune))%nat
      /\ allChars highChar (snd rune) = true
      /\ utf8.EncodeRune (fst rune) = snd rune
      /\ forall rest,
           utf8.DecodeRuneInString (snd rune +:+ rest)
           = (fst rune, String.length (snd rune))).
Proof.
  intros (c0 & r & Hr & Hraw). destruct rune as [x raw]. cbn [fst snd] in *.
  revert Hr Hraw. unfold utf8.DecodeRuneInString.
  pose proof (code_range c0) as H0.
  destruct (code c0 <? 128) eqn:Hascii.
  { cbn [fst snd String.substring]. rewrite substring_zero. intros -> ->. left. exists c0. split; [done|]. by apply Z.ltb_lt. }
  apply Z.ltb_ge in Hascii.
  assert (forall raw', x = utf8.RuneError -> raw' = String c0 "" ->
            (exists c, (x, raw') = (code c, String c "") /\ code c < 128)
            \/ (exists c, (x, raw') = (utf8.RuneError, String c "") /\ 128 <= code c)
            \/ (128 <= x /\ (2 <= String.length raw')%nat
                /\ allChars highChar raw' = true
                /\ utf8.EncodeRune x = raw'
                /\ forall rest,
                     utf8.DecodeRuneInString (raw' +:+ rest)
                     = (x, String.length raw'))) as Hbad.
  { intros raw' -> ->. right. left. by exists c0. }
  destruct r as [|c1 r]; [cbn [fst snd String.substring]; rewrite ?substring_zero; intros -> ->; by apply Hbad|].
  pose proof (code_range c1) as H1.
  destruct ((194 <=? code c0) && (code c0 <=? 223)) eqn:H2.
  { unfold utf8.continuation.
    destruct ((128 <=? code c1) && (code c1 <=? 191)) eqn:Hc1;
      [|cbn [fst snd String.substring]; rewrite ?substring_zero; intros -> ->; by apply Hbad].
    cbn [fst snd String.substring]; rewrite ?substring_zero; intros -> ->. right. right. bools. cbn [fst snd String.substring String.length].
    split; [lia|]. split; [lia|]. split.
    { unfold highChar. cbn [allChars].
      by rewrite !(proj2 (Z.leb_le _ _)) by lia. }
    split.
    { unfold utf8.EncodeRune.
      rewrite (proj2 (andb_false_iff _ _)) by (right; apply Z.leb_gt; lia).
      rewrite (proj2 (andb_true_iff _ _)) by (split; apply Z.leb_le; lia).
      replace (192 + ((code c0 - 192) * 64 + (code c1 - 128)) / 64) with (code c0)
        by sextet_range.
      replace (128 + ((code c0 - 192) * 64 + (code c1 - 128)) mod 64) with (code c1)
        by sextet_range.
      by rewrite !byte_of_code. }
    intros rest. rewrite !string_append_cons. cbv beta iota.
    rewrite (proj2 (Z.ltb_ge _ _)) by lia.
    rewrite (proj2 (andb_true_iff _ _)) by (split; apply Z.leb_le; lia).
    unfold utf8.continuation.
    by rewrite (proj2 (andb_true_iff _ _)) by (split; apply Z.leb_le; lia). }
  destruct r as [|c2 r]; [cbn [fst snd String.substring]; rewrite ?substring_zero; intros -> ->; by apply Hbad|].
  pose proof (code_range c2) as H2'.
  destruct ((224 <=? code c0) && (code c0 <=? 239)) eqn:H3.
  { unfold utf8.continuation.
    destruct (((if code c0 =? 224 then 160 else 128) <=? code c1)
              && (code c1 <=? (if code c0 =? 237 then 159 else 191))
              && ((128 <=? code c2) && (code c2 <=? 191))) eqn:Hc;
      [|cbn [fst snd String.substring]; rewrite ?substring_zero; intros -> ->; by apply Hbad].
    cbn [fst snd String.substring]; rewrite ?substring_zero; intros -> ->. right. right. cbn [fst snd String.substring String.length].
    assert (128 <= code c1 <= 191 /\ 128 <= code c2 <= 191
            /\ (code c0 = 224 -> 160 <= code c1)
            /\ (code c0 = 237 -> code c1 <= 159) /\ 224 <= code c0 <= 239) as Hb.
    { destruct (code c0 =? 224) eqn:?, (code c0 =? 237) eqn:?; bools; lia. }
    split; [lia|]. split; [lia|]. split.
    { unfold highChar. cbn [allChars].
      by rewrite !(proj2 (Z.leb_le _ _)) by lia. }
    split.
    { unfold utf8.EncodeRune.
      set (x := ((code c0 - 224) * 64 + (code c1 - 128)) * 64 + (code c2 - 128)).
      assert (2048 <= x <= 65535 /\ ~ (55296 <= x <= 57343)) as Hx by (unfold x; lia).
      rewrite (proj2 (andb_false_iff _ _)) by (right; apply Z.leb_gt; lia).
      rewrite (proj2 (andb_false_iff _ _)) by (right; apply Z.leb_gt; lia).
      assert ((x <? 0) || (1114111 <? x) || ((55296 <=? x) && (x <=? 57343)) = false)
        as ->.
      { rewrite !orb_false_iff. split; [split|].
        - apply Z.ltb_ge; lia.
        - apply Z.ltb_ge; lia.
        - destruct (55296 <=? x) eqn:?, (x <=? 57343) eqn:?; bools; try done; lia. }
      rewrite (proj2 (Z.leb_le _ _)) by lia.
      replace (224 + x / 4096) with (code c0) by (unfold x; sextet_range).
      replace (128 + x / 64 mod 64) with (code c1) by (unfold x; sextet_range).
      replace (128 + x mod 64) with (code c2) by (unfold x; sextet_range).
      by rewrite !byte_of_code. }
    intros rest. rewrite !string_append_cons. cbv beta iota.
    rewrite (proj2 (Z.ltb_ge _ _)) by lia. rewrite H2, H3.
    unfold utf8.continuation. by rewrite Hc. }
  destruct r as [|c3 r]; [cbn [fst snd String.substring]; rewrite ?substring_zero; intros -> ->; by apply Hbad|].
  pose proof (code_range c3) as H3'.
  destruct ((240 <=? code c0) && (code c0 <=? 244)) eqn:H4;
    [|cbn [fst snd String.substring]; rewrite ?substring_zero; intros -> ->; by apply Hbad].
  unfold utf8.continuation.
  destruct (((if code c0 =? 240 then 144 else 128) <=? code c1)
            && (code c1 <=? (if code c0 =? 244 then 143 else 191))
            && ((128 <=? code c2) && (code c2 <=? 191))
            && ((128 <=? code c3) && (code c3 <=? 191))) eqn:Hc;
    [|cbn [fst snd String.substring]; rewrite ?substring_zero; intros -> ->; by apply Hbad].
  cbn [fst snd String.substring]; rewrite ?substring_zero; intros -> ->. right. right. cbn [fst snd String.substring String.length].
  assert (128 <= code c1 <= 191 /\ 128 <= code c2 <= 191 /\ 128 <= code c3 <= 191
          /\ (code c0 = 240 -> 144 <= code c1)
          /\ (code c0 = 244 -> code c1 <= 143) /\ 240 <= code c0 <= 244) as Hb.
  { destruct (code c0 =? 240) eqn:?, (code c0 =? 244) eqn:?; bools; lia. }
  split; [lia|]. split; [lia|]. split.
  { unfold highChar. cbn [allChars].
    by rewrite !(proj2 (Z.leb_le _ _)) by lia. }
  split.
  { unfold utf8.EncodeRune.
    set (x := (((code c0 - 240) * 64 + (code c1 - 128)) * 64 + (code c2 - 128)) * 64
              + (code c3 - 128)).
    assert (65536 <= x <= 1114111) as Hx by (unfold x; lia).
    rewrite (proj2 (andb_false_iff _ _)) by (right; apply Z.leb_gt; lia).
    rewrite (proj2 (andb_false_iff _ _)) by (right; apply Z.leb_gt; lia).
    assert ((x <? 0) || (1114111 <? x) || ((55296 <=? x) && (x <=? 57343)) = false)
      as ->.
    { rewrite !orb_false_iff. split; [split|].
      - apply Z.ltb_ge; lia.
      - apply Z.ltb_ge; lia.
      - apply andb_false_iff. right. apply Z.leb_gt. lia. }
    rewrite (proj2 (Z.leb_gt _ _)) by lia.
    replace (240 + x / 262144) with (code c0) by (unfold x; sextet_range).
    replace (128 + x / 4096 mod 64) with (code c1) by (unfold x; sextet_range).
    replace (128 + x / 64 mod 64) with (code c2) by (unfold x; sextet_range).
    replace (128 + x mod 64) with (code c3) by (unfold x; sextet_range).
    by rewrite !byte_of_code. }
  intros rest. rewrite !string_append_cons. cbv beta iota.
  rewrite (proj2 (Z.ltb_ge _ _)) by lia. rewrite H2, H3, H4.
  unfold utf8.continuation. by rewrite Hc.
Qed.

(** ** String literals *)

Lemma fromHexChar_digit n : 0 <= n < 16 -> hex.fromHexChar (hex.digit n) = Some n.
Proof.
  intros Hn. rewrite <- (Z2Nat.id n) by lia.
  assert (Z.to_nat n < 16)%nat as Hk by lia. revert Hk.
  generalize (Z.to_nat n). intros k Hk.
  do 16 (destruct k as [|k]; [by vm_compute|]). lia.
Qed.

Lemma scanString_literal chunk s :
  allChars literalChar chunk = true ->
  json.scanString (chunk +:+ s)
  = match json.scanString s with
    | Some (raw, rest) => Some (chunk +:+ raw, rest)
    | None => None
    end.
Proof.
  induction chunk as [|c chunk IH]; intros Hc.
  - rewrite string_append_nil_l. by destruct (json.scanString s) as [[raw rest]|].
  - cbn [allChars] in Hc. apply andb_true_iff in Hc as [Hc Hs].
    rewrite string_append_cons. cbn [json.scanString].
    unfold literalChar in Hc. apply andb_true_iff in Hc as [Hc H92].
    apply andb_true_iff in Hc as [H32 H34]. apply negb_true_iff in H34, H92.
    apply Z.leb_le in H32. rewrite H34, H92, (proj2 (Z.ltb_ge _ _)) by lia.
    rewrite (IH Hs). by destruct (json.scanString s) as [[raw rest]|].
Qed.

Lemma scanString_backslash e r :
  json.scanString (json.backslash +:+ String e r)
  = if json.simpleEscape e || ((code e =? 117) && bool_decide (is_Some (json.hex4 r)))
    then match json.scanString r with
         | Some (raw, rest) => Some (json.backslash +:+ String e raw, rest)
         | None => None
         end
    else None.
Proof. reflexivity. Qed.

Lemma scanString_escape e s :
  json.simpleEscape e = true ->
  json.scanString (json.backslash +:+ String e s)
  = match json.scanString s with
    | Some (raw, rest) => Some (json.backslash +:+ String e raw, rest)
    | None => None
    end.
Proof. intros He. by rewrite scanString_backslash, He. Qed.

Lemma hex_literal c : json.isHex c = true -> literalChar c = true.
Proof.
  unfold json.isHex, hex.fromHexChar, literalChar.
  repeat case_match; try done; bools; intros _;
    rewrite (proj2 (Z.leb_le _ _)) by lia;
    by rewrite !(proj2 (Z.eqb_neq _ _)) by lia.
Qed.

Lemma scanString_unicode a b c d s :
  json.isHex a = true -> json.isHex b = true -> json.isHex c = true ->
  json.isHex d = true ->
  json.scanString (json.backslash +:+ String "u" (String a (String b (String c (String d s)))))
  = match json.scanString s with
    | Some (raw, rest) =>
        Some (json.backslash
                +:+ String "u" (String a (String b (String c (String d raw)))), rest)
    | None => None
    end.
Proof.
  intros Ha Hb Hc Hd. rewrite scanString_backslash.
  assert (is_Some (json.hex4 (String a (String b (String c (String d s)))))) as Hh.
  { unfold json.hex4, json.isHex in *.
    destruct (hex.fromHexChar a), (hex.fromHexChar b), (hex.fromHexChar c),
      (hex.fromHexChar d); done. }
  rewrite (bool_decide_eq_true_2 _ Hh).
  change (json.simpleEscape "u" || ((code "u" =? 117) && true)) with true.
  cbv iota.
  change (String a (String b (String c (String d s))))
    with (String a (String b (String c (String d ""))) +:+ s).
  rewrite scanString_literal.
  - by destruct (json.scanString s) as [[raw rest]|].
  - cbn [allChars]. by rewrite !hex_literal.
Qed.

Lemma high_literal c : highChar c = true -> literalChar c = true.
Proof.
  unfold highChar, literalChar. intros H. bools.
  rewrite (proj2 (Z.leb_le _ _)) by lia.
  by rewrite !(proj2 (Z.eqb_neq _ _)) by lia.
Qed.

Lemma invalid_long x raw :
  (2 <= String.length raw)%nat -> utf8.invalid (x, raw) = false.
Proof.
  intros Hl. unfold utf8.invalid. cbn [fst snd]. apply andb_false_iff. right.
  apply Nat.eqb_neq. lia.
Qed.

(** What [quoteRune] writes for a rune is passed by the scanner. *)
Lemma scanString_quoteRune rune s :
  decoded rune ->
  json.scanString (json.quoteRune rune +:+ s)
  = match json.scanString s with
    | Some (raw, rest) => Some (json.quoteRune rune +:+ raw, rest)
    | None => None
    end.
Proof.
  intros Hrune. apply decoded_cases in Hrune.
  destruct Hrune as [(c & Heq & Hc) | [(c & Heq & Hc) | (Hx & Hl & Hh & _ & _)]];
    try subst rune.
  - pose proof (code_range c) as Hr. unfold json.quoteRune.
    rewrite (proj2 (Z.ltb_lt _ _) Hc).
    destruct (json.htmlSafe (code c)) eqn:Hsafe.
    { apply scanString_literal. cbn [allChars]. unfold json.htmlSafe in Hsafe.
      unfold literalChar. bools. rewrite (proj2 (Z.leb_le _ _)) by lia.
      apply negb_true_iff in H0. rewrite !orb_false_iff in H0.
      destruct H0 as [[[[-> ->] _] _] _]. done. }
    destruct ((code c =? 92) || (code c =? 34)) eqn:Hq.
    { apply (scanString_escape c s). unfold json.simpleEscape.
      apply orb_true_iff in Hq as [-> | ->]; by rewrite ?orb_true_r. }
    destruct (code c =? 8); [exact (scanString_escape "b" s eq_refl)|].
    destruct (code c =? 12); [exact (scanString_escape "f" s eq_refl)|].
    destruct (code c =? 10); [exact (scanString_escape "n" s eq_refl)|].
    destruct (code c =? 13); [exact (scanString_escape "r" s eq_refl)|].
    destruct (code c =? 9); [exact (scanString_escape "t" s eq_refl)|].
    apply (scanString_unicode "0" "0" _ _ s eq_refl eq_refl);
      unfold json.isHex; rewrite fromHexChar_digit; try done; sextet_range.
  - unfold json.quoteRune.
    change (utf8.RuneError <? 128) with false. cbv iota.
    change (utf8.invalid (utf8.RuneError, String c "")) with true. cbv iota.
    exact (scanString_unicode "f" "f" "f" "d" s eq_refl eq_refl eq_refl eq_refl).
  - destruct rune as [x raw]. cbn [fst snd] in *. unfold json.quoteRune.
    rewrite (proj2 (Z.ltb_ge _ _)) by lia. rewrite (invalid_long _ _ Hl).
    destruct ((x =? 8232) || (x =? 8233)) eqn:Hsep.
    + apply (scanString_unicode "2" "0" "2" _ s eq_refl eq_refl eq_refl).
      unfold json.isHex. rewrite fromHexChar_digit; [done|sextet_range].
    + apply scanString_literal. eapply allChars_impl; [|exact Hh].
      apply high_literal.
Qed.

Lemma scanString_quoted l rest :
  Forall decoded l ->
  json.scanString (json.concat (map json.quoteRune l) +:+ json.quoteMark +:+ rest)
  = Some (json.concat (map json.quoteRune l), rest).
Proof.
  induction 1 as [|rune l Hrune _ IH]; [done|].
  cbn [map json.concat]. rewrite string_append_assoc, scanString_quoteRune by done.
  by rewrite IH.
Qed.

(** The bytes that were just read are passed. *)
Lemma unquoteFrom_skip a rest :
  json.unquoteFrom (String.length a) (a +:+ rest) = json.unquoteFrom 0 rest.
Proof.
  induction a as [|c a IH]; [done|].
  rewrite string_append_cons. exact IH.
Qed.

Lemma unquoteFrom_ascii c rest :
  literalChar c = true -> code c < 128 ->
  json.unquoteFrom 0 (String c rest)
  = json.prepend (String c "") (json.unquoteFrom 0 rest).
Proof.
  unfold literalChar. intros Hc Hlt. apply andb_true_iff in Hc as [Hc H92].
  apply andb_true_iff in Hc as [H32 H34]. apply negb_true_iff in H34, H92.
  apply Z.leb_le in H32. cbn [json.unquoteFrom].
  by rewrite H92, H34, (proj2 (Z.ltb_ge _ _)), (proj2 (Z.ltb_lt _ _)) by lia.
Qed.

Lemma unquoteFrom_mark e rest :
  (code e =? 92) || (code e =? 34) = true ->
  json.unquoteFrom 0 (json.backslash +:+ String e rest)
  = json.prepend (String e "") (json.unquoteFrom 0 rest).
Proof.
  intros He. change (json.backslash +:+ ?x) with (String (byte_of 92) x).
  cbn [json.unquoteFrom]. change (code (byte_of 92) =? 92) with true. cbv iota.
  assert ((code e =? 34) || (code e =? 92) || (code e =? 47) || (code e =? 39) = true)
    as ->; [|done].
  apply orb_true_iff in He as [-> | ->]; by rewrite ?orb_true_r.
Qed.

Lemma hex4_digits x y z u rest :
  0 <= x < 16 -> 0 <= y < 16 -> 0 <= z < 16 -> 0 <= u < 16 ->
  json.hex4 (String (hex.digit x) (String (hex.digit y) (String (hex.digit z)
               (String (hex.digit u) rest))))
  = Some (((x * 16 + y) * 16 + z) * 16 + u).
Proof. intros. unfold json.hex4. by rewrite !fromHexChar_digit. Qed.

(** An escape [\uXXXX] of a rune that is no surrogate. *)
Lemma unquoteFrom_unicode x y z u rest :
  0 <= x < 16 -> 0 <= y < 16 -> 0 <= z < 16 -> 0 <= u < 16 ->
  let r := ((x * 16 + y) * 16 + z) * 16 + u in
  (55296 <=? r) && (r <? 57344) = false ->
  json.unquoteFrom 0
    (json.backslash
       +:+ String "u" (String (hex.digit x) (String (hex.digit y) (String (hex.digit z)
                         (String (hex.digit u) rest)))))
  = json.prepend (utf8.EncodeRune r) (json.unquoteFrom 0 rest).
Proof.
  intros Hx Hy Hz Hu r Hr. change (json.backslash +:+ ?s) with (String (byte_of 92) s).
  cbn [json.unquoteFrom]. change (code (byte_of 92) =? 92) with true. cbv iota.
  change (code "u") with 117.
  cbn [Z.eqb Pos.eqb orb]. rewrite hex4_digits by done. fold r. by rewrite Hr.
Qed.

Lemma byte_of_eq c n : code c = Z.of_nat n -> String c "" = bytes [n].
Proof.
  intros H. rewrite <- (byte_of_code c), H, Nat2Z.id. done.
Qed.

Lemma EncodeRune_ascii c : code c < 128 -> utf8.EncodeRune (code c) = String c "".
Proof.
  intros Hc. pose proof (code_range c). unfold utf8.EncodeRune.
  rewrite (proj2 (andb_true_iff _ _)) by (split; apply Z.leb_le; lia).
  by rewrite byte_of_code.
Qed.

(** [unquote] reads what [quoteRune] wrote as the rune, coerced. *)
Lemma unquoteFrom_quoteRune rune rest :
  decoded rune ->
  json.unquoteFrom 0 (json.quoteRune rune +:+ rest)
  = json.prepend (coerceRune rune) (json.unquoteFrom 0 rest).
Proof.
  intros Hrune. apply decoded_cases in Hrune.
  destruct Hrune as [(c & Heq & Hc) | [(c & Heq & Hc) | (Hx & Hl & Hh & He & Hd)]];
    try subst rune.
  - pose proof (code_range c) as Hr. unfold json.quoteRune, coerceRune.
    assert (utf8.invalid (code c, String c "") = false) as ->.
    { unfold utf8.invalid. cbn [fst]. unfold utf8.RuneError.
      by rewrite (proj2 (Z.eqb_neq _ _)) by lia. }
    cbn [snd]. rewrite (proj2 (Z.ltb_lt _ _) Hc).
    destruct (json.htmlSafe (code c)) eqn:Hsafe.
    { apply unquoteFrom_ascii; [|done]. unfold json.htmlSafe in Hsafe.
      unfold literalChar. bools. rewrite (proj2 (Z.leb_le _ _)) by lia.
      apply negb_true_iff in H0. rewrite !orb_false_iff in H0.
      destruct H0 as [[[[-> ->] _] _] _]. done. }
    destruct ((code c =? 92) || (code c =? 34)) eqn:Hq.
    { by apply (unquoteFrom_mark c rest). }
    destruct (code c =? 8) eqn:H8.
    { bools. by rewrite (byte_of_eq c 8 H8). }
    destruct (code c =? 12) eqn:H12.
    { bools. by rewrite (byte_of_eq c 12 H12). }
    destruct (code c =? 10) eqn:H10.
    { bools. by rewrite (byte_of_eq c 10 H10). }
    destruct (code c =? 13) eqn:H13.
    { bools. by rewrite (byte_of_eq c 13 H13). }
    destruct (code c =? 9) eqn:H9.
    { bools. by rewrite (byte_of_eq c 9 H9). }
    assert (0 <= code c / 16 < 16 /\ 0 <= code c mod 16 < 16) as [Hhi Hlo]
      by sextet_range.
    pose proof (unquoteFrom_unicode 0 0 (code c / 16) (code c mod 16) rest
                  ltac:(lia) ltac:(lia) Hhi Hlo) as Hu.
    cbv zeta in Hu.
    replace (((0 * 16 + 0) * 16 + code c / 16) * 16 + code c mod 16) with (code c)
      in Hu by sextet_range.
    rewrite (EncodeRune_ascii c Hc) in Hu. apply Hu.
    apply andb_false_iff. left. apply Z.leb_gt. lia.
  - done.
  - destruct rune as [x raw]. cbn [fst snd] in *. unfold json.quoteRune, coerceRune.
    rewrite (proj2 (Z.ltb_ge _ _)) by lia. rewrite (invalid_long _ _ Hl). cbn [snd].
    destruct ((x =? 8232) || (x =? 8233)) eqn:Hsep.
    + rewrite <- He.
      apply orb_true_iff in Hsep as [Hx'|Hx']; apply Z.eqb_eq in Hx'; by subst x.
    + destruct raw as [|c0 raw]; [simpl in Hl; lia|].
      cbn [allChars] in Hh. apply andb_true_iff in Hh as [H0 _].
      unfold highChar in H0. apply Z.leb_le in H0.
      specialize (Hd rest). rewrite string_append_cons in *.
      cbn [json.unquoteFrom].
      rewrite !(proj2 (Z.eqb_neq _ _)), !(proj2 (Z.ltb_ge _ _)) by lia.
      cbn [orb]. cbv iota. rewrite Hd, He. cbn [String.length].
      replace (S (String.length raw) - 1)%nat with (String.length raw) by lia.
      by rewrite unquoteFrom_skip.
Qed.

Lemma unquote_quoted l :
  Forall decoded l ->
  json.unquote (json.concat (map json.quoteRune l))
  = Some (json.concat (map coerceRune l)).
Proof.
  unfold json.unquote. induction 1 as [|rune l Hrune _ IH]; [done|].
  cbn [map json.concat]. by rewrite unquoteFrom_quoteRune, IH.
Qed.

(** A string literal written by [Marshal] is read as the string,
    coerced. *)
Lemma quote_scanned s :
  exists raw,
    json.quote s = json.quoteMark +:+ raw +:+ json.quoteMark
    /\ (forall rest,
          json.scanString (raw +:+ json.quoteMark +:+ rest) = Some (raw, rest))
    /\ json.unquote raw = Some (coerced s).
Proof.
  exists (json.concat (map json.quoteRune (utf8.runes s))). split; [done|].
  split.
  - intros rest. apply scanString_quoted, runesFrom_decoded.
  - apply unquote_quoted, runesFrom_decoded.
Qed.

(** ** The calendar *)

Lemma doy_leap doe :
  0 <= doe <= 146096 ->
  let yoe := (doe - doe / 1460 + doe / 36524 - doe / 146096) / 365 in
  let doy := doe - (365 * yoe + yoe / 4 - yoe / 100) in
  0 <= yoe <= 399 /\ 0 <= doy <= 365
  /\ (doy = 365 ->
      (yoe + 1) mod 4 = 0 /\ ((yoe + 1) mod 100 <> 0 \/ (yoe + 1) mod 400 = 0)).
Proof. intros H yoe doy. subst doy yoe. Z.div_mod_to_equations. lia. Qed.

Lemma month_day doy :
  0 <= doy <= 365 ->
  let mp := (5 * doy + 2) / 153 in
  let day := doy - (153 * mp + 2) / 5 + 1 in
  0 <= mp <= 11 /\ 1 <= day <= 31
  /\ (mp = 1 \/ mp = 3 \/ mp = 6 \/ mp = 8 -> day <= 30)
  /\ (mp = 11 -> day <= 29 /\ (day = 29 -> doy = 365)).
Proof. intros H mp day. subst day mp. Z.div_mod_to_equations. lia. Qed.

(** The date of a day is a date of the calendar, and [daysFromCivil]
    counts back to the day. *)
Lemma civil_spec days year month day :
  json.civil days = (year, month, day) ->
  1 <= month <= 12 /\ 1 <= day <= json.daysIn month year
  /\ json.daysFromCivil year month day = days.
Proof.
  unfold json.civil.
  set (z := days + 719468). set (era := z / 146097). set (doe := z - era * 146097).
  assert (0 <= doe <= 146096) as Hdoe by (subst doe era; Z.div_mod_to_equations; lia).
  pose proof (doy_leap doe Hdoe) as Hy. cbv zeta in Hy.
  set (yoe := (doe - doe / 1460 + doe / 36524 - doe / 146096) / 365) in *.
  set (doy := doe - (365 * yoe + yoe / 4 - yoe / 100)) in *.
  destruct Hy as (Hyoe & Hdoy & Hleap).
  pose proof (month_day doy Hdoy) as Hm. cbv zeta in Hm.
  set (mp := (5 * doy + 2) / 153) in *.
  set (d := doy - (153 * mp + 2) / 5 + 1) in *.
  destruct Hm as (Hmp & Hd & H30 & Hfeb).
  intros Heq. injection Heq as <- <- <-.
  assert (z = era * 146097 + doe) as Hz by (subst doe; lia).
  assert (d = doy - (153 * mp + 2) / 5 + 1) as Hdd by done.
  assert (doy = doe - (365 * yoe + yoe / 4 - yoe / 100)) as Hdoy' by done.
  clearbody d mp doy yoe doe era.
  destruct (mp <? 10) eqn:Hlt; bools.
  - rewrite (proj2 (Z.leb_gt _ _)) by lia. split; [lia|]. split.
    + unfold json.daysIn. rewrite (proj2 (Z.eqb_neq _ _)) by lia.
      destruct ((mp + 3 =? 4) || (mp + 3 =? 6) || (mp + 3 =? 9) || (mp + 3 =? 11))
        eqn:H; [|lia].
      rewrite !orb_true_iff in H. rewrite !Z.eqb_eq in H. lia.
    + unfold json.daysFromCivil.
      rewrite (proj2 (Z.leb_gt _ _)), (proj2 (Z.ltb_lt _ _)) by lia.
      replace ((yoe + era * 400 + 0) / 400) with era by (Z.div_mod_to_equations; lia).
      replace (mp + 3 - 3) with mp by lia.
      replace (yoe + era * 400 + 0 - era * 400) with yoe by lia.
      lia.
  - rewrite (proj2 (Z.leb_le _ _)) by lia. split; [lia|]. split.
    + unfold json.daysIn.
      destruct (mp - 9 =? 2) eqn:H2; bools.
      * assert (mp = 11) as Hmp11 by lia. destruct (Hfeb Hmp11) as [H29 Hlast].
        destruct (json.isLeap (yoe + era * 400 + 1)) eqn:Hl; [lia|].
        split; [lia|]. destruct (Z.eq_dec d 29) as [Hd29|]; [|lia].
        destruct (Hleap (Hlast Hd29)) as [H4 H100]. exfalso.
        unfold json.isLeap in Hl. apply andb_false_iff in Hl as [Hl|Hl].
        { bools. Z.div_mod_to_equations. lia. }
        apply orb_false_iff in Hl as [Hl Hl']. apply negb_false_iff in Hl. bools.
        Z.div_mod_to_equations. lia.
      * rewrite !(proj2 (Z.eqb_neq _ _)) by lia. cbn [orb]. lia.
    + unfold json.daysFromCivil.
      rewrite (proj2 (Z.leb_le _ _)), (proj2 (Z.ltb_ge _ _)) by lia.
      replace ((yoe + era * 400 + 1 - 1) / 400) with era
        by (Z.div_mod_to_equations; lia).
      replace (mp - 9 + 9) with mp by lia.
      replace (yoe + era * 400 + 1 - 1 - era * 400) with yoe by lia.
      lia.
Qed.

(** ** Decimal numbers of a fixed width *)

Lemma code_decimalDigit n : code (json.decimalDigit n) = 48 + n mod 10.
Proof.
  unfold json.decimalDigit, code, byte_of.
  assert (0 <= n mod 10 < 10) as H by (apply Z.mod_pos_bound; lia).
  rewrite nat_ascii_embedding; lia.
Qed.

Lemma isDigit_decimalDigit n : strconv.isDigit (json.decimalDigit n) = true.
Proof.
  unfold strconv.isDigit. rewrite code_decimalDigit.
  assert (0 <= n mod 10 < 10) as H by (apply Z.mod_pos_bound; lia).
  apply andb_true_iff. split; apply Z.leb_le; lia.
Qed.

Lemma literal_decimalDigit n : literalChar (json.decimalDigit n) = true.
Proof.
  unfold literalChar. rewrite code_decimalDigit.
  assert (0 <= n mod 10 < 10) as H by (apply Z.mod_pos_bound; lia).
  rewrite (proj2 (Z.leb_le _ _)) by lia.
  by rewrite !(proj2 (Z.eqb_neq _ _)) by lia.
Qed.

Lemma digits_step n s acc :
  strconv.digits (String (json.decimalDigit n) s) acc
  = strconv.digits s (acc * 10 + n mod 10).
Proof.
  cbn [strconv.digits]. rewrite isDigit_decimalDigit, code_decimalDigit.
  f_equal. lia.
Qed.

Lemma parseUint_pad2 x lo hi :
  0 <= x < 100 -> lo <= x <= hi ->
  json.parseUint (json.pad 2 x "") lo hi = Some x.
Proof.
  intros Hx Hr. unfold json.parseUint. cbn [json.pad].
  rewrite !digits_step. cbn [strconv.digits].
  replace ((0 * 10 + x / 10 mod 10) * 10 + x mod 10) with x
    by (Z.div_mod_to_equations; lia).
  by rewrite !(proj2 (Z.leb_le _ _)) by lia.
Qed.

Lemma parseUint_pad4 x :
  0 <= x <= 9999 -> json.parseUint (json.pad 4 x "") 0 9999 = Some x.
Proof.
  intros Hx. unfold json.parseUint. cbn [json.pad].
  rewrite !digits_step. cbn [strconv.digits].
  replace ((((0 * 10 + x / 10 / 10 / 10 mod 10) * 10 + x / 10 / 10 mod 10) * 10
            + x / 10 mod 10) * 10 + x mod 10) with x
    by (Z.div_mod_to_equations; lia).
  by rewrite !(proj2 (Z.leb_le _ _)) by lia.
Qed.

Lemma skipDigits_end s c r :
  allChars strconv.isDigit s = true -> strconv.isDigit c = false ->
  json.skipDigits (s +:+ String c r) = String c r.
Proof.
  intros Hs Hc. induction s as [|d s IH].
  - rewrite string_append_nil_l. cbn [json.skipDigits]. by rewrite Hc.
  - cbn [allChars] in Hs. apply andb_true_iff in Hs as [Hd Hs].
    rewrite string_append_cons. cbn [json.skipDigits]. by rewrite Hd, IH.
Qed.

Lemma substring_prefix a b : String.substring 0 (String.length a) (a +:+ b) = a.
Proof.
  induction a as [|c a IH]; [by rewrite string_append_nil_l, substring_zero|].
  rewrite string_append_cons. cbn [String.length String.substring]. by rewrite IH.
Qed.

(** The digits of the fraction of a second that [Marshal] writes:
    they are read back as the nanoseconds. *)
Lemma trimmed_fraction nanos :
  0 < nanos < 1000000000 ->
  exists d kept n,
    json.trimZeros (json.pad 9 nanos "") = String d kept
    /\ allChars strconv.isDigit (String d kept) = true
    /\ allChars literalChar (String d kept) = true
    /\ (String.length kept <= 8)%nat
    /\ strconv.digits (String d kept) 0 = Some n
    /\ n * 10 ^ Z.of_nat (9 - String.length (String d kept)) = nanos.
Proof.
  intros Hn. cbn [json.pad]. unfold json.trimZeros.
  cbn [rev_string rev_string_onto]. rewrite !code_decimalDigit.
  set (x1 := nanos / 10). set (x2 := x1 / 10). set (x3 := x2 / 10).
  set (x4 := x3 / 10). set (x5 := x4 / 10). set (x6 := x5 / 10).
  set (x7 := x6 / 10). set (x8 := x7 / 10).
  assert (forall n, (48 + n mod 10 =? 48) = (n mod 10 =? 0)) as Hz.
  { intros n. destruct (n mod 10 =? 0) eqn:H; bools; [apply Z.eqb_eq|apply Z.eqb_neq];
      lia. }
  rewrite !Hz.
  destruct (nanos mod 10 =? 0) eqn:H0; [|clear Hz];
  [destruct (x1 mod 10 =? 0) eqn:H1; [|clear Hz];
   [destruct (x2 mod 10 =? 0) eqn:H2; [|clear Hz];
    [destruct (x3 mod 10 =? 0) eqn:H3; [|clear Hz];
     [destruct (x4 mod 10 =? 0) eqn:H4; [|clear Hz];
      [destruct (x5 mod 10 =? 0) eqn:H5; [|clear Hz];
       [destruct (x6 mod 10 =? 0) eqn:H6; [|clear Hz];
        [destruct (x7 mod 10 =? 0) eqn:H7; [|clear Hz];
         [destruct (x8 mod 10 =? 0) eqn:H8; [|clear Hz]|]|]|]|]|]|]|]|];
    cbn [rev_string rev_string_onto]; bools.
  1: { exfalso. subst x1 x2 x3 x4 x5 x6 x7 x8. Z.div_mod_to_equations. lia. }
  all: eexists _, _, _; split; [reflexivity|];
    split; [cbn [allChars]; by rewrite !isDigit_decimalDigit|];
    split; [cbn [allChars]; by rewrite !literal_decimalDigit|];
    split; [cbn [String.length]; lia|];
    split; [rewrite !digits_step; cbn [strconv.digits]; reflexivity|];
    cbn [String.length Nat.sub Z.of_nat Pos.of_succ_nat Pos.succ];
    subst x1 x2 x3 x4 x5 x6 x7 x8; Z.div_mod_to_equations; lia.
Qed.

(** ** Times *)

(** The layout of a date and a time of day is read back. *)
Lemma parseRFC3339_fields year month day hour min sec tail :
  0 <= year <= 9999 -> 1 <= month <= 12 -> 1 <= day <= json.daysIn month year ->
  0 <= hour <= 23 -> 0 <= min <= 59 -> 0 <= sec <= 59 ->
  json.parseRFC3339
    (json.pad 4 year "" +:+ "-" +:+ json.pad 2 month "" +:+ "-"
       +:+ json.pad 2 day "" +:+ "T" +:+ json.pad 2 hour "" +:+ ":"
       +:+ json.pad 2 min "" +:+ ":" +:+ json.pad 2 sec "" +:+ tail)
  = (let '(nsec, zone) := json.parseFraction tail in
     if String.eqb zone "Z"
     then Some ((json.daysFromCivil year month day * 86400 + hour * 3600
                 + min * 60 + sec) * time.Second + nsec)
     else json.parseRFC3339
            (json.pad 4 year "" +:+ "-" +:+ json.pad 2 month "" +:+ "-"
               +:+ json.pad 2 day "" +:+ "T" +:+ json.pad 2 hour "" +:+ ":"
               +:+ json.pad 2 min "" +:+ ":" +:+ json.pad 2 sec "" +:+ tail)).
Proof.
  intros Hy Hm Hd Hh Hn Hs.
  assert (1 <= json.daysIn month year <= 31) as Hdays.
  { unfold json.daysIn. repeat case_match; lia. }
  destruct (json.parseFraction tail) as [nsec zone] eqn:Hf.
  destruct (String.eqb zone "Z") eqn:Hz; [|done].
  cbn [json.pad]. rewrite !string_append_cons, !string_append_nil_l.
  unfold json.parseRFC3339.
  cbn [String.length String.substring String.get Nat.ltb Nat.leb Nat.sub].
  rewrite !substring_zero, Nat.sub_0_r, substring_all, Hf, Hz.
  pose proof (parseUint_pad4 year Hy) as Hyear.
  pose proof (parseUint_pad2 month 1 12 ltac:(lia) Hm) as Hmonth.
  pose proof (parseUint_pad2 day 1 (json.daysIn month year) ltac:(lia) Hd) as Hday.
  pose proof (parseUint_pad2 hour 0 23 ltac:(lia) Hh) as Hhour.
  pose proof (parseUint_pad2 min 0 59 ltac:(lia) Hn) as Hmin.
  pose proof (parseUint_pad2 sec 0 59 ltac:(lia) Hs) as Hsec.
  cbn [json.pad] in Hyear, Hmonth, Hday, Hhour, Hmin, Hsec.
  rewrite Hyear, Hmonth, Hday, Hhour, Hmin, Hsec.
  done.
Qed.

Lemma isDigit_Z : strconv.isDigit "Z" = false.
Proof. reflexivity. Qed.

(** The fraction of a second and the zone that [Marshal] writes are
    read back. *)
Lemma parseFraction_format nanos :
  0 <= nanos < 1000000000 ->
  json.parseFraction
    ((if nanos =? 0 then "" else "." +:+ json.trimZeros (json.pad 9 nanos "")) +:+ "Z")
  = (nanos, "Z").
Proof.
  intros Hn. destruct (nanos =? 0) eqn:H0; bools; [by subst nanos|].
  destruct (trimmed_fraction nanos) as (d & kept & n & -> & Hd & _ & Hl & Hk & Hv);
    [lia|].
  change ("." +:+ String d kept) with (String "."%char (String d kept)).
  rewrite !string_append_cons. unfold json.parseFraction.
  cbn [allChars] in Hd. apply andb_true_iff in Hd as [Hd Hkept].
  change (code "." =? 46) with true. rewrite Hd. cbn [andb].
  rewrite (skipDigits_end kept "Z" "" Hkept isDigit_Z).
  cbn [String.length]. rewrite string_length_append. cbn [String.length].
  replace (S (String.length kept + 1) - 1)%nat with (String.length (String d kept))
    by (cbn [String.length]; lia).
  rewrite Nat.min_l by (cbn [String.length]; lia).
  rewrite <- string_append_cons, substring_prefix, Hk. by rewrite Hv.
Qed.

Lemma literal_format t : allChars literalChar (json.formatRFC3339Nano t) = true.
Proof.
  unfold json.formatRFC3339Nano.
  destruct (json.civil (t / time.Second / 86400)) as [[year month] day].
  cbn [json.pad]. rewrite !string_append_cons, !string_append_nil_l.
  cbn [allChars]. rewrite !literal_decimalDigit.
  change (literalChar "-") with true. change (literalChar "T") with true.
  change (literalChar ":") with true. cbn [andb].
  rewrite allChars_app. change (allChars literalChar "Z") with true.
  rewrite andb_true_r.
  destruct (t mod time.Second =? 0) eqn:H0; [done|]. bools.
  destruct (trimmed_fraction (t mod time.Second)) as (d & kept & n & Ht & _ & Hl & _).
  { pose proof (Z.mod_pos_bound t time.Second). unfold time.Second in *. lia. }
  cbn [json.pad] in Ht. rewrite Ht.
  change ("." +:+ String d kept) with (String "."%char (String d kept)).
  cbn [allChars] in *. by rewrite Hl.
Qed.

(** A time that [Marshal] writes is read back as it is. *)
Lemma parseRFC3339_format t text :
  json.marshalTime t = Some text ->
  text = json.quoteMark +:+ json.formatRFC3339Nano t +:+ json.quoteMark
  /\ json.parseRFC3339 (json.formatRFC3339Nano t) = Some t.
Proof.
  unfold json.marshalTime, json.formatRFC3339Nano.
  destruct (json.civil (t / time.Second / 86400)) as [[year month] day] eqn:Hc.
  destruct ((0 <=? year) && (year <=? 9999)) eqn:Hy; [|done].
  intros [= <-]. split; [done|]. bools.
  destruct (civil_spec _ _ _ _ Hc) as (Hm & Hd & Hdays).
  set (secs := t / time.Second) in *. set (sod := secs mod 86400).
  assert (0 <= sod < 86400) as Hsod by (apply Z.mod_pos_bound; lia).
  assert (0 <= t mod time.Second < 1000000000) as Hnanos
    by (apply Z.mod_pos_bound; done).
  rewrite parseRFC3339_fields; try lia; try (Z.div_mod_to_equations; lia).
  rewrite (parseFraction_format _ Hnanos).
  change (String.eqb "Z" "Z") with true. cbv iota. f_equal. rewrite Hdays.
  subst sod secs. unfold time.Second in *. Z.div_mod_to_equations. lia.
Qed.

(** ** Objects *)

Lemma skipSpace_other c r :
  json.isSpace c = false -> json.skipSpace (String c r) = String c r.
Proof. intros H. cbn [json.skipSpace]. by rewrite H. Qed.

Lemma scanValue_string f raw rest :
  json.scanString (raw +:+ json.quoteMark +:+ rest) = Some (raw, rest) ->
  json.scanValue (S f) (json.quoteMark +:+ raw +:+ json.quoteMark +:+ rest)
  = Some (json.Str raw, rest).
Proof.
  intros Hraw. change (json.quoteMark +:+ ?x) with (String (byte_of 34) x) at 1.
  cbn [json.scanValue]. rewrite skipSpace_other by done.
  change (code (byte_of 34) =? 123) with false.
  change (code (byte_of 34) =? 91) with false.
  change (code (byte_of 34) =? 34) with true. cbv iota. by rewrite Hraw.
Qed.

(** The last member of an object, a string. *)
Lemma scanMembers_last f key raw rest :
  (forall rest, json.scanString (key +:+ json.quoteMark +:+ rest) = Some (key, rest)) ->
  (forall rest, json.scanString (raw +:+ json.quoteMark +:+ rest) = Some (raw, rest)) ->
  json.scanMembers (S (S f))
    (json.quoteMark +:+ key +:+ json.quoteMark +:+ ":"
       +:+ json.quoteMark +:+ raw +:+ json.quoteMark +:+ "}" +:+ rest)
  = Some ([(key, json.Str raw)], rest).
Proof.
  intros Hkey Hraw. change (json.quoteMark +:+ ?x) with (String (byte_of 34) x) at 1.
  cbn [json.scanMembers]. rewrite skipSpace_other by done.
  change (code (byte_of 34) =? 125) with false.
  change (code (byte_of 34) =? 34) with true. cbv iota. rewrite Hkey.
  change (":" +:+ ?x) with (String ":"%char x). rewrite skipSpace_other by done.
  change (code ":" =? 58) with true. cbv iota.
  rewrite (scanValue_string f raw _ (Hraw _)).
  change ("}" +:+ ?x) with (String "}"%char x). rewrite skipSpace_other by done.
  by change (code "}" =? 125) with true.
Qed.

(** A member of an object, a string, that is followed by another
    member. *)
Lemma scanMembers_more f key raw more :
  (forall rest, json.scanString (key +:+ json.quoteMark +:+ rest) = Some (key, rest)) ->
  (forall rest, json.scanString (raw +:+ json.quoteMark +:+ rest) = Some (raw, rest)) ->
  json.scanMembers (S (S f))
    (json.quoteMark +:+ key +:+ json.quoteMark +:+ ":"
       +:+ json.quoteMark +:+ raw +:+ json.quoteMark +:+ "," +:+ json.quoteMark +:+ more)
  = match json.scanMembers (S f) (json.quoteMark +:+ more) with
    | Some (members, rest) => Some ((key, json.Str raw) :: members, rest)
    | None => None
    end.
Proof.
  intros Hkey Hraw. change (json.quoteMark +:+ ?x) with (String (byte_of 34) x) at 1.
  cbn [json.scanMembers]. rewrite skipSpace_other by done.
  change (code (byte_of 34) =? 125) with false.
  change (code (byte_of 34) =? 34) with true. cbv iota. rewrite Hkey.
  change (":" +:+ ?x) with (String ":"%char x). rewrite skipSpace_other by done.
  change (code ":" =? 58) with true. cbv iota.
  rewrite (scanValue_string f raw _ (Hraw _)).
  change ("," +:+ ?x) with (String ","%char x). rewrite skipSpace_other by done.
  change (code "," =? 125) with false. change (code "," =? 44) with true. cbv iota.
  change (json.quoteMark +:+ more) with (String (byte_of 34) more).
  rewrite skipSpace_other by done.
  by change (code (byte_of 34) =? 34) with true.
Qed.

(** ** The round trip of the token data *)

Lemma scanString_chunk chunk rest :
  allChars literalChar chunk = true ->
  json.scanString (chunk +:+ json.quoteMark +:+ rest) = Some (chunk, rest).
Proof.
  intros Hc. rewrite (scanString_literal _ _ Hc).
  change (json.scanString (json.quoteMark +:+ rest)) with (Some ("", rest)).
  cbv beta iota. by rewrite string_append_nil_r.
Qed.

(** [Unmarshal] reads what [Marshal] has written as the token data
    with the run id coerced. *)
Lemma Unmarshal_Marshal d p :
  json.Marshal d = Some p ->
  json.Unmarshal p
  = Some (TokenData.mk (coerced (TokenData.RunID d)) (TokenData.ExpiresAt d)
            (TokenData.CreatedAt d)).
Proof.
  unfold json.Marshal. destruct d as [runID expiresAt createdAt].
  cbn [TokenData.RunID TokenData.ExpiresAt TokenData.CreatedAt].
  destruct (json.marshalTime expiresAt) as [e|] eqn:He; [|done].
  destruct (json.marshalTime createdAt) as [c|] eqn:Hc; [|done].
  intros [= <-].
  destruct (parseRFC3339_format _ _ He) as [-> Hexp].
  destruct (parseRFC3339_format _ _ Hc) as [-> Hcre].
  destruct (quote_scanned "run_id") as (k1 & -> & Hk1 & Hn1).
  destruct (quote_scanned "expires_at") as (k2 & -> & Hk2 & Hn2).
  destruct (quote_scanned "created_at") as (k3 & -> & Hk3 & Hn3).
  destruct (quote_scanned runID) as (raw & -> & Hraw & Hrun).
  pose proof (fun rest => scanString_chunk _ rest (literal_format expiresAt)) as He'.
  pose proof (fun rest => scanString_chunk _ rest (literal_format createdAt)) as Hc'.
  rewrite !string_append_assoc.
  unfold json.Unmarshal. change ("{" +:+ ?x) with (String "{"%char x).
  rewrite skipSpace_other by done. change (code "{" =? 123) with true. cbv iota.
  match goal with
  | |- context [json.scanMembers (json.fuelFor (String ?c ?x)) _] =>
      replace (json.fuelFor (String c x))
        with (S (S (S (S (2 * String.length x)))))
        by (unfold json.fuelFor; cbn [String.length]; lia)
  end.
  change ("," +:+ ?x) with ("," +:+ x).
  rewrite (scanMembers_more _ k1 raw _ Hk1 Hraw).
  rewrite (scanMembers_more _ k2 _ _ Hk2 He').
  rewrite (scanMembers_last _ k3 _ "" Hk3 Hc').
  change (json.atEnd "") with true. cbv iota.
  cbn [fold_left]. unfold json.setField at 3. cbn [fst snd]. rewrite Hn1, Hrun.
  change (String.eqb (json.foldName (coerced "run_id")) "run_id") with true.
  cbv iota. cbn [TokenData.ExpiresAt TokenData.CreatedAt TokenData.RunID].
  unfold json.setField at 2. cbn [fst snd]. rewrite Hn2, Hexp.
  change (String.eqb (json.foldName (coerced "expires_at")) "run_id") with false.
  change (String.eqb (json.foldName (coerced "expires_at")) "expires_at") with true.
  cbv iota. cbn [TokenData.ExpiresAt TokenData.CreatedAt TokenData.RunID].
  unfold json.setField. cbn [fst snd]. rewrite Hn3, Hcre.
  change (String.eqb (json.foldName (coerced "created_at")) "run_id") with false.
  change (String.eqb (json.foldName (coerced "created_at")) "expires_at") with false.
  change (String.eqb (json.foldName (coerced "created_at")) "created_at") with true.
  done.
Qed.

(** ** Strings that are valid UTF-8 *)

Lemma substring_split n s :
  (n <= String.length s)%nat ->
  String.substring 0 n s +:+ String.substring n (String.length s - n) s = s.
Proof.
  revert n. induction s as [|c s IH]; intros [|n] Hn; simpl in *;
    try lia; try done.
  - by rewrite substring_all.
  - rewrite string_append_cons, IH by lia. done.
Qed.

Lemma DecodeRune_size c r :
  (1 <= snd (utf8.DecodeRuneInString (String c r)) <= String.length (String c r))%nat.
Proof.
  unfold utf8.DecodeRuneInString.
  destruct r as [|c1 [|c2 [|c3 r]]]; repeat case_match; simpl; lia.
Qed.

(** The runes of a string are cut out of it one after the other. *)
Lemma runesFrom_raw s : forall skip,
  (skip <= String.length s)%nat ->
  json.concat (map snd (utf8.runesFrom skip s))
  = String.substring skip (String.length s - skip) s.
Proof.
  induction s as [|c r IH]; intros skip Hs.
  - simpl in *. by destruct skip.
  - destruct skip as [|k].
    + cbn [utf8.runesFrom].
      pose proof (DecodeRune_size c r) as Hsize.
      destruct (utf8.DecodeRuneInString (String c r)) as [rune size].
      cbn [snd] in Hsize. cbn [map snd json.concat].
      rewrite IH by (simpl in Hsize; lia).
      destruct size as [|m]; [lia|].
      replace (S m - 1)%nat with m by lia.
      change (String.substring 0 (S m) (String c r))
        with (String c (String.substring 0 m r)).
      rewrite string_append_cons, substring_split by (simpl in Hsize; lia).
      simpl. by rewrite substring_all.
    + cbn [utf8.runesFrom]. rewrite IH by (simpl in Hs; lia). done.
Qed.

Lemma runes_raw s : json.concat (map snd (utf8.runes s)) = s.
Proof.
  unfold utf8.runes. rewrite runesFrom_raw by lia.
  by rewrite Nat.sub_0_r, substring_all.
Qed.

Lemma coerceRune_length rune :
  (String.length (snd rune) <= String.length (coerceRune rune))%nat
  /\ (utf8.invalid rune = true ->
      String.length (snd rune) < String.length (coerceRune rune))%nat.
Proof.
  unfold coerceRune. destruct (utf8.invalid rune) eqn:Hi; [|by split].
  unfold utf8.invalid in Hi. apply andb_true_iff in Hi as [_ Hl].
  apply Nat.eqb_eq in Hl. rewrite Hl.
  change (String.length (utf8.EncodeRune utf8.RuneError)) with 3%nat. lia.
Qed.

(** A string is left as it is exactly when it is valid UTF-8. *)
Lemma coerced_valid s : utf8.ValidString s = true -> coerced s = s.
Proof.
  unfold utf8.ValidString, coerced. intros Hv.
  rewrite <- (runes_raw s) at 2.
  induction (utf8.runes s) as [|x l IH]; [done|].
  cbn [forallb map json.concat] in *.
  apply andb_true_iff in Hv as [Hx Hl]. apply negb_true_iff in Hx.
  unfold coerceRune at 1. by rewrite Hx, (IH Hl).
Qed.

Lemma coerced_le l :
  (String.length (json.concat (map snd l))
   <= String.length (json.concat (map coerceRune l)))%nat.
Proof.
  induction l as [|x l IH]; [done|]. cbn [map json.concat].
  rewrite !string_length_append. pose proof (proj1 (coerceRune_length x)). lia.
Qed.

Lemma coerced_longer l :
  forallb (fun rune => negb (utf8.invalid rune)) l = false ->
  (String.length (json.concat (map snd l))
   < String.length (json.concat (map coerceRune l)))%nat.
Proof.
  induction l as [|x l IH]; [done|].
  cbn [forallb map json.concat]. rewrite !string_length_append.
  destruct (coerceRune_length x) as [Hx Hbad]. pose proof (coerced_le l) as Hl.
  destruct (utf8.invalid x) eqn:Hi; cbn [negb andb]; intros Hv.
  - specialize (Hbad eq_refl). lia.
  - specialize (IH Hv). lia.
Qed.

Lemma coerced_invalid s : utf8.ValidString s = false -> coerced s <> s.
Proof.
  unfold utf8.ValidString, coerced. intros Hv Heq.
  apply coerced_longer in Hv. rewrite Heq, runes_raw in Hv. lia.
Qed.

(** * The token service and the handlers *)

(** ** The token service *)

Lemma Split_token payload signature :
  strings.Split
    (base64.EncodeToString payload +:+ "." +:+ hex.EncodeToString signature) "." =
  [base64.EncodeToString payload; hex.EncodeToString signature].
Proof.
  change ("." +:+ ?s) with (String "." s).
  rewrite Split_app by apply base64_no_dot.
  by rewrite Split_nosep by apply hex_no_dot.
Qed.

(** What [GenerateToken] returns when it returns a token. *)
Lemma GenerateToken_ok E runID w tok exp :
  fst (auth.GenerateToken E runID w) = (tok, exp, None) ->
  exists payload,
    exp = time.Add (reading w) (2 * time.Hour)
    /\ auth.jsonMarshal E (TokenData.mk runID exp (reading (tick w))) = Some payload
    /\ tok = base64.EncodeToString payload +:+ "."
               +:+ hex.EncodeToString (auth.hmac E (auth.secretKey E) payload).
Proof.
  unfold auth.GenerateToken, bind, Now, ret. simpl.
  destruct (auth.jsonMarshal E _) as [payload|] eqn:Hm; simpl; [|done].
  intros [= <- <-]. by exists payload.
Qed.

(** A well-formed, correctly signed token: the outcome depends on the
    payload and the clock only. *)
Lemma ValidateToken_signed E payload d runID w :
  auth.jsonUnmarshal E payload = Some d ->
  auth.ValidateToken E
    (base64.EncodeToString payload +:+ "."
       +:+ hex.EncodeToString (auth.hmac E (auth.secretKey E) payload)) runID w =
  (if time.After (reading w) (TokenData.ExpiresAt d) then (false, Some auth.ErrExpired)
   else if negb (String.eqb (TokenData.RunID d) runID)
        then (false, Some auth.ErrRunIDMismatch)
        else (true, None), tick w).
Proof.
  intros Hd. unfold auth.ValidateToken. rewrite Split_token.
  cbn [length Nat.eqb negb nth].
  rewrite base64_round_trip, hex_round_trip, String.eqb_refl. cbn [negb].
  rewrite Hd. unfold bind, Now, ret, reading, tick.
  by repeat case_match.
Qed.

Lemma ValidateToken_bad_signature E payload signature runID w :
  signature <> auth.hmac E (auth.secretKey E) payload ->
  auth.ValidateToken E
    (base64.EncodeToString payload +:+ "." +:+ hex.EncodeToString signature) runID w =
  ((false, Some auth.ErrSignature), w).
Proof.
  intros Hs. unfold auth.ValidateToken. rewrite Split_token.
  cbn [length Nat.eqb negb nth].
  rewrite base64_round_trip, hex_round_trip.
  apply String.eqb_neq in Hs. by rewrite Hs.
Qed.

(** Validation either accepts, and no reason to reject holds, or
    returns an error, and one holds. *)
Lemma ValidateToken_outcome E token runID w :
  let r := fst (auth.ValidateToken E token runID w) in
  (r = (true, None) /\ ~ Rejected E token runID (reading w))
  \/ ((exists e, r = (false, Some e)) /\ Rejected E token runID (reading w)).
Proof.
  unfold auth.ValidateToken.
  destruct (tokenHalves token) as [[payload signature]|] eqn:Hh.
  - pose proof Hh as Hsplit. unfold tokenHalves in Hsplit.
    destruct (strings.Split token ".") as [|p [|s [|? ?]]]; try done.
    cbn [length Nat.eqb negb nth].
    destruct (base64.DecodeString p) as [payload'|]; [|done].
    destruct (hex.DecodeString s) as [signature'|]; [|done].
    injection Hsplit as -> ->.
    destruct (String.eqb signature _) eqn:Hsig; cbn [negb].
    + apply String.eqb_eq in Hsig.
      destruct (auth.jsonUnmarshal E payload) as [d|] eqn:Hd.
      * unfold bind, Now, ret. cbn [fst]. fold (reading w). unfold time.After.
        destruct (TokenData.ExpiresAt d <? reading w) eqn:Hexp.
        { right. split; [by eexists|]. eapply RejectedExpired; [done..|lia]. }
        destruct (String.eqb (TokenData.RunID d) runID) eqn:Hid; cbn [negb].
        { left. split; [done|]. apply String.eqb_eq in Hid.
          intros [?|????|????|?????|?????]; simplify_eq; try done. lia. }
        right. split; [by eexists|]. apply String.eqb_neq in Hid.
        by eapply RejectedRunID.
      * right. split; [by eexists|]. by eapply RejectedPayload.
    + right. split; [by eexists|]. apply String.eqb_neq in Hsig.
      by eapply RejectedSignature.
  - right. split; [|by apply RejectedMalformed].
    unfold tokenHalves in Hh.
    destruct (strings.Split token ".") as [|p [|s [|? ?]]];
      cbn [length Nat.eqb negb nth]; try by eexists.
    destruct (base64.DecodeString p) as [payload'|]; [|by eexists].
    destruct (hex.DecodeString s) as [signature'|]; [done|by eexists].
Qed.

(** Validation reads the clock at most once and leaves the store alone. *)
Lemma ValidateToken_world E tok runID w :
  snd (auth.ValidateToken E tok runID w) = w
  \/ snd (auth.ValidateToken E tok runID w) = tick w.
Proof.
  unfold auth.ValidateToken, bind, Now, ret, tick.
  repeat case_match; auto.
Qed.

Lemma ValidateToken_store E tok runID w :
  runs (snd (auth.ValidateToken E tok runID w)) = runs w
  /\ ops (snd (auth.ValidateToken E tok runID w)) = ops w
  /\ clock (snd (auth.ValidateToken E tok runID w)) = clock w.
Proof. by destruct (ValidateToken_world E tok runID w) as [-> | ->]. Qed.

(** With a clock between 1970 and 2262, the years a 64-bit count of
    nanoseconds reaches, [Marshal] writes the time. *)
Lemma marshalTime_some t :
  0 <= t <= max_int64 -> is_Some (json.marshalTime t).
Proof.
  intros Ht. unfold json.marshalTime.
  destruct (json.civil (t / time.Second / 86400)) as [[year month] day] eqn:Hc.
  assert (0 <= year <= 9999) as Hy; [|by rewrite !(proj2 (Z.leb_le _ _)) by lia].
  assert (0 <= t / time.Second / 86400 <= 106752) as Hd.
  { unfold max_int64, time.Second in *. Z.div_mod_to_equations. lia. }
  revert Hc. generalize (t / time.Second / 86400) Hd. clear. intros days Hd.
  unfold json.civil.
  set (z := days + 719468). set (era := z / 146097). set (doe := z - era * 146097).
  assert (0 <= doe <= 146096) as Hdoe by (subst doe era; Z.div_mod_to_equations; lia).
  assert (4 <= era <= 5) as Hera by (subst era z; Z.div_mod_to_equations; lia).
  destruct (doy_leap doe Hdoe) as (Hyoe & _). cbv zeta in Hyoe.
  set (yoe := (doe - doe / 1460 + doe / 36524 - doe / 146096) / 365) in *.
  intros Heq. injection Heq as <- _ _.
  destruct (_ <=? 2); lia.
Qed.

(** The service with the codec of [encoding/json] issues a token for
    every run id at such a clock. *)
Lemma GenerateToken_issues key mac runID w :
  0 <= reading w <= max_int64 - 2 * time.Hour ->
  0 <= reading (tick w) <= max_int64 ->
  exists tok,
    fst (auth.GenerateToken (jsonEnv key mac) runID w)
    = (tok, time.Add (reading w) (2 * time.Hour), None).
Proof.
  intros Hnow Hnext. unfold auth.GenerateToken, bind, Now, ret.
  cbn [clock ticks runs ops fst snd]. fold (reading w).
  change (auth.jsonMarshal (jsonEnv key mac)) with json.Marshal.
  unfold json.Marshal. cbn [TokenData.ExpiresAt TokenData.CreatedAt TokenData.RunID].
  destruct (marshalTime_some (time.Add (reading w) (2 * time.Hour))) as [e ->].
  { unfold time.Add, time.Hour, time.Minute, time.Second, max_int64 in *. lia. }
  destruct (marshalTime_some (clock w (S (ticks w)))) as [c ->]; [done|].
  by eexists.
Qed.

(** A token for the run id 0xFF, issued at the epoch by the service
    with the codec of [encoding/json], whatever its key and MAC are,
    carries a payload whose run id is U+FFFD, and its validation against
    the run id 0xFF right after it was issued fails with the run-id
    mismatch. *)
Lemma non_utf8_run_id_rejected :
  utf8.ValidString byteFF = false
  /\ (exists payload,
        json.Marshal (TokenData.mk byteFF (2 * time.Hour) 0) = Some payload
        /\ base64.EncodeToString payload
           = "eyJydW5faWQiOiJcdWZmZmQiLCJleHBpcmVzX2F0IjoiMTk3MC0wMS0wMVQwMjowMDowMFoiLCJjcmVhdGVkX2F0IjoiMTk3MC0wMS0wMVQwMDowMDowMFoifQ=="
        /\ json.Unmarshal payload = Some (TokenData.mk replacement (2 * time.Hour) 0)
        /\ forall key mac,
             let issued := auth.GenerateToken (jsonEnv key mac) byteFF demoWorld in
             fst issued
             = (base64.EncodeToString payload +:+ "."
                  +:+ hex.EncodeToString (mac key payload), 2 * time.Hour, None)
             /\ fst (auth.ValidateToken (jsonEnv key mac) (fst (fst (fst issued)))
                       byteFF (snd issued))
                = (false, Some auth.ErrRunIDMismatch)).
Proof.
  split; [by vm_compute|].
  destruct (json.Marshal (TokenData.mk byteFF (2 * time.Hour) 0)) as [payload|] eqn:Hm;
    [|by vm_compute in Hm].
  exists payload. split; [done|].
  assert (json.Unmarshal payload = Some (TokenData.mk replacement (2 * time.Hour) 0))
    as Hu by (vm_compute in Hm; injection Hm as <-; by vm_compute).
  split; [vm_compute in Hm; injection Hm as <-; by vm_compute|].
  split; [done|].
  intros key mac issued.
  assert (auth.GenerateToken (jsonEnv key mac) byteFF demoWorld
          = (base64.EncodeToString payload +:+ "."
               +:+ hex.EncodeToString (mac key payload), 2 * time.Hour, None,
             tick (tick demoWorld))) as Hgen.
  { unfold auth.GenerateToken, bind, Now, ret. cbn [clock ticks demoWorld runs ops].
    change (auth.jsonMarshal (jsonEnv key mac)) with json.Marshal.
    change (time.Add 0 (2 * time.Hour)) with (2 * time.Hour).
    by rewrite Hm. }
  subst issued. rewrite Hgen. cbn [fst snd]. split; [done|].
  rewrite (ValidateToken_signed (jsonEnv key mac) payload _ byteFF _ Hu).
  by vm_compute.
Qed.

(** C1 (token round trip).  A token returned by [GenerateToken] for a
    run id expires two hours after the clock reading it was issued at.
    When the run id is valid UTF-8, validating the token against the
    same run id at any clock reading up to that expiry, so also right
    after issuance, returns valid with no error.  When the run id is
    not valid UTF-8 the validation fails with the run-id mismatch,
    since the payload, written and read by [encoding/json], carries
    U+FFFD in the place of every byte that begins no well-formed
    encoding.  The key and the MAC are any. *)
Theorem token_round_trip key mac runID w w' tok exp :
  fst (auth.GenerateToken (jsonEnv key mac) runID w) = (tok, exp, None) ->
  reading w' <= exp ->
  exp = time.Add (reading w) (2 * time.Hour)
  /\ (utf8.ValidString runID = true ->
        fst (auth.ValidateToken (jsonEnv key mac) tok runID w') = (true, None))
  /\ (utf8.ValidString runID = false ->
        fst (auth.ValidateToken (jsonEnv key mac) tok runID w')
        = (false, Some auth.ErrRunIDMismatch)).
Proof.
  intros Hgen Hnow.
  destruct (GenerateToken_ok _ _ _ _ _ Hgen) as (payload & Hexp & Hm & ->).
  split; [done|].
  pose proof (Unmarshal_Marshal _ _ Hm) as Hu.
  rewrite (ValidateToken_signed (jsonEnv key mac) payload _ runID w' Hu).
  cbn [fst TokenData.ExpiresAt TokenData.RunID]. unfold time.After.
  destruct (exp <? reading w') eqn:Hlt; [lia|]. split.
  - intros Hv. by rewrite (coerced_valid _ Hv), String.eqb_refl.
  - intros Hv. apply coerced_invalid, String.eqb_neq in Hv. by rewrite Hv.
Qed.

(** C2 (token rejection).  [ValidateToken] returns an error exactly when
    the token is malformed, its signature differs from the recomputed
    MAC, its payload has expired at the clock reading, or its payload
    names another run; otherwise it returns valid.  In particular a
    token issued for one run fails for another, fails once its expiry is
    in the past, and a token carrying any other signature than the MAC
    of its payload fails. *)
Theorem token_rejection E token runID w :
  let r := fst (auth.ValidateToken E token runID w) in
  (snd r <> None <-> Rejected E token runID (reading w))
  /\ (snd r = None -> r = (true, None))
  /\ (snd r <> None -> fst r = false)
  /\ (forall issuedFor w0 exp,
        RoundTrip E (TokenData.mk issuedFor exp (reading (tick w0))) ->
        fst (auth.GenerateToken E issuedFor w0) = (token, exp, None) ->
        (issuedFor <> runID -> snd r <> None)
        /\ (exp < reading w -> r = (false, Some auth.ErrExpired)))
  /\ (forall payload signature,
        signature <> auth.hmac E (auth.secretKey E) payload ->
        fst (auth.ValidateToken E
               (base64.EncodeToString payload +:+ "." +:+ hex.EncodeToString signature)
               runID w) = (false, Some auth.ErrSignature)).
Proof.
  intros r. subst r. split; [|split; [|split; [|split]]].
  - destruct (ValidateToken_outcome E token runID w) as [[-> Hn]|[[e ->] Hr]];
      simpl; by split.
  - by destruct (ValidateToken_outcome E token runID w) as [[-> Hn]|[[e ->] Hr]].
  - by destruct (ValidateToken_outcome E token runID w) as [[-> Hn]|[[e ->] Hr]].
  - intros issuedFor w0 exp HE Hgen.
    destruct (GenerateToken_ok _ _ _ _ _ Hgen) as (payload & Hexp & Hm & ->).
    rewrite (ValidateToken_signed E payload _ runID w (HE _ Hm)).
    cbn [fst TokenData.ExpiresAt TokenData.RunID]. unfold time.After. split.
    + intros Hne. apply String.eqb_neq in Hne. rewrite Hne.
      by destruct (exp <? reading w).
    + intros Hlt. apply Z.ltb_lt in Hlt. by rewrite Hlt.
  - intros payload signature Hs.
    by rewrite ValidateToken_bad_signature.
Qed.

(** ** The run store *)

Lemma bind_run {A B} (m : M A) (k : A -> M B) w a w' :
  m w = (a, w') -> bind m k w = k a w'.
Proof. unfold bind. by intros ->. Qed.

Lemma GetRun_found runID d w :
  runs w !! runID = Some d ->
  storage.GetRun runID w = ((Some d, None), logged [OpGet runID] w).
Proof. intros Hd. unfold storage.GetRun, bind, docGet. by rewrite Hd. Qed.

Lemma GetRun_missing runID w :
  runs w !! runID = None ->
  storage.GetRun runID w = ((None, Some (ErrNotFound runID)), logged [OpGet runID] w).
Proof. intros Hd. unfold storage.GetRun, bind, docGet. by rewrite Hd. Qed.

(** [StoreSamples] on a run that exists: the samples are appended as
    they are, and both update fields come from one clock reading. *)
Lemma StoreSamples_existing runID d samples w :
  runs w !! runID = Some d ->
  storage.StoreSamples runID samples w =
  (None,
   mkWorld
     (<[runID := RunDoc.withUpdated (RunDoc.withSamples d (RunDoc.Samples d ++ samples))
                   (reading w) (storage.ToMillis (reading w))]> (runs w))
     (ops w ++ [OpGet runID; OpSet runID]) (clock w) (S (ticks w))).
Proof.
  intros Hd. unfold storage.StoreSamples, bind, docGet, docSet, Now, ret, reading.
  cbn [runs ops clock ticks]. rewrite Hd. cbn [runs ops clock ticks].
  by rewrite <- app_assoc.
Qed.

(** [StoreSamples] on a new run reads the clock three times. *)
Lemma StoreSamples_new runID samples w :
  runs w !! runID = None ->
  storage.StoreSamples runID samples w =
  (None,
   mkWorld
     (<[runID := RunDoc.mk runID runID (clock w (ticks w)) time.Zero
                   (clock w (S (ticks w))) (clock w (S (S (ticks w))))
                   (storage.ToMillis (clock w (S (S (ticks w))))) samples ∅ false
                   time.Zero]> (runs w))
     (ops w ++ [OpGet runID; OpSet runID]) (clock w) (S (S (S (ticks w))))).
Proof.
  intros Hd. unfold storage.StoreSamples, bind, docGet, docSet, Now, ret.
  cbn [runs ops clock ticks]. rewrite Hd. cbn [runs ops clock ticks].
  by rewrite <- app_assoc.
Qed.

Lemma StoreProcessInfo_existing runID d info w :
  runs w !! runID = Some d ->
  storage.StoreProcessInfo runID info w =
  (None,
   mkWorld
     (<[runID := RunDoc.withProcessInfo d
                   (<[ProcessInfo.PID info := info]> (RunDoc.ProcessInfo d))]> (runs w))
     (ops w ++ [OpGet runID; OpSet runID]) (clock w) (ticks w)).
Proof.
  intros Hd. unfold storage.StoreProcessInfo, bind, docGet, docSet, ret.
  cbn [runs ops clock ticks]. rewrite Hd. cbn [runs ops clock ticks].
  by rewrite <- app_assoc.
Qed.

Lemma MarkRunAsFinished_finished runID d w :
  runs w !! runID = Some d -> RunDoc.Finished d = true ->
  storage.MarkRunAsFinished runID w = (None, logged [OpGet runID] w).
Proof.
  intros Hd Hf. unfold storage.MarkRunAsFinished, bind, docGet. simpl.
  by rewrite Hd, Hf.
Qed.

Lemma MarkRunAsFinished_unfinished runID d w :
  runs w !! runID = Some d -> RunDoc.Finished d = false ->
  storage.MarkRunAsFinished runID w =
  (None,
   mkWorld (<[runID := finishedDoc d (reading w)]> (runs w))
     (ops w ++ [OpGet runID; OpSet runID]) (clock w) (S (ticks w))).
Proof.
  intros Hd Hf. unfold storage.MarkRunAsFinished, bind, docGet. simpl.
  rewrite Hd, Hf. unfold bind, Now, docSet, ret. simpl.
  by rewrite <- app_assoc.
Qed.

Lemma MarkRunAsFinished_missing runID w :
  runs w !! runID = None ->
  storage.MarkRunAsFinished runID w =
  (Some (ErrNotFound runID), logged [OpGet runID] w).
Proof.
  intros Hd. unfold storage.MarkRunAsFinished, bind, docGet. simpl. by rewrite Hd.
Qed.

(** C8 (finish idempotence).  On a run that exists [MarkRunAsFinished]
    returns no error.  If the run is finished already it only reads the
    document; otherwise it writes the document with [finished] set and
    [finishedAt], [updatedAt] and the millisecond field taken from one
    clock reading.  A second call returns no error, changes no document
    and leaves the run finished. *)
Theorem finish_idempotent runID d w :
  runs w !! runID = Some d ->
  let r1 := storage.MarkRunAsFinished runID w in
  let r2 := storage.MarkRunAsFinished runID (snd r1) in
  fst r1 = None /\ fst r2 = None
  /\ (RunDoc.Finished d = true ->
        runs (snd r1) = runs w /\ ops (snd r1) = ops w ++ [OpGet runID])
  /\ (RunDoc.Finished d = false ->
        runs (snd r1) = <[runID := finishedDoc d (reading w)]> (runs w))
  /\ runs (snd r2) = runs (snd r1)
  /\ ops (snd r2) = ops (snd r1) ++ [OpGet runID]
  /\ exists d', runs (snd r2) !! runID = Some d' /\ RunDoc.Finished d' = true.
Proof.
  intros Hd r1 r2. subst r1 r2.
  destruct (RunDoc.Finished d) eqn:Hf.
  - rewrite (MarkRunAsFinished_finished runID d w Hd Hf). simpl.
    erewrite (MarkRunAsFinished_finished runID d); [|exact Hd|exact Hf]. simpl.
    repeat split; try done. by exists d.
  - rewrite (MarkRunAsFinished_unfinished runID d w Hd Hf). simpl.
    erewrite (MarkRunAsFinished_finished runID (finishedDoc d _)); simpl;
      [|apply lookup_insert_eq|done].
    repeat split; try done. eexists. split; [apply lookup_insert_eq|done].
Qed.

(** [Sub] grows with its first argument, and is the plain difference
    where that is a [Duration]. *)
Lemma Sub_mono t t' u : t <= t' -> time.Sub t u <= time.Sub t' u.
Proof.
  intros H. unfold time.Sub, time.maxDuration, time.minDuration, max_int64, min_int64.
  repeat case_match; lia.
Qed.

Lemma Sub_exact t u :
  time.minDuration <= t - u <= time.maxDuration -> time.Sub t u = t - u.
Proof. unfold time.Sub. intros H. repeat case_match; lia. Qed.

Lemma Sub_gt t u timeout :
  time.minDuration <= timeout < time.maxDuration ->
  (timeout < time.Sub t u <-> timeout < t - u).
Proof.
  unfold time.Sub, time.maxDuration, time.minDuration, max_int64, min_int64.
  intros H. repeat case_match; lia.
Qed.

Section Stale.

Variables (timeout : time.Duration) (lo hi : time.Time).

(** The loop adds to [staleRuns] a sublist of the ids it is given: no
    finished run, every run stale at the earliest reading of the
    clock, and only runs stale at the latest one. *)
Lemma staleLoop_spec docs : forall acc w,
  (forall k, lo <= clock w k <= hi) ->
  exists extra,
    fst (storage.staleLoop timeout docs acc w) = acc ++ extra
    /\ runs (snd (storage.staleLoop timeout docs acc w)) = runs w
    /\ ops (snd (storage.staleLoop timeout docs acc w)) = ops w
    /\ clock (snd (storage.staleLoop timeout docs acc w)) = clock w
    /\ sublist extra (docs.*1)
    /\ (forall id, id ∈ extra ->
          exists d, (id, d) ∈ docs /\ RunDoc.Finished d = false
                    /\ timeout < time.Sub hi (RunDoc.UpdatedAt d))
    /\ (forall id d, (id, d) ∈ docs -> RunDoc.Finished d = false ->
          timeout < time.Sub lo (RunDoc.UpdatedAt d) -> id ∈ extra).
Proof.
  induction docs as [|[id d] rest IH]; intros acc w Hclk.
  - exists []. simpl. rewrite app_nil_r. repeat split; try done.
    + intros ? H; by apply elem_of_nil in H.
    + intros ? ? H; by apply elem_of_nil in H.
  - simpl. destruct (RunDoc.Finished d) eqn:Hf.
    + destruct (IH acc w Hclk) as (extra & He & Hr & Ho & Hc & Hs & Hin & Hout).
      exists extra. repeat split; try done.
      * by apply sublist_cons.
      * intros i Hi. destruct (Hin i Hi) as (d' & ? & ? & ?).
        exists d'. split; [by apply list_elem_of_further|done].
      * intros i d' Hi Hfd Ht.
        apply elem_of_cons in Hi as [[= -> ->]|Hi]; [congruence|].
        by eapply Hout.
    + unfold bind, Now. simpl.
      set (w1 := mkWorld (runs w) (ops w) (clock w) (S (ticks w))).
      assert (Hclk1 : forall k, lo <= clock w1 k <= hi) by done.
      pose proof (Hclk (ticks w)) as Hnow.
      destruct (timeout <? time.Sub (clock w (ticks w)) (RunDoc.UpdatedAt d)) eqn:Hlt.
      * destruct (IH (acc ++ [id]) w1 Hclk1)
          as (extra & He & Hr & Ho & Hc & Hs & Hin & Hout).
        exists (id :: extra). rewrite He, <- app_assoc. repeat split; try done.
        -- by apply sublist_skip.
        -- intros i Hi. apply elem_of_cons in Hi as [->|Hi].
           ++ exists d. split; [apply list_elem_of_here|]. split; [done|].
              apply Z.ltb_lt in Hlt.
              pose proof (Sub_mono _ hi (RunDoc.UpdatedAt d) (proj2 Hnow)). lia.
           ++ destruct (Hin i Hi) as (d' & ? & ? & ?).
              exists d'. split; [by apply list_elem_of_further|done].
        -- intros i d' Hi Hfd Ht. apply elem_of_cons in Hi as [[= -> ->]|Hi].
           ++ apply list_elem_of_here.
           ++ apply list_elem_of_further. by eapply Hout.
      * destruct (IH acc w1 Hclk1) as (extra & He & Hr & Ho & Hc & Hs & Hin & Hout).
        exists extra. repeat split; try done.
        -- by apply sublist_cons.
        -- intros i Hi. destruct (Hin i Hi) as (d' & ? & ? & ?).
           exists d'. split; [by apply list_elem_of_further|done].
        -- intros i d' Hi Hfd Ht. apply elem_of_cons in Hi as [[= -> ->]|Hi].
           ++ apply Z.ltb_ge in Hlt.
              pose proof (Sub_mono lo _ (RunDoc.UpdatedAt d) (proj1 Hnow)). lia.
           ++ by eapply Hout.
Qed.

(** [FindStaleRuns] while the clock moves between [lo] and [hi]. *)
Lemma FindStaleRuns_spec w :
  (forall k, lo <= clock w k <= hi) ->
  let r := storage.FindStaleRuns timeout w in
  snd (fst r) = None
  /\ runs (snd r) = runs w
  /\ ops (snd r) = ops w ++ [OpDocuments]
  /\ NoDup (fst (fst r))
  /\ (forall id, id ∈ fst (fst r) ->
        exists d, runs w !! id = Some d /\ RunDoc.Finished d = false
                  /\ timeout < time.Sub hi (RunDoc.UpdatedAt d))
  /\ (forall id d, runs w !! id = Some d -> RunDoc.Finished d = false ->
        timeout < time.Sub lo (RunDoc.UpdatedAt d) -> id ∈ fst (fst r)).
Proof.
  intros Hclk. unfold storage.FindStaleRuns, bind, documents, ret. simpl.
  set (w1 := mkWorld (runs w) (ops w ++ [OpDocuments]) (clock w) (ticks w)).
  destruct (staleLoop_spec (map_to_list (runs w)) [] w1 Hclk)
    as (extra & He & Hr & Ho & Hc & Hs & Hin & Hout).
  destruct (storage.staleLoop timeout (map_to_list (runs w)) [] w1)
    as [ids w2] eqn:Hrun.
  simpl in *. subst ids.
  repeat split; try done.
  - eapply sublist_NoDup; [|exact Hs]. apply NoDup_fst_map_to_list.
  - intros id Hi. destruct (Hin id Hi) as (d & Hd & ? & ?).
    exists d. split; [by apply elem_of_map_to_list in Hd|done].
  - intros id d Hd Hf Ht. eapply Hout; [|done..].
    by apply elem_of_map_to_list.
Qed.

End Stale.

(** C9 (stale detection).  With the clock standing at [now] during the
    scan, [FindStaleRuns timeout] returns, without error and without
    repetition, exactly the ids of the unfinished runs whose
    [now - updatedAt] exceeds [timeout]; the difference is the one of
    [time.Sub], the plain difference for every timeout below the largest
    [Duration].  With a timeout of five minutes an unfinished run
    updated six minutes ago is returned and one updated four minutes ago
    is not; a finished run is never returned. *)
Theorem stale_detection timeout now w :
  (forall k, clock w k = now) ->
  let r := storage.FindStaleRuns timeout w in
  let r5 := storage.FindStaleRuns (5 * time.Minute) w in
  snd (fst r) = None /\ NoDup (fst (fst r)) /\ runs (snd r) = runs w
  /\ (forall id, id ∈ fst (fst r) <->
        exists d, runs w !! id = Some d /\ RunDoc.Finished d = false
                  /\ timeout < time.Sub now (RunDoc.UpdatedAt d))
  /\ (time.minDuration <= timeout < time.maxDuration ->
      forall id, id ∈ fst (fst r) <->
        exists d, runs w !! id = Some d /\ RunDoc.Finished d = false
                  /\ timeout < now - RunDoc.UpdatedAt d)
  /\ (forall id d, runs w !! id = Some d -> RunDoc.Finished d = true ->
        id ∉ fst (fst r))
  /\ (forall id d, runs w !! id = Some d -> RunDoc.Finished d = false ->
        RunDoc.UpdatedAt d = now - 6 * time.Minute -> id ∈ fst (fst r5))
  /\ (forall id d, runs w !! id = Some d -> RunDoc.Finished d = false ->
        RunDoc.UpdatedAt d = now - 4 * time.Minute -> id ∉ fst (fst r5)).
Proof.
  intros Hclk r r5.
  assert (Hb : forall k, now <= clock w k <= now) by (intros k; rewrite Hclk; lia).
  destruct (FindStaleRuns_spec timeout now now w Hb) as (He & Hr & _ & Hnd & Hin & Hout).
  destruct (FindStaleRuns_spec (5 * time.Minute) now now w Hb)
    as (_ & _ & _ & _ & Hin5 & Hout5).
  fold r in He, Hr, Hnd, Hin, Hout. fold r5 in Hin5, Hout5.
  assert (Hiff : forall id, id ∈ fst (fst r) <->
            exists d, runs w !! id = Some d /\ RunDoc.Finished d = false
                      /\ timeout < time.Sub now (RunDoc.UpdatedAt d)).
  { intros id. split; [apply Hin|]. intros (d & ? & ? & ?). by eapply Hout. }
  split; [done|]. split; [done|]. split; [done|]. split; [done|].
  split; [|split; [|split]].
  - intros Ht id. rewrite Hiff. split; intros (d & ? & ? & ?); exists d;
      (split; [done|]); (split; [done|]); by apply (Sub_gt now _ timeout Ht).
  - intros id d Hd Hf Hi. apply Hiff in Hi as (d' & Hd' & Hf' & _). congruence.
  - intros id d Hd Hf Hu. eapply Hout5; [done..|]. rewrite Hu.
    rewrite Sub_exact; change time.Minute with 60000000000;
      change time.minDuration with (-9223372036854775808);
      change time.maxDuration with 9223372036854775807; lia.
  - intros id d Hd Hf Hu Hi. apply Hin5 in Hi as (d' & Hd' & _ & Hlt).
    assert (d' = d) as -> by congruence. rewrite Hu in Hlt.
    rewrite Sub_exact in Hlt; change time.Minute with 60000000000 in *;
      change time.minDuration with (-9223372036854775808);
      change time.maxDuration with 9223372036854775807; lia.
Qed.

(** ** Sample parsing *)

Lemma parseLines_acc lines T acc :
  storage.parseLines lines T acc = acc ++ storage.parseLines lines T [].
Proof.
  revert acc. induction lines as [|l ls IH]; intros acc; simpl.
  - by rewrite app_nil_r.
  - destruct (storage.parseLine l T) as [s|]; [|apply IH].
    rewrite (IH (acc ++ [s])), (IH [s]). by rewrite <- app_assoc.
Qed.

Lemma parseLines_cons line lines T :
  storage.parseLines (line :: lines) T [] =
  match storage.parseLine line T with
  | Some s => s :: storage.parseLines lines T []
  | None => storage.parseLines lines T []
  end.
Proof.
  simpl. destruct (storage.parseLine line T) as [s|]; [|done].
  by rewrite parseLines_acc.
Qed.

Lemma parseLines_app pre post T :
  storage.parseLines (pre ++ post) T [] =
  storage.parseLines pre T [] ++ storage.parseLines post T [].
Proof.
  induction pre as [|l ls IH]; [done|].
  rewrite <- app_comm_cons, !parseLines_cons.
  destruct (storage.parseLine l T); simpl; by rewrite IH.
Qed.

(** The samples are the lines that parse, in the order of the lines. *)
Lemma parseLines_omap lines T :
  storage.parseLines lines T [] = omap (fun l => storage.parseLine l T) lines.
Proof.
  induction lines as [|l ls IH]; [done|].
  rewrite parseLines_cons. simpl. destruct (storage.parseLine l T); by rewrite IH.
Qed.

(** The start time enters a sample through its timestamp only. *)
Lemma parseParts_retime parts T :
  storage.parseParts parts T = retime T <$> storage.parseParts parts 0.
Proof. unfold storage.parseParts. by repeat case_match. Qed.

Lemma parseLine_retime line T :
  storage.parseLine line T = retime T <$> storage.parseLine line 0.
Proof.
  unfold storage.parseLine. destruct (storage.fields line); [|done].
  apply parseParts_retime.
Qed.

Lemma parseLines_retime lines T :
  storage.parseLines lines T [] = retime T <$> storage.parseLines lines 0 [].
Proof.
  induction lines as [|l ls IH]; [done|].
  rewrite !parseLines_cons, (parseLine_retime l T).
  destruct (storage.parseLine l 0); simpl; by rewrite IH.
Qed.

Lemma ParseData_retime data T :
  storage.ParseData data T = (retime T <$> fst (storage.ParseData data 0), None).
Proof. unfold storage.ParseData. simpl. f_equal. apply parseLines_retime. Qed.

Lemma fields_length line parts :
  storage.fields line = Some parts -> length parts = 6%nat \/ length parts = 7%nat.
Proof.
  unfold storage.fields. destruct (String.eqb _ ""); [done|].
  destruct (length (strings.Split _ "|") =? 6)%nat eqn:H6.
  - intros [= <-]. left. rewrite length_map. by apply Nat.eqb_eq.
  - destruct (length (strings.Split _ "|") =? 7)%nat eqn:H7; [|done].
    intros [= <-]. right. rewrite length_map. by apply Nat.eqb_eq.
Qed.

Lemma malformed_line_skipped line T :
  fieldCount line <> 6%nat -> fieldCount line <> 7%nat ->
  storage.parseLine line T = None.
Proof.
  unfold fieldCount, storage.parseLine, storage.fields. intros H6 H7.
  destruct (String.eqb _ ""); [done|].
  apply Nat.eqb_neq in H6, H7. by rewrite H6, H7.
Qed.

Lemma parseParts_fields parts T s :
  storage.parseParts parts T = Some s ->
  Sample.GCTime s = storage.parseGC parts /\ Sample.RunID s = "".
Proof.
  unfold storage.parseParts. repeat case_match; try done. by intros [= <-].
Qed.

Lemma parseParts_unavailable_gc parts T :
  length parts = 6%nat ->
  storage.parseParts (parts ++ ["N/A"]) T = storage.parseParts parts T.
Proof.
  intros Hl. do 7 (destruct parts as [|? parts]; try discriminate). reflexivity.
Qed.

Lemma ParseData_RunID data T :
  Forall (fun s => Sample.RunID s = "") (fst (storage.ParseData data T)).
Proof.
  unfold storage.ParseData. simpl. rewrite parseLines_omap.
  apply Forall_forall. intros s Hin. apply list_elem_of_omap in Hin.
  destruct Hin as (l & _ & Hl). unfold storage.parseLine in Hl.
  destruct (storage.fields l) as [parts|]; [|done].
  by apply parseParts_fields in Hl as [_ ?].
Qed.

(** ** The ingest handler *)

(** Past the validation of the token the handler goes on in the world
    the validation leaves. *)
Lemma Ingest_authorized E r req token w :
  handlers.Method r = "POST" -> handlers.Body r = Some req ->
  strings.Split (handlers.Authorization r) " " = ["Bearer"; token] ->
  fst (auth.ValidateToken E token (IngestRequest.RunID req) w) = (true, None) ->
  handlers.Ingest E r w =
  handlers.ingestAuthorized req
    (snd (auth.ValidateToken E token (IngestRequest.RunID req) w)).
Proof.
  intros Hm Hb Hsplit Hv. unfold handlers.Ingest. rewrite Hm, Hb, Hsplit.
  change (String.eqb "POST" "OPTIONS") with false.
  change (String.eqb "POST" "POST") with true. cbn [negb].
  destruct (String.eqb (handlers.Authorization r) "") eqn:Hempty.
  { apply String.eqb_eq in Hempty. by rewrite Hempty in Hsplit. }
  cbn [length Nat.eqb negb nth orb]. change (String.eqb "Bearer" "Bearer") with true.
  cbn [negb]. unfold bind.
  destruct (auth.ValidateToken E token (IngestRequest.RunID req) w) as [[valid err] w1].
  cbn [fst snd] in *. by injection Hv as -> ->.
Qed.

(** Ingestion into a run that exists parses against its recorded start
    time and appends to its samples. *)
Lemma ingestAuthorized_existing req d w :
  IngestRequest.RunID req <> "" -> IngestRequest.Data req <> "" ->
  runs w !! IngestRequest.RunID req = Some d ->
  let samples :=
    fst (storage.ParseData (IngestRequest.Data req) (RunDoc.StartTime d)) in
  exists w' d',
    handlers.ingestAuthorized req w = (handlers.Success (length samples), w')
    /\ runs w' !! IngestRequest.RunID req = Some d'
    /\ RunDoc.Samples d' = RunDoc.Samples d ++ samples
    /\ RunDoc.StartTime d' = RunDoc.StartTime d.
Proof.
  intros Hid Hdata Hd. apply String.eqb_neq in Hid, Hdata.
  unfold handlers.ingestAuthorized. rewrite Hid, Hdata. cbn [orb].
  erewrite bind_run by (by apply GetRun_found).
  unfold bind at 1, ret at 1.
  destruct (storage.ParseData _ _) as [samples err] eqn:Hp.
  assert (err = None) as -> by (by unfold storage.ParseData in Hp; injection Hp).
  erewrite bind_run by (by apply StoreSamples_existing).
  destruct (IngestRequest.ProcessInfo req) as [info|].
  - erewrite bind_run by (apply StoreProcessInfo_existing, lookup_insert_eq).
    unfold ret. do 2 eexists. split; [done|]. cbn [runs].
    split; [apply lookup_insert_eq|done].
  - unfold ret. do 2 eexists. split; [done|]. cbn [runs].
    split; [apply lookup_insert_eq|done].
Qed.

(** Ingestion into a run that is not stored parses against the clock
    reading the handler takes, and the new document takes its start
    time from the reading after that. *)
Lemma ingestAuthorized_new req w :
  IngestRequest.RunID req <> "" -> IngestRequest.Data req <> "" ->
  runs w !! IngestRequest.RunID req = None ->
  let samples := fst (storage.ParseData (IngestRequest.Data req) (reading w)) in
  exists w' d',
    handlers.ingestAuthorized req w = (handlers.Success (length samples), w')
    /\ runs w' !! IngestRequest.RunID req = Some d'
    /\ RunDoc.Samples d' = samples
    /\ RunDoc.StartTime d' = reading (tick w).
Proof.
  intros Hid Hdata Hd. apply String.eqb_neq in Hid, Hdata.
  unfold handlers.ingestAuthorized. rewrite Hid, Hdata. cbn [orb].
  erewrite bind_run by (by apply GetRun_missing).
  cbn [isNotFound]. unfold bind at 1, bind at 1, Now at 1, ret at 1, ret at 1.
  cbn [runs ops clock ticks logged]. fold (reading w).
  destruct (storage.ParseData _ _) as [samples err] eqn:Hp.
  assert (err = None) as -> by (by unfold storage.ParseData in Hp; injection Hp).
  erewrite bind_run by (by apply StoreSamples_new).
  destruct (IngestRequest.ProcessInfo req) as [info|].
  - erewrite bind_run by (apply StoreProcessInfo_existing, lookup_insert_eq).
    unfold ret. do 2 eexists. split; [done|]. cbn [runs].
    split; [apply lookup_insert_eq|done].
  - unfold ret. do 2 eexists. split; [done|]. cbn [runs].
    split; [apply lookup_insert_eq|done].
Qed.

(** Whatever the lines are, ingestion succeeds and reports the number
    of samples parsed. *)
Lemma ingestAuthorized_ok req w :
  IngestRequest.RunID req <> "" -> IngestRequest.Data req <> "" ->
  exists w',
    handlers.ingestAuthorized req w =
    (handlers.Success
       (length (fst (storage.ParseData (IngestRequest.Data req)
                       (startTimeFor (IngestRequest.RunID req) w)))), w').
Proof.
  intros Hid Hdata. unfold startTimeFor.
  destruct (runs w !! IngestRequest.RunID req) as [d|] eqn:Hd.
  - destruct (ingestAuthorized_existing req d w Hid Hdata Hd) as (w' & _ & -> & _).
    by eexists.
  - apply String.eqb_neq in Hid, Hdata.
    unfold handlers.ingestAuthorized. rewrite Hid, Hdata. cbn [orb].
    erewrite bind_run by (by apply GetRun_missing).
    cbn [isNotFound]. unfold bind at 1, bind at 1, Now at 1, ret at 1, ret at 1.
    cbn [runs ops clock ticks logged reading].
    destruct (storage.ParseData _ _) as [samples err] eqn:Hp.
    assert (err = None) as -> by (by unfold storage.ParseData in Hp; injection Hp).
    erewrite bind_run by (by apply StoreSamples_new).
    destruct (IngestRequest.ProcessInfo req) as [info|].
    + erewrite bind_run by (apply StoreProcessInfo_existing, lookup_insert_eq).
      unfold ret. by eexists.
    + unfold ret. by eexists.
Qed.

(** The example line at the epoch. *)
Lemma sampleLine_at_epoch :
  fst (storage.ParseData sampleLine 0) =
  [Sample.mk 90000 90 "123" "GradleDaemon" 100 200 300 0 ""].
Proof. by vm_compute. Qed.

(** The timestamp of the example line. *)
Lemma stamp_90 T : stamp T 90 = storage.ToMillis (time.Add T (90 * time.Second)).
Proof.
  unfold stamp. replace (wrap64 (90 * time.Second)) with (90 * time.Second); [done|].
  by vm_compute.
Qed.

Lemma sampleLine_parsed T :
  storage.ParseData sampleLine T =
  ([Sample.mk (storage.ToMillis (time.Add T (90 * time.Second))) 90 "123"
      "GradleDaemon" 100 200 300 0 ""], None).
Proof.
  rewrite ParseData_retime, sampleLine_at_epoch. cbn [fmap list_fmap].
  unfold retime. cbn [Sample.ElapsedTime Sample.PID Sample.Name Sample.HeapUsed
    Sample.HeapCap Sample.RSS Sample.GCTime Sample.RunID].
  by rewrite stamp_90.
Qed.


(** C6 (sample parsing).  The example line parsed with run start time
    [T] yields exactly one sample, with elapsed time 90, pid "123", name
    "GradleDaemon", heap used 100, heap capacity 200, RSS 300 and the
    timestamp of [T] plus 90 seconds.  An authorised ingest of that line
    into a run that exists appends this sample computed from the start
    time recorded in the run document, whatever the clock reads when the
    request arrives.  An authorised ingest of that line for a run that
    is not stored stamps the sample against the clock reading the
    handler takes on arrival, and [StoreSamples] then records the next
    reading as the start time of the run: the timestamp of the sample
    is not that of the recorded start time plus 90 seconds as soon as
    the clock has moved between the two readings.  With a clock that
    advances by a second with every reading the recorded start time is
    2 s after the epoch and the timestamp is 91000 ms, not 92000 ms. *)
Theorem sample_parsing :
  (forall T, exists s,
     storage.ParseData sampleLine T = ([s], None)
     /\ Sample.ElapsedTime s = 90 /\ Sample.PID s = "123"
     /\ Sample.Name s = "GradleDaemon"
     /\ Sample.HeapUsed s = 100 /\ Sample.HeapCap s = 200 /\ Sample.RSS s = 300
     /\ Sample.Timestamp s = storage.ToMillis (time.Add T (90 * time.Second)))
  /\ (forall E r req token d w,
        handlers.Method r = "POST" -> handlers.Body r = Some req ->
        strings.Split (handlers.Authorization r) " " = ["Bearer"; token] ->
        fst (auth.ValidateToken E token (IngestRequest.RunID req) w) = (true, None) ->
        IngestRequest.RunID req <> "" -> IngestRequest.Data req = sampleLine ->
        runs w !! IngestRequest.RunID req = Some d ->
        exists w' d' s,
          handlers.Ingest E r w = (handlers.Success 1, w')
          /\ runs w' !! IngestRequest.RunID req = Some d'
          /\ RunDoc.StartTime d' = RunDoc.StartTime d
          /\ RunDoc.Samples d' = RunDoc.Samples d ++ [s]
          /\ Sample.ElapsedTime s = 90
          /\ Sample.Timestamp s =
             storage.ToMillis (time.Add (RunDoc.StartTime d) (90 * time.Second)))
  /\ (forall E r req token w,
        handlers.Method r = "POST" -> handlers.Body r = Some req ->
        strings.Split (handlers.Authorization r) " " = ["Bearer"; token] ->
        fst (auth.ValidateToken E token (IngestRequest.RunID req) w) = (true, None) ->
        IngestRequest.RunID req <> "" -> IngestRequest.Data req = sampleLine ->
        runs w !! IngestRequest.RunID req = None ->
        let arrival :=
          reading (snd (auth.ValidateToken E token (IngestRequest.RunID req) w)) in
        let recorded :=
          reading (tick (snd (auth.ValidateToken E token (IngestRequest.RunID req) w))) in
        exists w' d' s,
          handlers.Ingest E r w = (handlers.Success 1, w')
          /\ runs w' !! IngestRequest.RunID req = Some d'
          /\ RunDoc.StartTime d' = recorded
          /\ RunDoc.Samples d' = [s]
          /\ Sample.ElapsedTime s = 90
          /\ Sample.Timestamp s
             = storage.ToMillis (time.Add arrival (90 * time.Second))
          /\ (storage.ToMillis (time.Add arrival (90 * time.Second))
              <> storage.ToMillis (time.Add recorded (90 * time.Second)) ->
              Sample.Timestamp s
              <> storage.ToMillis (time.Add (RunDoc.StartTime d') (90 * time.Second))))
  /\ (exists w' d' s,
        handlers.Ingest demoEnv (demoRequest demoBearer sampleLine) tickingWorld
        = (handlers.Success 1, w')
        /\ runs w' !! "run1" = Some d'
        /\ RunDoc.Samples d' = [s]
        /\ RunDoc.StartTime d' = 2 * time.Second
        /\ Sample.Timestamp s = 91000
        /\ storage.ToMillis (time.Add (RunDoc.StartTime d') (90 * time.Second)) = 92000).
Proof.
  assert (forall E r req token w,
            handlers.Method r = "POST" -> handlers.Body r = Some req ->
            strings.Split (handlers.Authorization r) " " = ["Bearer"; token] ->
            fst (auth.ValidateToken E token (IngestRequest.RunID req) w) = (true, None) ->
            IngestRequest.RunID req <> "" -> IngestRequest.Data req = sampleLine ->
            runs w !! IngestRequest.RunID req = None ->
            exists w' d' s,
              handlers.Ingest E r w = (handlers.Success 1, w')
              /\ runs w' !! IngestRequest.RunID req = Some d'
              /\ RunDoc.StartTime d'
                 = reading (tick (snd (auth.ValidateToken E token
                                         (IngestRequest.RunID req) w)))
              /\ RunDoc.Samples d' = [s]
              /\ Sample.ElapsedTime s = 90
              /\ Sample.Timestamp s
                 = storage.ToMillis
                     (time.Add
                        (reading (snd (auth.ValidateToken E token
                                         (IngestRequest.RunID req) w)))
                        (90 * time.Second))) as Hfirst.
  { intros E r req token w Hm Hb Hsplit Hv Hid Hdata Hnone.
    rewrite (Ingest_authorized E r req token w Hm Hb Hsplit Hv).
    pose proof (ValidateToken_store E token (IngestRequest.RunID req) w) as (Hr & _).
    destruct (ingestAuthorized_new req
                (snd (auth.ValidateToken E token (IngestRequest.RunID req) w)))
      as (w' & d' & Hrun & Hd' & Hs & Ht); [done| |by rewrite Hr|].
    { by rewrite Hdata. }
    rewrite Hdata, sampleLine_parsed in Hrun, Hs. cbn [fst length] in Hrun, Hs.
    exists w', d'. eexists. by repeat split. }
  split.
  { intros T. eexists. split; [apply sampleLine_parsed|]. by repeat split. }
  split.
  { intros E r req token d w Hm Hb Hsplit Hv Hid Hdata Hd.
    rewrite (Ingest_authorized E r req token w Hm Hb Hsplit Hv).
    pose proof (ValidateToken_store E token (IngestRequest.RunID req) w) as (Hr & _).
    destruct (ingestAuthorized_existing req d
                (snd (auth.ValidateToken E token (IngestRequest.RunID req) w)))
      as (w' & d' & Hrun & Hd' & Hs & Ht); [done| |by rewrite Hr|].
    { by rewrite Hdata. }
    rewrite Hdata, sampleLine_parsed in Hrun, Hs. cbn [fst length] in Hrun, Hs.
    exists w', d'. eexists. by repeat split. }
  split.
  { intros E r req token w Hm Hb Hsplit Hv Hid Hdata Hnone arrival recorded.
    destruct (Hfirst E r req token w Hm Hb Hsplit Hv Hid Hdata Hnone)
      as (w' & d' & s & Hrun & Hd' & Hstart & Hs & He & Ht).
    exists w', d', s. split; [done|]. split; [done|]. split; [done|].
    split; [done|]. split; [done|]. split; [done|].
    intros Hne. by rewrite Ht, Hstart. }
  destruct (Hfirst demoEnv (demoRequest demoBearer sampleLine)
              (IngestRequest.mk "run1" sampleLine None) demoToken tickingWorld)
    as (w' & d' & s & Hrun & Hd' & Hstart & Hs & _ & Ht); try done.
  exists w', d', s. split; [done|]. split; [done|]. split; [done|].
  split; [by rewrite Hstart|]. split; [by rewrite Ht|]. by rewrite Hstart.
Qed.

(** C7 (malformed lines).  [ParseData] never returns an error; its
    samples are the lines that parse.  A line whose field count is
    neither 6 nor 7 yields no sample and changes nothing for the lines
    around it, so three lines of which one is malformed and two parse
    yield two samples, as the four-column example shows.  An authorised
    ingest request with a run id and data is answered 200 with the
    number of samples parsed, whatever its lines are. *)
Theorem malformed_line_tolerance :
  (forall data T,
     snd (storage.ParseData data T) = None
     /\ fst (storage.ParseData data T) =
        omap (fun l => storage.parseLine l T)
             (strings.Split (strings.TrimSpace data) "010"))
  /\ (forall line T,
        fieldCount line <> 6%nat -> fieldCount line <> 7%nat ->
        storage.parseLine line T = None
        /\ forall pre post,
             storage.parseLines (pre ++ line :: post) T [] =
             storage.parseLines (pre ++ post) T [])
  /\ (forall bad l1 l2 s1 s2 T,
        fieldCount bad <> 6%nat -> fieldCount bad <> 7%nat ->
        storage.parseLine l1 T = Some s1 -> storage.parseLine l2 T = Some s2 ->
        storage.parseLines [bad; l1; l2] T [] = [s1; s2]
        /\ storage.parseLines [l1; bad; l2] T [] = [s1; s2]
        /\ storage.parseLines [l1; l2; bad] T [] = [s1; s2])
  /\ (forall T,
        storage.ParseData fourColumns T = ([], None)
        /\ length (fst (storage.ParseData
                          (sampleLine +:+ newline +:+ fourColumns +:+ newline
                             +:+ laterLine) T)) = 2%nat)
  /\ (forall E r req token w,
        handlers.Method r = "POST" -> handlers.Body r = Some req ->
        strings.Split (handlers.Authorization r) " " = ["Bearer"; token] ->
        fst (auth.ValidateToken E token (IngestRequest.RunID req) w) = (true, None) ->
        IngestRequest.RunID req <> "" -> IngestRequest.Data req <> "" ->
        handlers.StatusCode (fst (handlers.Ingest E r w)) = 200
        /\ exists T,
             fst (handlers.Ingest E r w) =
             handlers.Success
               (length (fst (storage.ParseData (IngestRequest.Data req) T)))).
Proof.
  split; [|split; [|split; [|split]]].
  - intros data T. split; [done|]. unfold storage.ParseData. simpl.
    apply parseLines_omap.
  - intros line T H6 H7. pose proof (malformed_line_skipped line T H6 H7) as Hskip.
    split; [done|]. intros pre post.
    by rewrite !parseLines_app, parseLines_cons, Hskip.
  - intros bad l1 l2 s1 s2 T H6 H7 H1 H2.
    pose proof (malformed_line_skipped bad T H6 H7) as Hskip.
    repeat split; rewrite !parseLines_cons, ?Hskip, ?H1, ?H2; by rewrite ?Hskip.
  - intros T. split.
    + rewrite (ParseData_retime fourColumns T).
      by replace (fst (storage.ParseData fourColumns 0)) with (@nil Sample.t)
        by (by vm_compute).
    + rewrite (ParseData_retime _ T). cbn [fst]. rewrite length_fmap. by vm_compute.
  - intros E r req token w Hm Hb Hsplit Hv Hid Hdata.
    rewrite (Ingest_authorized E r req token w Hm Hb Hsplit Hv).
    destruct (ingestAuthorized_ok req
                (snd (auth.ValidateToken E token (IngestRequest.RunID req) w))
                Hid Hdata) as (w' & ->).
    split; [done|]. by eexists.
Qed.

(** C3 (run id of stored samples), as the code has it.  Every sample
    [ParseData] returns has the empty run id, and [StoreSamples] appends
    the samples it is given unchanged: after the example line is stored
    under "run1", the document of "run1" ends with a sample whose run id
    is empty, not "run1". *)
Theorem stored_samples_carry_no_run_id runID data T w :
  let samples := fst (storage.ParseData data T) in
  let w' := snd (storage.StoreSamples runID samples w) in
  Forall (fun s => Sample.RunID s = "") samples
  /\ (exists d old, runs w' !! runID = Some d /\ RunDoc.Samples d = old ++ samples)
  /\ (exists d old s,
        runs (snd (storage.StoreSamples "run1"
                     (fst (storage.ParseData sampleLine T)) w)) !! "run1" = Some d
        /\ RunDoc.Samples d = old ++ [s]
        /\ Sample.RunID s = "" /\ Sample.RunID s <> "run1").
Proof.
  intros samples w'. split; [apply ParseData_RunID|]. split.
  - subst w'. destruct (runs w !! runID) as [d|] eqn:Hd.
    + rewrite (StoreSamples_existing runID d samples w Hd). cbn [snd runs].
      eexists _, (RunDoc.Samples d). split; [apply lookup_insert_eq|done].
    + rewrite (StoreSamples_new runID samples w Hd). cbn [snd runs].
      eexists _, []. split; [apply lookup_insert_eq|done].
  - rewrite sampleLine_parsed. cbn [fst].
    destruct (runs w !! "run1") as [d|] eqn:Hd.
    + erewrite StoreSamples_existing by exact Hd. cbn [snd runs].
      eexists _, (RunDoc.Samples d), _. split; [apply lookup_insert_eq|].
      by repeat split.
    + erewrite StoreSamples_new by exact Hd. cbn [snd runs].
      eexists _, [], _. split; [apply lookup_insert_eq|].
      by repeat split.
Qed.

(** C4 (GC time), as the code has it.  With the seventh column "0.250s"
    the example line is accepted with GC time 0: only the suffix "ms" is
    removed, "0.250s" is not a number, and the failure is replaced by 0.
    With "250ms" the GC time is 250.  Without the column, or with a
    column that is no number, the line is accepted with GC time 0. *)
Theorem gc_seconds_read_as_zero T :
  (exists s, storage.ParseData (sampleLine +:+ " | 0.250s") T = ([s], None)
             /\ Sample.GCTime s = 0)
  /\ (exists s, storage.ParseData (sampleLine +:+ " | 250ms") T = ([s], None)
                /\ Sample.GCTime s = 250)
  /\ (exists s, storage.ParseData sampleLine T = ([s], None)
                /\ Sample.GCTime s = 0)
  /\ (exists s, storage.ParseData (sampleLine +:+ " | soon") T = ([s], None)
                /\ Sample.GCTime s = 0).
Proof.
  split; [|split; [|split]].
  - rewrite (ParseData_retime _ T).
    replace (fst (storage.ParseData (sampleLine +:+ " | 0.250s") 0)) with
      [Sample.mk 90000 90 "123" "GradleDaemon" 100 200 300 0 ""] by (by vm_compute).
    by eexists.
  - rewrite (ParseData_retime _ T).
    replace (fst (storage.ParseData (sampleLine +:+ " | 250ms") 0)) with
      [Sample.mk 90000 90 "123" "GradleDaemon" 100 200 300 250 ""] by (by vm_compute).
    by eexists.
  - rewrite sampleLine_parsed. by eexists.
  - rewrite (ParseData_retime _ T).
    replace (fst (storage.ParseData (sampleLine +:+ " | soon") 0)) with
      [Sample.mk 90000 90 "123" "GradleDaemon" 100 200 300 0 ""] by (by vm_compute).
    by eexists.
Qed.

(** C5, the claim as stated fails: a line whose heap-used field is the
    placeholder is rejected. *)
Lemma heap_placeholder_rejected :
  storage.fields heapUnavailable =
    Some ["00:01:30"; "123"; "GradleDaemon"; "N/A"; "200MB"; "300MB"]
  /\ storage.parseLine heapUnavailable 0 = None
  /\ storage.ParseData heapUnavailable 0 = ([], None).
Proof. by vm_compute. Qed.

(** C5 (the placeholder), as amended.  A line whose seventh field is
    "N/A" parses exactly as the line without the seventh field, with GC
    time 0.  A line whose heap-used, heap-capacity or RSS field is "N/A"
    yields no sample, and the lines around it parse as without it. *)
Theorem unavailable_fields :
  (forall line6 line7 parts T,
     storage.fields line6 = Some parts ->
     storage.fields line7 = Some (parts ++ ["N/A"]) ->
     storage.parseLine line7 T = storage.parseLine line6 T
     /\ Forall (fun s => Sample.GCTime s = 0)
          (option_list (storage.parseLine line7 T)))
  /\ (forall line parts T,
        storage.fields line = Some parts ->
        nth 3 parts "" = "N/A" \/ nth 4 parts "" = "N/A" \/ nth 5 parts "" = "N/A" ->
        storage.parseLine line T = None
        /\ forall pre post,
             storage.parseLines (pre ++ line :: post) T [] =
             storage.parseLines (pre ++ post) T []).
Proof.
  split.
  - intros line6 line7 parts T H6 H7.
    assert (Hl : length parts = 6%nat).
    { apply fields_length in H6, H7. rewrite length_app in H7. simpl in H7. lia. }
    unfold storage.parseLine. rewrite H6, H7.
    rewrite (parseParts_unavailable_gc parts T Hl). split; [done|].
    destruct (storage.parseParts parts T) as [s|] eqn:Hs; [|by constructor].
    constructor; [|constructor]. apply parseParts_fields in Hs as [-> _].
    unfold storage.parseGC. by rewrite Hl.
  - intros line parts T Hf H.
    assert (Hskip : storage.parseLine line T = None).
    { unfold storage.parseLine. rewrite Hf. unfold storage.parseParts.
      assert (Hna : storage.parseMB "N/A" = None) by reflexivity.
      destruct H as [H|[H|H]]; rewrite H, Hna; by repeat case_match. }
    split; [done|]. intros pre post.
    by rewrite !parseLines_app, parseLines_cons, Hskip.
Qed.

(** ** The properties at work in the small environment *)

Lemma demoEnv_round_trip d : RoundTrip demoEnv d.
Proof.
  destruct d as [runID expiresAt createdAt]. intros p. simpl.
  destruct ((expiresAt =? demoExpiry) && (createdAt =? 0)) eqn:H; [|done].
  apply andb_true_iff in H as [->%Z.eqb_eq ->%Z.eqb_eq]. by intros [= <-].
Qed.

Lemma token_round_trip_witness :
  fst (auth.GenerateToken (jsonEnv "secret" (fun key message => key +:+ message))
         "run1" demoWorld) = (jsonToken, demoExpiry, None)
  /\ reading demoWorld <= demoExpiry
  /\ utf8.ValidString "run1" = true
  /\ demoExpiry = time.Add (reading demoWorld) (2 * time.Hour)
  /\ fst (auth.ValidateToken (jsonEnv "secret" (fun key message => key +:+ message))
            jsonToken "run1" demoWorld) = (true, None).
Proof.
  assert (H1 : fst (auth.GenerateToken
                      (jsonEnv "secret" (fun key message => key +:+ message))
                      "run1" demoWorld) = (jsonToken, demoExpiry, None))
    by (vm_compute; reflexivity).
  assert (H2 : reading demoWorld <= demoExpiry) by (vm_compute; discriminate).
  assert (H3 : utf8.ValidString "run1" = true) by (vm_compute; reflexivity).
  destruct (token_round_trip "secret" (fun key message => key +:+ message)
              "run1" demoWorld demoWorld jsonToken demoExpiry H1 H2)
    as (Hexp & Hvalid & _).
  split; [exact H1|]. split; [exact H2|]. split; [exact H3|].
  split; [exact Hexp|exact (Hvalid H3)].
Defined.

Lemma token_rejection_witness :
  RoundTrip demoEnv (TokenData.mk "run1" demoExpiry (reading (tick demoWorld)))
  /\ fst (auth.GenerateToken demoEnv "run1" demoWorld) = (demoToken, demoExpiry, None)
  /\ "run1" <> "run2"
  /\ "forged" <> auth.hmac demoEnv (auth.secretKey demoEnv) "payload"
  /\ snd (fst (auth.ValidateToken demoEnv demoToken "run2" demoWorld)) <> None
  /\ Rejected demoEnv demoToken "run2" (reading demoWorld)
  /\ fst (auth.ValidateToken demoEnv demoToken "run2" demoWorld).1 = false
  /\ fst (auth.ValidateToken demoEnv
            (base64.EncodeToString "payload" +:+ "." +:+ hex.EncodeToString "forged")
            "run2" demoWorld) = (false, Some auth.ErrSignature).
Proof.
  assert (H1 : RoundTrip demoEnv
                 (TokenData.mk "run1" demoExpiry (reading (tick demoWorld))))
    by apply demoEnv_round_trip.
  assert (H2 : fst (auth.GenerateToken demoEnv "run1" demoWorld)
               = (demoToken, demoExpiry, None)) by (vm_compute; reflexivity).
  assert (H3 : "run1" <> "run2") by discriminate.
  assert (H4 : "forged" <> auth.hmac demoEnv (auth.secretKey demoEnv) "payload")
    by (vm_compute; discriminate).
  destruct (token_rejection demoEnv demoToken "run2" demoWorld)
    as (Hiff & _ & Hfalse & Hissued & Hsig).
  destruct (Hissued "run1" demoWorld demoExpiry H1 H2) as [Hother _].
  split; [exact H1|]. split; [exact H2|]. split; [exact H3|]. split; [exact H4|].
  split; [exact (Hother H3)|].
  split; [exact (proj1 Hiff (Hother H3))|].
  split; [exact (Hfalse (Hother H3))|].
  exact (Hsig "payload" "forged" H4).
Defined.

Lemma finish_idempotent_witness :
  runs demoStore !! "run1" = Some demoDoc
  /\ fst (storage.MarkRunAsFinished "run1" demoStore) = None
  /\ fst (storage.MarkRunAsFinished "run1"
            (snd (storage.MarkRunAsFinished "run1" demoStore))) = None
  /\ runs (snd (storage.MarkRunAsFinished "run1"
                  (snd (storage.MarkRunAsFinished "run1" demoStore)))) =
     runs (snd (storage.MarkRunAsFinished "run1" demoStore)).
Proof.
  assert (H : runs demoStore !! "run1" = Some demoDoc) by (vm_compute; reflexivity).
  destruct (finish_idempotent "run1" demoDoc demoStore H) as (H1 & H2 & _ & _ & H3 & _).
  split; [exact H|]. split; [exact H1|]. split; [exact H2|]. exact H3.
Defined.

Lemma stale_detection_witness :
  (forall k, clock staleWorld k = staleNow)
  /\ "old" ∈ fst (fst (storage.FindStaleRuns (5 * time.Minute) staleWorld))
  /\ ("fresh" ∉ fst (fst (storage.FindStaleRuns (5 * time.Minute) staleWorld)))
  /\ ("done" ∉ fst (fst (storage.FindStaleRuns (5 * time.Minute) staleWorld))).
Proof.
  assert (H : forall k, clock staleWorld k = staleNow) by (intros k; reflexivity).
  destruct (stale_detection (5 * time.Minute) staleNow staleWorld H)
    as (_ & _ & _ & _ & _ & Hdone & Hold & Hfresh).
  split; [exact H|]. split; [|split].
  - apply (Hold "old" (runUpdatedAt (staleNow - 6 * time.Minute) false));
      vm_compute; reflexivity.
  - apply (Hfresh "fresh" (runUpdatedAt (staleNow - 4 * time.Minute) false));
      vm_compute; reflexivity.
  - apply (Hdone "done" (runUpdatedAt 0 true)); vm_compute; reflexivity.
Defined.


Lemma sample_parsing_witness :
  handlers.Method (demoRequest demoBearer sampleLine) = "POST"
  /\ handlers.Body (demoRequest demoBearer sampleLine)
     = Some (IngestRequest.mk "run1" sampleLine None)
  /\ strings.Split demoBearer " " = ["Bearer"; demoToken]
  /\ fst (auth.ValidateToken demoEnv demoToken "run1" demoStore) = (true, None)
  /\ "run1" <> ""
  /\ runs demoStore !! "run1" = Some demoDoc
  /\ exists w' d' s,
       handlers.Ingest demoEnv (demoRequest demoBearer sampleLine) demoStore
       = (handlers.Success 1, w')
       /\ runs w' !! "run1" = Some d'
       /\ RunDoc.StartTime d' = RunDoc.StartTime demoDoc
       /\ RunDoc.Samples d' = RunDoc.Samples demoDoc ++ [s]
       /\ Sample.ElapsedTime s = 90
       /\ Sample.Timestamp s =
          storage.ToMillis (time.Add (RunDoc.StartTime demoDoc) (90 * time.Second)).
Proof.
  assert (H1 : handlers.Method (demoRequest demoBearer sampleLine) = "POST")
    by reflexivity.
  assert (H2 : handlers.Body (demoRequest demoBearer sampleLine)
               = Some (IngestRequest.mk "run1" sampleLine None)) by reflexivity.
  assert (H3 : strings.Split demoBearer " " = ["Bearer"; demoToken])
    by (vm_compute; reflexivity).
  assert (H4 : fst (auth.ValidateToken demoEnv demoToken "run1" demoStore) = (true, None))
    by (vm_compute; reflexivity).
  assert (H5 : "run1" <> "") by discriminate.
  assert (H6 : runs demoStore !! "run1" = Some demoDoc) by (vm_compute; reflexivity).
  split; [exact H1|]. split; [exact H2|]. split; [exact H3|]. split; [exact H4|].
  split; [exact H5|]. split; [exact H6|].
  exact (proj1 (proj2 sample_parsing) demoEnv (demoRequest demoBearer sampleLine)
           (IngestRequest.mk "run1" sampleLine None) demoToken demoDoc demoStore
           H1 H2 H3 H4 H5 eq_refl H6).
Defined.

Lemma malformed_line_tolerance_witness :
  fieldCount fourColumns <> 6%nat /\ fieldCount fourColumns <> 7%nat
  /\ storage.parseLine sampleLine 0
     = Some (Sample.mk 90000 90 "123" "GradleDaemon" 100 200 300 0 "")
  /\ storage.parseLine laterLine 0
     = Some (Sample.mk 95000 95 "123" "GradleDaemon" 110 210 310 0 "")
  /\ strings.Split demoBearer " " = ["Bearer"; demoToken]
  /\ fst (auth.ValidateToken demoEnv demoToken "run1" demoStore) = (true, None)
  /\ storage.parseLine fourColumns 0 = None
  /\ storage.parseLines [sampleLine; fourColumns; laterLine] 0 []
     = [Sample.mk 90000 90 "123" "GradleDaemon" 100 200 300 0 "";
        Sample.mk 95000 95 "123" "GradleDaemon" 110 210 310 0 ""]
  /\ handlers.StatusCode
       (fst (handlers.Ingest demoEnv (demoRequest demoBearer fourColumns) demoStore))
     = 200.
Proof.
  assert (H6 : fieldCount fourColumns <> 6%nat) by (vm_compute; discriminate).
  assert (H7 : fieldCount fourColumns <> 7%nat) by (vm_compute; discriminate).
  assert (Ha : storage.parseLine sampleLine 0
               = Some (Sample.mk 90000 90 "123" "GradleDaemon" 100 200 300 0 ""))
    by (vm_compute; reflexivity).
  assert (Hb : storage.parseLine laterLine 0
               = Some (Sample.mk 95000 95 "123" "GradleDaemon" 110 210 310 0 ""))
    by (vm_compute; reflexivity).
  assert (H3 : strings.Split demoBearer " " = ["Bearer"; demoToken])
    by (vm_compute; reflexivity).
  assert (H4 : fst (auth.ValidateToken demoEnv demoToken "run1" demoStore) = (true, None))
    by (vm_compute; reflexivity).
  destruct malformed_line_tolerance as (_ & Hskip & Hthree & _ & Hingest).
  split; [exact H6|]. split; [exact H7|]. split; [exact Ha|]. split; [exact Hb|].
  split; [exact H3|]. split; [exact H4|].
  split; [exact (proj1 (Hskip fourColumns 0 H6 H7))|].
  split; [exact (proj1 (proj2 (Hthree fourColumns sampleLine laterLine _ _ 0 H6 H7 Ha Hb)))|].
  refine (proj1 (Hingest demoEnv (demoRequest demoBearer fourColumns)
                   (IngestRequest.mk "run1" fourColumns None) demoToken demoStore
                   eq_refl eq_refl H3 H4 _ _)); discriminate.
Defined.

Lemma unavailable_fields_witness :
  storage.fields sampleLine =
    Some ["00:01:30"; "123"; "GradleDaemon"; "100MB"; "200MB"; "300MB"]
  /\ storage.fields (sampleLine +:+ " | N/A") =
     Some (["00:01:30"; "123"; "GradleDaemon"; "100MB"; "200MB"; "300MB"] ++ ["N/A"])
  /\ storage.parseLine (sampleLine +:+ " | N/A") 0 = storage.parseLine sampleLine 0
  /\ storage.fields heapUnavailable =
     Some ["00:01:30"; "123"; "GradleDaemon"; "N/A"; "200MB"; "300MB"]
  /\ storage.parseLine heapUnavailable 0 = None.
Proof.
  assert (H6 : storage.fields sampleLine =
               Some ["00:01:30"; "123"; "GradleDaemon"; "100MB"; "200MB"; "300MB"])
    by (vm_compute; reflexivity).
  assert (H7 : storage.fields (sampleLine +:+ " | N/A") =
               Some (["00:01:30"; "123"; "GradleDaemon"; "100MB"; "200MB"; "300MB"]
                       ++ ["N/A"]))
    by (vm_compute; reflexivity).
  assert (Hh : storage.fields heapUnavailable =
               Some ["00:01:30"; "123"; "GradleDaemon"; "N/A"; "200MB"; "300MB"])
    by (vm_compute; reflexivity).
  destruct unavailable_fields as (Hgc & Hheap).
  split; [exact H6|]. split; [exact H7|].
  split; [exact (proj1 (Hgc sampleLine (sampleLine +:+ " | N/A") _ 0 H6 H7))|].
  split; [exact Hh|].
  exact (proj1 (Hheap heapUnavailable _ 0 Hh (or_introl eq_refl))).
Defined.

(** * Further properties of the run store *)

Lemma wrap64_id z : in_int64 z = true -> wrap64 z = z.
Proof.
  unfold in_int64, min_int64, max_int64, wrap64. intros H.
  apply andb_true_iff in H as [H1 H2]. apply Z.leb_le in H1, H2.
  rewrite Z.mod_small; lia.
Qed.

Lemma ToMillis_mono t u :
  in_int64 t = true -> in_int64 u = true -> t <= u ->
  storage.ToMillis t <= storage.ToMillis u.
Proof.
  intros Ht Hu Hle. unfold storage.ToMillis, time.UnixNano.
  rewrite !wrap64_id by done. by apply Z.quot_le_mono.
Qed.

Lemma ToMillis_later t u :
  0 <= t -> in_int64 u = true -> t + time.Millisecond <= u ->
  storage.ToMillis t < storage.ToMillis u.
Proof.
  intros Ht Hu Hle. unfold storage.ToMillis, time.UnixNano.
  assert (in_int64 t = true) as Hti.
  { unfold in_int64, min_int64, max_int64 in *.
    apply andb_true_iff in Hu as [H1 H2]. apply Z.leb_le in H1, H2.
    change time.Millisecond with 1000000 in Hle.
    apply andb_true_iff. split; apply Z.leb_le; lia. }
  rewrite !wrap64_id by done.
  change time.Millisecond with 1000000 in *.
  rewrite !Z.quot_div_nonneg by lia.
  apply Z.lt_le_trans with ((t + 1000000) / 1000000).
  - replace (t + 1000000) with (t + 1 * 1000000) by lia.
    rewrite Z.div_add by lia. lia.
  - apply Z.div_le_mono; lia.
Qed.

Lemma GetRun_fst runID w :
  fst (storage.GetRun runID w) =
  match runs w !! runID with
  | Some d => (Some d, None)
  | None => (None, Some (ErrNotFound runID))
  end.
Proof. unfold storage.GetRun, bind, docGet, ret. cbn. by case_match. Qed.

Lemma GetRun_snd runID w : snd (storage.GetRun runID w) = logged [OpGet runID] w.
Proof. unfold storage.GetRun, bind, docGet, ret. cbn. by case_match. Qed.

(** What [StoreSamples] writes, for a run that exists and for a new one. *)
Lemma StoreSamples_runs runID samples w :
  exists d',
    runs (snd (storage.StoreSamples runID samples w)) = <[runID := d']> (runs w)
    /\ fst (storage.StoreSamples runID samples w) = None
    /\ RunDoc.Samples d' = samplesOf runID w ++ samples
    /\ Consistent d'
    /\ ops (snd (storage.StoreSamples runID samples w)) = ops w ++ [OpGet runID; OpSet runID]
    /\ clock (snd (storage.StoreSamples runID samples w)) = clock w
    /\ match runs w !! runID with
       | Some d =>
           d' = RunDoc.withUpdated (RunDoc.withSamples d (RunDoc.Samples d ++ samples))
                  (reading w) (storage.ToMillis (reading w))
           /\ ticks (snd (storage.StoreSamples runID samples w)) = S (ticks w)
       | None =>
           d' = RunDoc.mk runID runID (clock w (ticks w)) time.Zero
                   (clock w (S (ticks w))) (clock w (S (S (ticks w))))
                   (storage.ToMillis (clock w (S (S (ticks w))))) samples ∅ false
                   time.Zero
           /\ ticks (snd (storage.StoreSamples runID samples w)) = S (S (S (ticks w)))
       end.
Proof.
  unfold samplesOf.
  destruct (runs w !! runID) as [d|] eqn:Hd.
  - rewrite (StoreSamples_existing _ _ _ _ Hd). eexists. by repeat split.
  - rewrite (StoreSamples_new _ _ _ Hd). eexists. by repeat split.
Qed.

(** X1 (store, then read).  After [StoreSamples] for a run, [GetRun]
    returns a document whose samples are the ones the run had, none for
    a new run, followed by the stored ones in their order; the run keeps
    its identity, start time, creation time, process metadata and
    finished state, and only its update time moves to the clock reading.
    No other run reads differently, and reading changes no document. *)
Theorem StoreSamples_then_GetRun runID samples w :
  let w1 := snd (storage.StoreSamples runID samples w) in
  fst (storage.StoreSamples runID samples w) = None
  /\ (exists d',
        fst (storage.GetRun runID w1) = (Some d', None)
        /\ RunDoc.Samples d' = samplesOf runID w ++ samples
        /\ RunDoc.UpdatedAtTimestamp d' = storage.ToMillis (RunDoc.UpdatedAt d')
        /\ forall d, runs w !! runID = Some d ->
             RunDoc.ID d' = RunDoc.ID d /\ RunDoc.RunID d' = RunDoc.RunID d
             /\ RunDoc.StartTime d' = RunDoc.StartTime d
             /\ RunDoc.CreatedAt d' = RunDoc.CreatedAt d
             /\ RunDoc.ProcessInfo d' = RunDoc.ProcessInfo d
             /\ RunDoc.Finished d' = RunDoc.Finished d
             /\ RunDoc.FinishedAt d' = RunDoc.FinishedAt d
             /\ RunDoc.UpdatedAt d' = reading w)
  /\ (forall other, other <> runID ->
        fst (storage.GetRun other w1) = fst (storage.GetRun other w))
  /\ runs (snd (storage.GetRun runID w1)) = runs w1.
Proof.
  intros w1. subst w1.
  destruct (StoreSamples_runs runID samples w) as (d' & Hr & He & Hs & Hc & _ & _ & Hd').
  split; [done|]. split; [|split].
  - exists d'. rewrite (GetRun_found runID d') by (rewrite Hr; apply lookup_insert_eq).
    split; [done|]. split; [done|]. split; [done|].
    intros d Hd. rewrite Hd in Hd'. destruct Hd' as [-> _]. by repeat split.
  - intros other Hne. rewrite !GetRun_fst, Hr, lookup_insert_ne; done.
  - by rewrite GetRun_snd.
Qed.

(** X2 (batches).  Storing two batches one after the other leaves the
    samples of both, in the order they were stored, after the samples
    the run had; the second call keeps the start and creation time the
    first one left.  While the clock stands still the store is the one
    a single call with both batches leaves. *)
Theorem StoreSamples_batches runID s1 s2 w :
  let w1 := snd (storage.StoreSamples runID s1 w) in
  let w2 := snd (storage.StoreSamples runID s2 w1) in
  samplesOf runID w2 = samplesOf runID w ++ s1 ++ s2
  /\ (exists d1 d2,
        runs w1 !! runID = Some d1 /\ runs w2 !! runID = Some d2
        /\ RunDoc.StartTime d2 = RunDoc.StartTime d1
        /\ RunDoc.CreatedAt d2 = RunDoc.CreatedAt d1
        /\ RunDoc.UpdatedAt d2 = reading w1)
  /\ ((forall i j, clock w i = clock w j) ->
      runs w2 = runs (snd (storage.StoreSamples runID (s1 ++ s2) w))).
Proof.
  intros w1 w2. subst w2 w1.
  destruct (StoreSamples_runs runID s1 w) as (d1 & Hr1 & _ & Hs1 & _ & _ & Hc1 & Hd1).
  assert (runs (snd (storage.StoreSamples runID s1 w)) !! runID = Some d1) as Hl1
    by (rewrite Hr1; apply lookup_insert_eq).
  destruct (StoreSamples_runs runID s2 (snd (storage.StoreSamples runID s1 w)))
    as (d2 & Hr2 & _ & Hs2 & _ & _ & _ & Hd2).
  rewrite Hl1 in Hd2. destruct Hd2 as [Hd2 _].
  assert (samplesOf runID (snd (storage.StoreSamples runID s1 w)) = RunDoc.Samples d1)
    as Hso by (unfold samplesOf; by rewrite Hl1).
  split; [|split].
  - unfold samplesOf at 1. rewrite Hr2, lookup_insert_eq, Hs2, Hso, Hs1.
    by rewrite <- app_assoc.
  - exists d1, d2. rewrite Hr2, lookup_insert_eq. split; [done|]. split; [done|].
    rewrite Hd2. by repeat split.
  - intros Hfrozen.
    assert (exists now, forall k, clock w k = now) as [now Hnow]
      by (exists (clock w 0%nat); intros k; apply Hfrozen).
    destruct (StoreSamples_runs runID (s1 ++ s2) w) as (d & Hr & _ & _ & _ & _ & _ & Hd).
    rewrite Hr2, Hr1, Hr, insert_insert_eq. f_equal.
    rewrite Hd2. unfold reading. rewrite Hc1.
    destruct (runs w !! runID) as [d0|] eqn:Hd0;
      destruct Hd1 as [-> _], Hd as [-> _]; unfold reading; cbn;
      rewrite ?Hnow, <- ?app_assoc; done.
Qed.

(** X3 (first batch of a run).  [StoreSamples] for a run that is not
    stored creates it: the document carries the run id twice, the given
    samples, no process metadata and is not finished; its start,
    creation and update times are three successive clock readings, so
    they are ordered when the clock does not go back.  No error is
    returned and no other run changes. *)
Theorem StoreSamples_creates_run runID samples w :
  runs w !! runID = None ->
  (forall i j, (i <= j)%nat -> clock w i <= clock w j) ->
  let w1 := snd (storage.StoreSamples runID samples w) in
  fst (storage.StoreSamples runID samples w) = None
  /\ (exists d,
        runs w1 !! runID = Some d
        /\ RunDoc.ID d = runID /\ RunDoc.RunID d = runID
        /\ RunDoc.Samples d = samples
        /\ RunDoc.ProcessInfo d = ∅
        /\ RunDoc.Finished d = false /\ handlers.IsZero (RunDoc.FinishedAt d) = true
        /\ RunDoc.StartTime d = reading w
        /\ RunDoc.CreatedAt d = reading (tick w)
        /\ RunDoc.UpdatedAt d = reading (tick (tick w))
        /\ RunDoc.StartTime d <= RunDoc.CreatedAt d <= RunDoc.UpdatedAt d
        /\ RunDoc.UpdatedAtTimestamp d = storage.ToMillis (RunDoc.UpdatedAt d))
  /\ (forall other, other <> runID -> runs w1 !! other = runs w !! other)
  /\ reading w1 = reading (tick (tick (tick w))).
Proof.
  intros Hnew Hmono w1. subst w1. rewrite (StoreSamples_new _ _ _ Hnew). cbn.
  split; [done|]. split; [|split].
  - eexists. rewrite lookup_insert_eq. split; [done|]. cbn.
    repeat (split; [done|]). split; [|done].
    split; apply Hmono; lia.
  - intros other Hne. by rewrite lookup_insert_ne.
  - done.
Qed.

(** X4 (finishing touches one run).  [MarkRunAsFinished] for a run that
    is not stored returns the not-found error and changes no document.
    For a stored run it returns no error, and the run keeps its
    identity, start and creation time, samples and process metadata.
    Either way every other run is as it was. *)
Theorem MarkRunAsFinished_frame runID w :
  let r := storage.MarkRunAsFinished runID w in
  (runs w !! runID = None ->
     fst r = Some (ErrNotFound runID) /\ runs (snd r) = runs w
     /\ reading (snd r) = reading w)
  /\ (forall d, runs w !! runID = Some d ->
        fst r = None
        /\ exists d', runs (snd r) !! runID = Some d'
             /\ RunDoc.ID d' = RunDoc.ID d /\ RunDoc.RunID d' = RunDoc.RunID d
             /\ RunDoc.StartTime d' = RunDoc.StartTime d
             /\ RunDoc.CreatedAt d' = RunDoc.CreatedAt d
             /\ RunDoc.Samples d' = RunDoc.Samples d
             /\ RunDoc.ProcessInfo d' = RunDoc.ProcessInfo d
             /\ RunDoc.Finished d' = true
             /\ (RunDoc.Finished d = true -> d' = d))
  /\ (forall other, other <> runID -> runs (snd r) !! other = runs w !! other).
Proof.
  intros r. subst r. split; [|split].
  - intros Hnone. by rewrite (MarkRunAsFinished_missing _ _ Hnone).
  - intros d Hd. destruct (RunDoc.Finished d) eqn:Hf.
    + rewrite (MarkRunAsFinished_finished _ _ _ Hd Hf). split; [done|].
      exists d. by repeat split.
    + rewrite (MarkRunAsFinished_unfinished _ _ _ Hd Hf). split; [done|].
      eexists. cbn. rewrite lookup_insert_eq. by repeat split.
  - intros other Hne. destruct (runs w !! runID) as [d|] eqn:Hd.
    + destruct (RunDoc.Finished d) eqn:Hf.
      * by rewrite (MarkRunAsFinished_finished _ _ _ Hd Hf).
      * rewrite (MarkRunAsFinished_unfinished _ _ _ Hd Hf). cbn.
        by rewrite lookup_insert_ne.
    + by rewrite (MarkRunAsFinished_missing _ _ Hd).
Qed.

(** ** Deleting old runs *)

Lemma deleteLoop_spec docs : forall acc w,
  fst (storage.deleteLoop docs acc w) = acc ++ docs.*1
  /\ ops (snd (storage.deleteLoop docs acc w)) = ops w
  /\ clock (snd (storage.deleteLoop docs acc w)) = clock w
  /\ ticks (snd (storage.deleteLoop docs acc w)) = ticks w
  /\ forall id,
       runs (snd (storage.deleteLoop docs acc w)) !! id =
       if bool_decide (id ∈ docs.*1) then None else runs w !! id.
Proof.
  induction docs as [|[i d] rest IH]; intros acc w.
  - cbn. rewrite app_nil_r. by repeat split.
  - change (storage.deleteLoop ((i, d) :: rest) acc w)
      with (storage.deleteLoop rest (acc ++ [i])
              (mkWorld (delete i (runs w)) (ops w) (clock w) (ticks w))).
    destruct (IH (acc ++ [i])
                (mkWorld (delete i (runs w)) (ops w) (clock w) (ticks w)))
      as (H1 & H2 & H3 & H4 & H5).
    cbn [runs ops clock ticks] in *.
    rewrite H1, H2, H3, H4. rewrite <- app_assoc. repeat split.
    intros id. rewrite H5. cbn [fmap list_fmap fst].
    destruct (decide (id = i)) as [->|Hne].
    + rewrite lookup_delete_eq.
      rewrite (bool_decide_eq_true_2 (i ∈ i :: rest.*1)) by apply list_elem_of_here.
      by case_bool_decide.
    + rewrite lookup_delete_ne by done.
      destruct (decide (id ∈ rest.*1)) as [Hin|Hnin].
      * rewrite !bool_decide_eq_true_2; [done| |done].
        by apply list_elem_of_further.
      * rewrite !bool_decide_eq_false_2; [done| |done].
        intros [?|?]%elem_of_cons; done.
Qed.

Lemma DeleteOldRuns_spec retentionPeriod w :
  let cutoff := cutoffFor retentionPeriod (reading w) in
  let r := storage.DeleteOldRuns retentionPeriod w in
  snd (fst r) = None
  /\ NoDup (fst (fst r))
  /\ (forall id, id ∈ fst (fst r) <->
        exists d, runs w !! id = Some d /\ RunDoc.UpdatedAtTimestamp d < cutoff)
  /\ (forall id,
        runs (snd r) !! id =
        match runs w !! id with
        | Some d => if RunDoc.UpdatedAtTimestamp d <? cutoff then None else Some d
        | None => None
        end)
  /\ ops (snd r) = ops w ++ [OpDocuments]
  /\ clock (snd r) = clock w
  /\ ticks (snd r) = S (ticks w).
Proof.
  intros cutoff r. subst r.
  unfold storage.DeleteOldRuns, bind, Now, documentsBefore, ret.
  cbn [runs ops clock ticks]. fold (reading w).
  fold (cutoffFor retentionPeriod (reading w)). fold cutoff.
  set (old := List.filter _ _).
  set (w1 := mkWorld _ _ _ _).
  destruct (deleteLoop_spec old [] w1) as (H1 & H2 & H3 & H4 & H5).
  destruct (storage.deleteLoop old [] w1) as [deleted w2] eqn:Hloop.
  cbn [fst snd] in *. subst deleted.
  assert (forall id, id ∈ old.*1 <->
            exists d, runs w !! id = Some d /\ RunDoc.UpdatedAtTimestamp d < cutoff)
    as Hin.
  { intros id. rewrite list_elem_of_fmap. split.
    - intros [[i d] [-> Hd]]. apply list_elem_of_In, filter_In in Hd as [Hd Hlt].
      apply list_elem_of_In, elem_of_map_to_list in Hd. cbn in *.
      exists d. split; [done|]. by apply Z.ltb_lt.
    - intros (d & Hd & Hlt). exists (id, d). split; [done|].
      apply list_elem_of_In, filter_In. split.
      + by apply list_elem_of_In, elem_of_map_to_list.
      + by apply Z.ltb_lt. }
  split; [done|]. split; [|split; [|split]].
  - assert (sublist old (map_to_list (runs w))) as Hsub.
    { subst old. generalize (map_to_list (runs w)). intros l.
      induction l as [|x l IH]; cbn; [done|].
      case_match; by constructor. }
    cbn [app]. apply (sublist_NoDup _ (map_to_list (runs w)).*1).
    + apply NoDup_fst_map_to_list.
    + by apply fmap_sublist.
  - done.
  - intros id. rewrite H5. subst w1. cbn [runs].
    destruct (runs w !! id) as [d|] eqn:Hd.
    + destruct (RunDoc.UpdatedAtTimestamp d <? cutoff) eqn:Hlt.
      * rewrite bool_decide_eq_true_2; [done|]. apply Hin. exists d.
        split; [done|]. by apply Z.ltb_lt.
      * rewrite bool_decide_eq_false_2; [done|]. intros (d' & Hd' & Hlt')%Hin.
        simplify_eq. apply Z.ltb_ge in Hlt. lia.
    + by case_bool_decide.
  - by rewrite H2, H3, H4.
Qed.

(** X5 (what retention deletes).  [DeleteOldRuns] returns no error and,
    without repetition, exactly the ids of the runs whose millisecond
    update time is below the millisecond value of the clock reading
    minus the retention period, finished or not.  Those runs are gone
    from the collection afterwards and every other run is as it was. *)
Theorem DeleteOldRuns_deletes_exactly retentionPeriod w :
  let cutoff := cutoffFor retentionPeriod (reading w) in
  let r := storage.DeleteOldRuns retentionPeriod w in
  snd (fst r) = None
  /\ NoDup (fst (fst r))
  /\ (forall id, id ∈ fst (fst r) <->
        exists d, runs w !! id = Some d /\ RunDoc.UpdatedAtTimestamp d < cutoff)
  /\ (forall id, id ∈ fst (fst r) -> runs (snd r) !! id = None)
  /\ (forall id, id ∉ fst (fst r) -> runs (snd r) !! id = runs w !! id)
  /\ (forall id d, runs (snd r) !! id = Some d ->
        runs w !! id = Some d /\ cutoff <= RunDoc.UpdatedAtTimestamp d).
Proof.
  intros cutoff r.
  destruct (DeleteOldRuns_spec retentionPeriod w) as (He & Hnd & Hin & Hl & _).
  fold cutoff in Hin, Hl. fold r in He, Hnd, Hin, Hl.
  split; [done|]. split; [done|]. split; [done|]. split; [|split].
  - intros id (d & Hd & Hlt)%Hin. rewrite Hl, Hd.
    apply Z.ltb_lt in Hlt. by rewrite Hlt.
  - intros id Hnin. rewrite Hl. destruct (runs w !! id) as [d|] eqn:Hd; [|done].
    destruct (RunDoc.UpdatedAtTimestamp d <? cutoff) eqn:Hlt; [|done].
    exfalso. apply Hnin, Hin. exists d. split; [done|]. by apply Z.ltb_lt.
  - intros id d. rewrite Hl. destruct (runs w !! id) as [d0|]; [|done].
    destruct (RunDoc.UpdatedAtTimestamp d0 <? cutoff) eqn:Hlt; [done|].
    intros [= ->]. split; [done|]. by apply Z.ltb_ge.
Qed.

(** X6 (retention by update time).  For a run whose millisecond field
    agrees with its update time, and times after the epoch that fit
    [int64]: a run updated at or after the clock reading minus the
    retention period survives [DeleteOldRuns], and a run updated a
    millisecond or more before it is deleted and listed. *)
Theorem retention_by_update_time retentionPeriod w id d :
  runs w !! id = Some d -> Consistent d ->
  0 <= retentionPeriod <= reading w -> reading w <= max_int64 ->
  0 <= RunDoc.UpdatedAt d <= max_int64 ->
  let r := storage.DeleteOldRuns retentionPeriod w in
  (reading w - retentionPeriod <= RunDoc.UpdatedAt d ->
     runs (snd r) !! id = Some d /\ id ∉ fst (fst r))
  /\ (RunDoc.UpdatedAt d + time.Millisecond <= reading w - retentionPeriod ->
        runs (snd r) !! id = None /\ id ∈ fst (fst r)).
Proof.
  intros Hd Hc Hr Hnow Hu r.
  destruct (DeleteOldRuns_spec retentionPeriod w) as (_ & _ & Hin & Hl & _).
  fold r in Hin, Hl. specialize (Hl id). rewrite Hd in Hl.
  unfold max_int64 in *.
  assert (wrap64 (- retentionPeriod) = - retentionPeriod) as Hneg.
  { apply wrap64_id. unfold in_int64, min_int64, max_int64.
    apply andb_true_iff. split; apply Z.leb_le; lia. }
  assert (in_int64 (reading w - retentionPeriod) = true) as Hcut.
  { unfold in_int64, min_int64, max_int64.
    apply andb_true_iff. split; apply Z.leb_le; lia. }
  assert (in_int64 (RunDoc.UpdatedAt d) = true) as Hui.
  { unfold in_int64, min_int64, max_int64.
    apply andb_true_iff. split; apply Z.leb_le; lia. }
  assert (cutoffFor retentionPeriod (reading w)
          = storage.ToMillis (reading w - retentionPeriod)) as Hcf.
  { unfold cutoffFor, time.Add. by rewrite Hneg. }
  rewrite Hcf in Hin, Hl. rewrite Hc in Hl. split.
  - intros Hle. pose proof (ToMillis_mono _ _ Hcut Hui Hle) as Hm.
    apply Z.ltb_ge in Hm. rewrite Hm in Hl. split; [done|].
    intros (d' & Hd' & Hlt)%Hin. simplify_eq. rewrite Hc in Hlt.
    apply Z.ltb_ge in Hm. lia.
  - intros Hle. pose proof (ToMillis_later (RunDoc.UpdatedAt d) _ (proj1 Hu) Hcut Hle) as Hm.
    split.
    + apply Z.ltb_lt in Hm. by rewrite Hm in Hl.
    + apply Hin. exists d. split; [done|]. by rewrite Hc.
Qed.

(** X7 (deleting twice).  While the clock stands still a second
    [DeleteOldRuns] with the same period finds nothing to delete: it
    returns the empty list and leaves the collection as the first call
    left it. *)
Theorem DeleteOldRuns_twice retentionPeriod now w :
  (forall k, clock w k = now) ->
  let r1 := storage.DeleteOldRuns retentionPeriod w in
  let r2 := storage.DeleteOldRuns retentionPeriod (snd r1) in
  fst r2 = ([], None) /\ runs (snd r2) = runs (snd r1).
Proof.
  intros Hnow r1 r2.
  destruct (DeleteOldRuns_spec retentionPeriod w) as (_ & _ & _ & Hl1 & _ & Hc1 & _).
  destruct (DeleteOldRuns_spec retentionPeriod (snd r1)) as (He2 & _ & Hin2 & Hl2 & _).
  fold r1 in Hl1, Hc1. fold r2 in He2, Hin2, Hl2.
  assert (reading (snd r1) = reading w) as Hread
    by (unfold reading; by rewrite Hc1, !Hnow).
  rewrite Hread in Hin2, Hl2.
  assert (forall id d, runs (snd r1) !! id = Some d ->
            (RunDoc.UpdatedAtTimestamp d <? cutoffFor retentionPeriod (reading w)) = false)
    as Hkept.
  { intros id d. rewrite Hl1. destruct (runs w !! id) as [d0|]; [|done].
    destruct (RunDoc.UpdatedAtTimestamp d0 <? _) eqn:Hlt; [done|]. by intros [= <-]. }
  split.
  - destruct r2 as [[ids e] w2]. cbn [fst snd] in *. subst e. f_equal.
    destruct ids as [|id ids]; [done|]. exfalso.
    destruct (proj1 (Hin2 id)) as (d & Hd & Hlt); [apply list_elem_of_here|].
    apply Hkept in Hd. apply Z.ltb_ge in Hd. lia.
  - apply map_eq. intros id. rewrite Hl2.
    destruct (runs (snd r1) !! id) as [d|] eqn:Hd; [|done].
    by rewrite (Hkept _ _ Hd).
Qed.

(** X8 (a run that was just written is neither old nor stale).  While
    the clock stands still at a time that fits [int64], the run
    [StoreSamples] has written survives [DeleteOldRuns] for every
    retention period from zero up, and [FindStaleRuns] does not list it
    for any timeout from zero up. *)
Theorem written_run_is_fresh runID samples period now w :
  (forall k, clock w k = now) ->
  in_int64 now = true -> 0 <= period <= max_int64 ->
  in_int64 (now - period) = true ->
  let w1 := snd (storage.StoreSamples runID samples w) in
  let old := storage.DeleteOldRuns period w1 in
  let stale := storage.FindStaleRuns period w1 in
  (runID ∉ fst (fst old))
  /\ runs (snd old) !! runID = runs w1 !! runID
  /\ is_Some (runs (snd old) !! runID)
  /\ (runID ∉ fst (fst stale)).
Proof.
  intros Hnow Hin Hp Hcut w1 old stale.
  destruct (StoreSamples_runs runID samples w) as (d' & Hr & _ & _ & Hc & _ & Hck & Hd').
  fold w1 in Hr, Hck.
  assert (runs w1 !! runID = Some d') as Hl by (rewrite Hr; apply lookup_insert_eq).
  assert (RunDoc.UpdatedAt d' = now) as Hup.
  { destruct (runs w !! runID); destruct Hd' as [-> _]; unfold reading; cbn;
      by rewrite Hnow. }
  assert (forall k, clock w1 k = now) as Hnow1 by (intros k; by rewrite Hck).
  assert (runID ∉ fst (fst old)) as Hnot.
  { destruct (DeleteOldRuns_spec period w1) as (_ & _ & Hio & _).
    fold old in Hio. intros (d & Hd & Hlt)%Hio.
    rewrite Hl in Hd. injection Hd as <-.
    rewrite Hc, Hup in Hlt. unfold reading in Hlt. rewrite Hnow1 in Hlt.
    unfold cutoffFor, time.Add in Hlt.
    assert (wrap64 (- period) = - period) as Hneg.
    { apply wrap64_id. unfold in_int64, min_int64, max_int64 in *.
      apply andb_true_iff in Hin as [H1 H2], Hcut as [H3 H4].
      apply Z.leb_le in H1, H2, H3, H4.
      apply andb_true_iff. split; apply Z.leb_le; lia. }
    rewrite Hneg in Hlt.
    assert (storage.ToMillis (now + - period) <= storage.ToMillis now); [|lia].
    apply ToMillis_mono; [done|done|lia]. }
  split; [done|].
  destruct (DeleteOldRuns_spec period w1) as (_ & _ & Hio & Hlo & _).
  fold old in Hio, Hlo.
  assert (runs (snd old) !! runID = runs w1 !! runID) as Hsame.
  { rewrite Hlo, Hl. destruct (RunDoc.UpdatedAtTimestamp d' <? _) eqn:Hlt; [|done].
    exfalso. apply Hnot, Hio. exists d'. split; [done|]. by apply Z.ltb_lt. }
  split; [done|]. split; [by rewrite Hsame, Hl|].
  destruct (FindStaleRuns_spec period now now w1) as (_ & _ & _ & _ & Hst & _).
  { intros k. rewrite Hnow1. lia. }
  fold stale in Hst. intros (d & Hd & _ & Hlt)%Hst.
  rewrite Hl in Hd. injection Hd as <-.
  rewrite Hup in Hlt. unfold time.Sub in Hlt. rewrite Z.sub_diag in Hlt.
  change (time.maxDuration <? 0) with false in Hlt.
  change (0 <? time.minDuration) with false in Hlt. cbn in Hlt. lia.
Qed.

(** * The store under the calls of the server *)

Lemma Extends_refl d : Extends d d.
Proof. unfold Extends. by split_and!. Qed.

Lemma Extends_trans d1 d2 d3 : Extends d1 d2 -> Extends d2 d3 -> Extends d1 d3.
Proof.
  intros (A1 & A2 & A3 & A4 & A5 & A6 & A7) (B1 & B2 & B3 & B4 & B5 & B6 & B7).
  unfold Extends. split_and!; try congruence.
  - by etrans.
  - intros Hf. destruct (A7 Hf) as [Hf2 E2]. destruct (B7 Hf2) as [Hf3 E3].
    split; congruence.
Qed.

Lemma Evolves_same w w' : Untouched w w' -> Evolves w w'.
Proof. intros Hu id d Hd. exists d. rewrite Hu. split; [done|apply Extends_refl]. Qed.

Lemma Evolves_trans w1 w2 w3 : Evolves w1 w2 -> Evolves w2 w3 -> Evolves w1 w3.
Proof.
  intros H12 H23 id d Hd. destruct (H12 _ _ Hd) as (d2 & Hd2 & E2).
  destruct (H23 _ _ Hd2) as (d3 & Hd3 & E3). exists d3.
  split; [done|]. by eapply Extends_trans.
Qed.

Lemma KeepsConsistent_same w w' : Untouched w w' -> KeepsConsistent w w'.
Proof. intros Hu Hc id d. rewrite Hu. apply Hc. Qed.

Lemma KeepsConsistent_trans w1 w2 w3 :
  KeepsConsistent w1 w2 -> KeepsConsistent w2 w3 -> KeepsConsistent w1 w3.
Proof. unfold KeepsConsistent. auto. Qed.

(** What one write does to the relations. *)
Lemma Evolves_insert w w' id d' :
  runs w' = <[id := d']> (runs w) ->
  (forall d, runs w !! id = Some d -> Extends d d') ->
  Evolves w w'.
Proof.
  intros Hr He i d Hd. rewrite Hr. destruct (decide (i = id)) as [->|Hne].
  - exists d'. rewrite lookup_insert_eq. split; [done|]. by apply He.
  - exists d. rewrite lookup_insert_ne by done. split; [done|apply Extends_refl].
Qed.

Lemma KeepsConsistent_insert w w' id d' :
  runs w' = <[id := d']> (runs w) ->
  ((forall d, runs w !! id = Some d -> Consistent d) -> Consistent d') ->
  KeepsConsistent w w'.
Proof.
  intros Hr Hc Hw i d. rewrite Hr. destruct (decide (i = id)) as [->|Hne].
  - rewrite lookup_insert_eq. intros [= <-]. apply Hc. intros d0. apply Hw.
  - rewrite lookup_insert_ne by done. apply Hw.
Qed.

Lemma StoreSamples_Evolves runID samples w :
  Evolves w (snd (storage.StoreSamples runID samples w)).
Proof.
  destruct (StoreSamples_runs runID samples w) as (d' & Hr & _ & _ & _ & _ & _ & Hd').
  apply (Evolves_insert _ _ runID d' Hr). intros d Hd. rewrite Hd in Hd'.
  destruct Hd' as [-> _]. repeat split; try done. by apply prefix_app_r.
Qed.

Lemma StoreSamples_KeepsConsistent runID samples w :
  KeepsConsistent w (snd (storage.StoreSamples runID samples w)).
Proof.
  destruct (StoreSamples_runs runID samples w) as (d' & Hr & _ & _ & Hc & _).
  by apply (KeepsConsistent_insert _ _ runID d' Hr).
Qed.

Lemma StoreProcessInfo_runs runID info w :
  match runs w !! runID with
  | Some d =>
      runs (snd (storage.StoreProcessInfo runID info w)) =
      <[runID := RunDoc.withProcessInfo d
                   (<[ProcessInfo.PID info := info]> (RunDoc.ProcessInfo d))]> (runs w)
  | None => runs (snd (storage.StoreProcessInfo runID info w)) = runs w
  end.
Proof.
  destruct (runs w !! runID) as [d|] eqn:Hd.
  - by rewrite (StoreProcessInfo_existing _ _ _ _ Hd).
  - unfold storage.StoreProcessInfo, bind, docGet, ret. cbn. by rewrite Hd.
Qed.

Lemma StoreProcessInfo_Evolves runID info w :
  Evolves w (snd (storage.StoreProcessInfo runID info w)).
Proof.
  pose proof (StoreProcessInfo_runs runID info w) as Hr.
  destruct (runs w !! runID) as [d|] eqn:Hd; [|by apply Evolves_same].
  apply (Evolves_insert _ _ _ _ Hr). intros d0 Hd0. simplify_eq.
  repeat split; done.
Qed.

Lemma StoreProcessInfo_KeepsConsistent runID info w :
  KeepsConsistent w (snd (storage.StoreProcessInfo runID info w)).
Proof.
  pose proof (StoreProcessInfo_runs runID info w) as Hr.
  destruct (runs w !! runID) as [d|] eqn:Hd; [|by apply KeepsConsistent_same].
  apply (KeepsConsistent_insert _ _ _ _ Hr). intros Hc. by apply (Hc d).
Qed.

Lemma MarkRunAsFinished_runs runID w :
  match runs w !! runID with
  | Some d =>
      if RunDoc.Finished d
      then runs (snd (storage.MarkRunAsFinished runID w)) = runs w
      else runs (snd (storage.MarkRunAsFinished runID w)) =
           <[runID := finishedDoc d (reading w)]> (runs w)
  | None => runs (snd (storage.MarkRunAsFinished runID w)) = runs w
  end.
Proof.
  destruct (runs w !! runID) as [d|] eqn:Hd.
  - destruct (RunDoc.Finished d) eqn:Hf.
    + by rewrite (MarkRunAsFinished_finished _ _ _ Hd Hf).
    + by rewrite (MarkRunAsFinished_unfinished _ _ _ Hd Hf).
  - by rewrite (MarkRunAsFinished_missing _ _ Hd).
Qed.

Lemma MarkRunAsFinished_Evolves runID w :
  Evolves w (snd (storage.MarkRunAsFinished runID w)).
Proof.
  pose proof (MarkRunAsFinished_runs runID w) as Hr.
  destruct (runs w !! runID) as [d|] eqn:Hd; [|by apply Evolves_same].
  destruct (RunDoc.Finished d) eqn:Hf; [by apply Evolves_same|].
  apply (Evolves_insert _ _ _ _ Hr). intros d0 Hd0. simplify_eq.
  repeat split; try done; congruence.
Qed.

Lemma MarkRunAsFinished_KeepsConsistent runID w :
  KeepsConsistent w (snd (storage.MarkRunAsFinished runID w)).
Proof.
  pose proof (MarkRunAsFinished_runs runID w) as Hr.
  destruct (runs w !! runID) as [d|] eqn:Hd; [|by apply KeepsConsistent_same].
  destruct (RunDoc.Finished d) eqn:Hf; [by apply KeepsConsistent_same|].
  by apply (KeepsConsistent_insert _ _ _ _ Hr).
Qed.

Lemma DeleteOldRuns_KeepsConsistent period w :
  KeepsConsistent w (snd (storage.DeleteOldRuns period w)).
Proof.
  destruct (DeleteOldRuns_spec period w) as (_ & _ & _ & Hl & _).
  intros Hc id d. rewrite Hl. destruct (runs w !! id) as [d0|] eqn:Hd0; [|done].
  case_match; [done|]. intros [= <-]. by apply (Hc id).
Qed.

Section Footprint.

Variable R : World -> World -> Prop.
Hypothesis R_same : forall w w', Untouched w w' -> R w w'.
Hypothesis R_trans : forall w1 w2 w3, R w1 w2 -> R w2 w3 -> R w1 w3.
Hypothesis R_StoreSamples :
  forall runID samples, keeps R (storage.StoreSamples runID samples).
Hypothesis R_StoreProcessInfo :
  forall runID info, keeps R (storage.StoreProcessInfo runID info).
Hypothesis R_MarkRunAsFinished :
  forall runID, keeps R (storage.MarkRunAsFinished runID).
Hypothesis R_DeleteOldRuns : forall period, keeps R (storage.DeleteOldRuns period).

Lemma keeps_ret {A} (a : A) : keeps R (ret a).
Proof. intros w. by apply R_same. Qed.

Lemma keeps_bind {A B} (m : M A) (k : A -> M B) :
  keeps R m -> (forall a, keeps R (k a)) -> keeps R (bind m k).
Proof.
  intros Hm Hk w. unfold bind. specialize (Hm w).
  destruct (m w) as [a w1]. by eapply R_trans, Hk.
Qed.

Lemma keeps_Now : keeps R Now.
Proof. intros w. by apply R_same. Qed.

Lemma keeps_GetRun runID : keeps R (storage.GetRun runID).
Proof. intros w. apply R_same. by rewrite GetRun_snd. Qed.

Lemma keeps_ValidateToken E token runID : keeps R (auth.ValidateToken E token runID).
Proof. intros w. apply R_same. apply ValidateToken_store. Qed.

Lemma keeps_GenerateToken E runID : keeps R (auth.GenerateToken E runID).
Proof.
  intros w. apply R_same. unfold auth.GenerateToken, bind, Now, ret. cbn.
  by case_match.
Qed.

Lemma keeps_staleLoop timeout docs : forall acc, keeps R (storage.staleLoop timeout docs acc).
Proof.
  induction docs as [|[id d] rest IH]; intros acc; cbn [storage.staleLoop].
  - apply keeps_ret.
  - case_match; [apply IH|]. apply keeps_bind; [apply keeps_Now|].
    intros now. case_match; apply IH.
Qed.

Lemma keeps_FindStaleRuns timeout : keeps R (storage.FindStaleRuns timeout).
Proof.
  unfold storage.FindStaleRuns. apply keeps_bind.
  - intros w. by apply R_same.
  - intros docs. apply keeps_bind; [apply keeps_staleLoop|]. intros ?. apply keeps_ret.
Qed.

Lemma keeps_markStale ids : keeps R (cleanup.markStale ids).
Proof.
  induction ids as [|id rest IH]; cbn [cleanup.markStale]; [apply keeps_ret|].
  apply keeps_bind; [apply R_MarkRunAsFinished|]. intros _. apply IH.
Qed.

Lemma keeps_markCleaned ids : forall acc, keeps R (cleanup.markCleaned ids acc).
Proof.
  induction ids as [|id rest IH]; intros acc; cbn [cleanup.markCleaned];
    [apply keeps_ret|].
  apply keeps_bind; [apply R_MarkRunAsFinished|]. intros [e|]; apply IH.
Qed.

Ltac footprint :=
  repeat first
    [ apply keeps_ret | apply keeps_Now | apply keeps_GetRun
    | apply keeps_ValidateToken | apply keeps_GenerateToken
    | apply keeps_FindStaleRuns | apply keeps_markStale | apply keeps_markCleaned
    | apply R_StoreSamples | apply R_StoreProcessInfo | apply R_MarkRunAsFinished
    | apply keeps_bind; [|intros ?]
    | case_match ].

Lemma keeps_ingestAuthorized req : keeps R (handlers.ingestAuthorized req).
Proof. unfold handlers.ingestAuthorized. footprint. Qed.

Lemma keeps_Ingest E r : keeps R (handlers.Ingest E r).
Proof.
  unfold handlers.Ingest. footprint. apply keeps_ingestAuthorized.
Qed.

Lemma keeps_Auth E r : keeps R (handlers.Auth E r).
Proof. unfold handlers.Auth. footprint. Qed.

Lemma keeps_GetRun_handler r : keeps R (handlers.GetRun r).
Proof. unfold handlers.GetRun. footprint. Qed.

Lemma keeps_FinishRun E r : keeps R (handlers.FinishRun E r).
Proof. unfold handlers.FinishRun. footprint. Qed.

Lemma keeps_staleRunCleanupTick : keeps R cleanup.staleRunCleanupTick.
Proof. unfold cleanup.staleRunCleanupTick. footprint. Qed.

Lemma keeps_HandleManualStaleCleanup adminSecret r :
  keeps R (cleanup.HandleManualStaleCleanup adminSecret r).
Proof. unfold cleanup.HandleManualStaleCleanup. footprint. Qed.

Lemma keeps_HandleManualDataRetentionCleanup adminSecret r :
  keeps R (cleanup.HandleManualDataRetentionCleanup adminSecret r).
Proof.
  unfold cleanup.HandleManualDataRetentionCleanup.
  repeat (case_match; [apply keeps_ret|]).
  apply keeps_bind; [apply R_DeleteOldRuns|]. intros ?. footprint.
Qed.

Lemma keeps_dataRetentionCleanupTick : keeps R cleanup.dataRetentionCleanupTick.
Proof.
  unfold cleanup.dataRetentionCleanupTick.
  apply keeps_bind; [apply R_DeleteOldRuns|]. intros ?. footprint.
Qed.

(** The calls that do not delete, the calls that do not ingest, and
    all calls. *)
Lemma keeps_serve E adminSecret c w :
  retention c = false -> R w (serve E adminSecret c w).
Proof.
  destruct c; try done; intros _; cbn [serve].
  - apply keeps_Auth.
  - apply keeps_Ingest.
  - apply keeps_GetRun_handler.
  - apply keeps_FinishRun.
  - apply keeps_HandleManualStaleCleanup.
  - apply keeps_staleRunCleanupTick.
Qed.

Lemma keeps_serve_others E adminSecret c w :
  ingests c = false -> R w (serve E adminSecret c w).
Proof.
  destruct c; try done; intros _; cbn [serve].
  - apply keeps_Auth.
  - apply keeps_GetRun_handler.
  - apply keeps_FinishRun.
  - apply keeps_HandleManualStaleCleanup.
  - apply keeps_HandleManualDataRetentionCleanup.
  - apply keeps_staleRunCleanupTick.
  - apply keeps_dataRetentionCleanupTick.
Qed.

Lemma keeps_serve_all E adminSecret c w : R w (serve E adminSecret c w).
Proof.
  destruct c; cbn [serve].
  - apply keeps_Auth.
  - apply keeps_Ingest.
  - apply keeps_GetRun_handler.
  - apply keeps_FinishRun.
  - apply keeps_HandleManualStaleCleanup.
  - apply keeps_HandleManualDataRetentionCleanup.
  - apply keeps_staleRunCleanupTick.
  - apply keeps_dataRetentionCleanupTick.
Qed.

End Footprint.

(** X9 (the millisecond field).  When every document of the collection
    has a millisecond field that agrees with its update time, so has
    every document after the server has answered any calls, one after
    the other: requests on every route, with any method, headers and
    body, and ticks of both background routines. *)
Theorem service_keeps_timestamps E adminSecret calls w :
  StoreConsistent w ->
  forall id d,
    runs (serveAll E adminSecret calls w) !! id = Some d ->
    RunDoc.UpdatedAtTimestamp d = storage.ToMillis (RunDoc.UpdatedAt d).
Proof.
  revert w. induction calls as [|c calls IH]; intros w Hw id d; cbn.
  - apply Hw.
  - apply IH.
    apply (keeps_serve_all KeepsConsistent KeepsConsistent_same
             KeepsConsistent_trans); [..|done].
    + intros ???. apply StoreSamples_KeepsConsistent.
    + intros ???. apply StoreProcessInfo_KeepsConsistent.
    + intros ??. apply MarkRunAsFinished_KeepsConsistent.
    + intros ??. apply DeleteOldRuns_KeepsConsistent.
Qed.

(** X10 (runs are only extended).  As long as no call reaches the
    deletion of old runs, a run of the collection stays in it whatever
    calls the server answers, with its id, start time, end time and
    creation time unchanged and the samples it had at the front of its
    samples; a finished run stays finished, finished at the same time. *)
Theorem service_extends_runs E adminSecret calls w id d :
  forallb (fun c => negb (retention c)) calls = true ->
  runs w !! id = Some d ->
  exists d',
    runs (serveAll E adminSecret calls w) !! id = Some d' /\ Extends d d'.
Proof.
  revert w d. induction calls as [|c calls IH]; intros w d Hcs Hd; cbn.
  - exists d. split; [done|apply Extends_refl].
  - cbn in Hcs. apply andb_true_iff in Hcs as [Hc Hcs]. apply negb_true_iff in Hc.
    assert (Evolves w (serve E adminSecret c w)) as Hstep.
    { apply (keeps_serve Evolves Evolves_same Evolves_trans); [..|done].
      - intros ???. apply StoreSamples_Evolves.
      - intros ???. apply StoreProcessInfo_Evolves.
      - intros ??. apply MarkRunAsFinished_Evolves. }
    destruct (Hstep _ _ Hd) as (d1 & Hd1 & E1).
    destruct (IH _ _ Hcs Hd1) as (d2 & Hd2 & E2).
    exists d2. split; [done|]. by eapply Extends_trans.
Qed.

Lemma NoNewRuns_trans w1 w2 w3 : NoNewRuns w1 w2 -> NoNewRuns w2 w3 -> NoNewRuns w1 w3.
Proof. unfold NoNewRuns. auto. Qed.

(** X11 (only ingestion creates runs).  A run id that is not in the
    collection is still not in it after any calls other than ingest
    requests: finishing, querying, asking for a token and both cleanups
    never create a document. *)
Theorem only_ingest_creates_runs E adminSecret calls w id :
  forallb (fun c => negb (ingests c)) calls = true ->
  runs w !! id = None ->
  runs (serveAll E adminSecret calls w) !! id = None.
Proof.
  revert w. induction calls as [|c calls IH]; intros w Hcs Hnone; cbn; [done|].
  cbn in Hcs. apply andb_true_iff in Hcs as [Hc Hcs]. apply negb_true_iff in Hc.
  apply IH; [done|].
  assert (NoNewRuns w (serve E adminSecret c w)) as Hstep; [|by apply Hstep].
  apply (keeps_serve_others NoNewRuns); [..|done].
  - intros w1 w2 Hu i. unfold Untouched in Hu. by rewrite Hu.
  - apply NoNewRuns_trans.
  - intros runID w1 i Hi. pose proof (MarkRunAsFinished_runs runID w1) as Hr.
    destruct (runs w1 !! runID) as [d|] eqn:Hd; [|by rewrite Hr].
    destruct (RunDoc.Finished d); [by rewrite Hr|].
    rewrite Hr, lookup_insert_ne; [done|]. by intros ->; rewrite Hd in Hi.
  - intros period w1 i Hi.
    destruct (DeleteOldRuns_spec period w1) as (_ & _ & _ & Hl & _).
    by rewrite Hl, Hi.
Qed.

(** * The handlers *)

Lemma TrimPrefix_app p s : strings.TrimPrefix (p +:+ s) p = s.
Proof.
  unfold strings.TrimPrefix, strings.HasPrefix.
  assert (String.prefix p (p +:+ s) = true) as ->.
  { induction p as [|c p IH]; [by destruct s|]. simpl.
    destruct (ascii_dec c c); [done|congruence]. }
  induction p as [|c p IH]; simpl.
  - rewrite Nat.sub_0_r. apply substring_all.
  - apply IH.
Qed.

Lemma base64_chars (P : ascii -> bool) :
  forallb (fun n => P (base64.encChar n)) (map Z.of_nat (seq 0 64)) = true ->
  P base64.padChar = true ->
  forall s, allChars P (base64.EncodeToString s) = true.
Proof.
  intros Henc Hpad.
  pose proof (sextet_cases (fun n => P (base64.encChar n)) Henc) as Hn.
  cbn beta in Hn.
  induction s as [|a|a b|a b c r IH] using string_by_triples; [done|..];
    cbn [base64.EncodeToString allChars];
    pose proof (code_range a); try pose proof (code_range b);
    try pose proof (code_range c);
    rewrite ?Hn, ?Hpad, ?IH; try done; sextet_range.
Qed.

Lemma hex_chars (P : ascii -> bool) :
  forallb (fun n => P (hex.digit n)) (map Z.of_nat (seq 0 16)) = true ->
  forall s, allChars P (hex.EncodeToString s) = true.
Proof.
  intros Hd.
  assert (forall n, 0 <= n < 16 -> P (hex.digit n) = true) as Hn.
  { intros n Hr. rewrite forallb_forall in Hd. apply Hd.
    apply in_map_iff. exists (Z.to_nat n). split; [lia|]. apply in_seq. lia. }
  induction s as [|c s IH]; [done|]. cbn [hex.EncodeToString allChars].
  pose proof (code_range c).
  rewrite !Hn, IH; try done; sextet_range.
Qed.

Lemma tokenChar_no_space c : tokenChar c = true -> isNot " " c = true.
Proof. destruct c as [[] [] [] [] [] [] [] []]; by vm_compute. Qed.

Lemma token_chars payload signature :
  allChars tokenChar
    (base64.EncodeToString payload +:+ "." +:+ hex.EncodeToString signature) = true.
Proof.
  rewrite !allChars_app, base64_chars, hex_chars; by vm_compute.
Qed.

Lemma Split_bearer token :
  allChars tokenChar token = true ->
  strings.Split ("Bearer " +:+ token) " " = ["Bearer"; token].
Proof.
  intros Hc. change ("Bearer " +:+ token) with ("Bearer" +:+ String " " token).
  rewrite Split_app by by vm_compute.
  rewrite Split_nosep; [done|].
  eapply allChars_impl; [apply tokenChar_no_space|done].
Qed.

(** X12 (the shape of a token).  A token [GenerateToken] returns is made
    of letters, digits and the characters "-", "_", "=" and "." only, so
    the header "Bearer <token>" splits at its one blank into the scheme
    and the token; and it decodes into the payload the codec wrote and
    the MAC of that payload, whatever the codec and the MAC are. *)
Theorem issued_token_shape E runID w tok exp :
  fst (auth.GenerateToken E runID w) = (tok, exp, None) ->
  allChars tokenChar tok = true
  /\ strings.Split ("Bearer " +:+ tok) " " = ["Bearer"; tok]
  /\ exists payload,
       auth.jsonMarshal E (TokenData.mk runID exp (reading (tick w))) = Some payload
       /\ tokenHalves tok = Some (payload, auth.hmac E (auth.secretKey E) payload).
Proof.
  intros Hgen.
  destruct (GenerateToken_ok _ _ _ _ _ Hgen) as (payload & _ & Hm & ->).
  pose proof (token_chars payload (auth.hmac E (auth.secretKey E) payload)) as Hc.
  split; [done|]. split; [by apply Split_bearer|].
  exists payload. split; [done|].
  unfold tokenHalves. by rewrite Split_token, base64_round_trip, hex_round_trip.
Qed.

Lemma Auth_path E r runID w :
  http.Path r = "/auth/run/" +:+ runID -> runID <> "" ->
  handlers.Auth E r w =
  (match snd (fst (auth.GenerateToken E runID w)) with
   | Some _ => http.Error "Failed to generate token" http.StatusInternalServerError
   | None =>
       http.OK (TokenResponse.mk (fst (fst (fst (auth.GenerateToken E runID w))))
                  (snd (fst (fst (auth.GenerateToken E runID w)))))
   end, snd (auth.GenerateToken E runID w)).
Proof.
  intros Hp Hid. unfold handlers.Auth. rewrite Hp, TrimPrefix_app.
  apply String.eqb_neq in Hid. rewrite Hid. unfold bind.
  destruct (auth.GenerateToken E runID w) as [[[tok exp] [e|]] w1]; done.
Qed.

Lemma GenerateToken_store E runID w :
  runs (snd (auth.GenerateToken E runID w)) = runs w
  /\ ops (snd (auth.GenerateToken E runID w)) = ops w
  /\ clock (snd (auth.GenerateToken E runID w)) = clock w.
Proof. unfold auth.GenerateToken, bind, Now, ret. cbn. by case_match. Qed.

(** X13 (the token route).  [Handlers.Auth] never calls the store.  A
    path that names no run is answered 400 without a reading of the
    clock.  For the path of a run id the answer is, whatever the method
    of the request, the token and expiry [GenerateToken] returns for
    that id, the expiry being two hours after the clock reading, or 500
    when the payload cannot be serialised. *)
Theorem Auth_route E r w :
  let out := handlers.Auth E r w in
  runs (snd out) = runs w /\ ops (snd out) = ops w
  /\ (strings.TrimPrefix (http.Path r) "/auth/run/" = "" ->
        out = (http.Error "run_id is required" 400, w))
  /\ (forall runID, http.Path r = "/auth/run/" +:+ runID -> runID <> "" ->
        match auth.jsonMarshal E
                (TokenData.mk runID (time.Add (reading w) (2 * time.Hour))
                   (reading (tick w))) with
        | None => http.StatusCode (fst out) = 500
        | Some payload =>
            exists tok,
              fst out = http.OK (TokenResponse.mk tok
                                   (time.Add (reading w) (2 * time.Hour)))
              /\ fst (auth.GenerateToken E runID w)
                 = (tok, time.Add (reading w) (2 * time.Hour), None)
        end).
Proof.
  intros out. subst out. split; [|split; [|split]].
  - unfold handlers.Auth. case_match; [done|]. unfold bind.
    pose proof (GenerateToken_store E (strings.TrimPrefix (http.Path r) "/auth/run/") w)
      as (Hr & _).
    destruct (auth.GenerateToken E _ w) as [[[tok exp] [e|]] w1]; done.
  - unfold handlers.Auth. case_match; [done|]. unfold bind.
    pose proof (GenerateToken_store E (strings.TrimPrefix (http.Path r) "/auth/run/") w)
      as (_ & Ho & _).
    destruct (auth.GenerateToken E _ w) as [[[tok exp] [e|]] w1]; done.
  - intros Hempty. unfold handlers.Auth. by rewrite Hempty.
  - intros runID Hp Hid. rewrite (Auth_path E r runID w Hp Hid).
    unfold auth.GenerateToken, bind, Now, ret, reading, tick. cbn.
    destruct (auth.jsonMarshal E _) as [payload|]; cbn; [|done].
    by eexists.
Qed.

(** Past the validation of the token the finish handler marks the run
    in the world the validation leaves. *)
Lemma FinishRun_authorized E r token w :
  http.Method r = "POST" ->
  strings.TrimPrefix (http.Path r) "/finish/" <> "" ->
  strings.Split (http.Header r "Authorization") " " = ["Bearer"; token] ->
  fst (auth.ValidateToken E token (strings.TrimPrefix (http.Path r) "/finish/") w)
    = (true, None) ->
  let runID := strings.TrimPrefix (http.Path r) "/finish/" in
  let marked :=
    storage.MarkRunAsFinished runID (snd (auth.ValidateToken E token runID w)) in
  handlers.FinishRun E r w =
  (match fst marked with
   | Some _ => http.Error "Internal server error" http.StatusInternalServerError
   | None => http.OK ("Run " +:+ runID +:+ " marked as finished")
   end, snd marked).
Proof.
  intros Hm Hid Hsplit Hv runID marked. subst marked runID.
  unfold handlers.FinishRun. rewrite Hm, Hsplit.
  change (String.eqb "POST" http.MethodOptions) with false.
  change (String.eqb "POST" http.MethodPost) with true. cbn [negb].
  apply String.eqb_neq in Hid. rewrite Hid.
  destruct (String.eqb (http.Header r "Authorization") "") eqn:Hempty.
  { apply String.eqb_eq in Hempty. by rewrite Hempty in Hsplit. }
  cbn [length Nat.eqb negb nth orb]. change (String.eqb "Bearer" "Bearer") with true.
  cbn [negb]. unfold bind at 1.
  destruct (auth.ValidateToken E token _ w) as [[valid err] w1].
  cbn [fst snd] in *. injection Hv as -> ->. cbn [negb]. unfold bind.
  destruct (storage.MarkRunAsFinished _ w1) as [[e|] w2]; done.
Qed.

(** X14 (authentication before finishing).  A request to finish a run
    whose Authorization header is missing, is not of the form
    "Bearer <token>", or carries a token that does not validate against
    the run id of the path, leaves the handler without a call to the
    store; when it is a POST that names a run it is answered 401. *)
Theorem FinishRun_auth_before_storage E r w :
  FinishAuthFails E r w ->
  runs (snd (handlers.FinishRun E r w)) = runs w
  /\ ops (snd (handlers.FinishRun E r w)) = ops w
  /\ (http.Method r = "POST" ->
      strings.TrimPrefix (http.Path r) "/finish/" <> "" ->
      http.StatusCode (fst (handlers.FinishRun E r w)) = 401).
Proof.
  intros Hfail. unfold handlers.FinishRun.
  destruct (String.eqb (http.Method r) http.MethodOptions) eqn:Hopt.
  { split; [done|]. split; [done|]. intros Hm. by rewrite Hm in Hopt. }
  destruct (String.eqb (http.Method r) http.MethodPost) eqn:Hpost; cbn [negb].
  2: { split; [done|]. split; [done|]. intros Hm. by rewrite Hm in Hpost. }
  destruct (String.eqb (strings.TrimPrefix (http.Path r) "/finish/") "") eqn:Hid.
  { apply String.eqb_eq in Hid. split; [done|]. split; [done|]. by intros _ Hne. }
  assert (Hgoal :
    forall out : http.Response string * World,
      http.StatusCode (fst out) = http.StatusUnauthorized ->
      runs (snd out) = runs w -> ops (snd out) = ops w ->
      runs (snd out) = runs w /\ ops (snd out) = ops w
      /\ (http.Method r = "POST" ->
          strings.TrimPrefix (http.Path r) "/finish/" <> "" ->
          http.StatusCode (fst out) = 401)) by (by intros out ? ? ?).
  destruct (String.eqb (http.Header r "Authorization") "") eqn:Hempty;
    [by apply Hgoal|].
  apply String.eqb_neq in Hempty.
  destruct (negb (length (strings.Split (http.Header r "Authorization") " ") =? 2)%nat
            || negb (String.eqb
                       (nth 0 (strings.Split (http.Header r "Authorization") " ") "")
                       "Bearer"))
    eqn:Hform; [by apply Hgoal|].
  apply orb_false_iff in Hform as [Hlen Hbearer].
  apply negb_false_iff in Hlen, Hbearer.
  apply Nat.eqb_eq in Hlen. apply String.eqb_eq in Hbearer.
  destruct (strings.Split (http.Header r "Authorization") " ")
    as [|b [|token [|? ?]]] eqn:Hsplit; try done.
  cbn [nth] in *. subst b.
  unfold bind.
  pose proof (ValidateToken_store E token
                (strings.TrimPrefix (http.Path r) "/finish/") w) as (Hr & Ho & _).
  destruct (auth.ValidateToken E token _ w) as [[valid err] w1] eqn:Hv.
  cbn [fst snd] in *.
  destruct err as [e|]; [by apply Hgoal|].
  destruct valid; [|by apply Hgoal]. exfalso.
  destruct Hfail as [?|[Hno|(token' & Heq & Hbad)]]; [done|by eapply Hno|].
  rewrite Hsplit in Heq. injection Heq as <-. by rewrite Hv in Hbad.
Qed.

Lemma FinishRun_bearer E target token w :
  target <> "" -> allChars tokenChar token = true ->
  handlers.FinishRun E (finishRequest target token) w =
  (let '(valid, err, w1) := auth.ValidateToken E token target w in
   match err with
   | Some _ => (http.Error "Token validation failed" http.StatusUnauthorized, w1)
   | None =>
       if negb valid then (http.Error "Invalid token" http.StatusUnauthorized, w1)
       else
         (match fst (storage.MarkRunAsFinished target w1) with
          | Some _ => http.Error "Internal server error" http.StatusInternalServerError
          | None => http.OK ("Run " +:+ target +:+ " marked as finished")
          end, snd (storage.MarkRunAsFinished target w1))
   end).
Proof.
  intros Hid Hc. unfold handlers.FinishRun, finishRequest.
  cbn [http.Method http.Path http.Header].
  change (String.eqb "POST" http.MethodOptions) with false.
  change (String.eqb "POST" http.MethodPost) with true. cbn [negb].
  rewrite TrimPrefix_app. apply String.eqb_neq in Hid. rewrite Hid.
  unfold authorizationOnly. change (String.eqb "Authorization" "Authorization") with true.
  cbn iota. change (String.eqb ("Bearer " +:+ token) "") with false. cbn iota.
  rewrite (Split_bearer _ Hc).
  cbn [length Nat.eqb negb nth orb]. change (String.eqb "Bearer" "Bearer") with true.
  cbn [negb]. unfold bind at 1.
  destruct (auth.ValidateToken E token target w) as [[valid [e|]] w1]; [done|].
  destruct valid; cbn [negb]; [|done]. unfold bind.
  destruct (storage.MarkRunAsFinished target w1) as [[e|] w2]; done.
Qed.

(** X15 (a token finishes its own run).  The token the token route
    answers for a run id, sent as a bearer token up to its expiry,
    finishes that run: the answer is 200 and the run is finished, every
    other run being as it was.  When the run is not stored the answer
    is 500 and nothing is written.  Sent for any other run the token is
    refused with 401 and the store is not called.  The JSON codec is
    assumed to give back the payload it serialised. *)
Theorem issued_token_finishes_its_run E method headers runID tok exp w w' :
  RoundTrip E (TokenData.mk runID exp (reading (tick w))) ->
  runID <> "" ->
  fst (handlers.Auth E (http.mkRequest method ("/auth/run/" +:+ runID) headers) w)
    = http.OK (TokenResponse.mk tok exp) ->
  reading w' <= exp ->
  let out := handlers.FinishRun E (finishRequest runID tok) w' in
  (forall d, runs w' !! runID = Some d ->
     fst out = http.OK ("Run " +:+ runID +:+ " marked as finished")
     /\ (exists d', runs (snd out) !! runID = Some d' /\ RunDoc.Finished d' = true
                    /\ RunDoc.Samples d' = RunDoc.Samples d)
     /\ forall other, other <> runID -> runs (snd out) !! other = runs w' !! other)
  /\ (runs w' !! runID = None ->
        http.StatusCode (fst out) = 500 /\ runs (snd out) = runs w')
  /\ (forall target, target <> "" -> target <> runID ->
        let refused := handlers.FinishRun E (finishRequest target tok) w' in
        http.StatusCode (fst refused) = 401
        /\ runs (snd refused) = runs w' /\ ops (snd refused) = ops w').
Proof.
  intros HE Hid Hauth Hnow out. subst out.
  rewrite (Auth_path E (http.mkRequest method ("/auth/run/" +:+ runID) headers)
             runID w eq_refl Hid) in Hauth.
  cbn [fst] in Hauth.
  destruct (auth.GenerateToken E runID w) as [[[tok' exp'] err] w1] eqn:Hgen.
  cbn [fst snd] in Hauth. destruct err as [e|]; [done|]. injection Hauth as -> ->.
  assert (fst (auth.GenerateToken E runID w) = (tok, exp, None)) as Hok
    by (by rewrite Hgen).
  destruct (GenerateToken_ok _ _ _ _ _ Hok) as (payload & _ & Hm & ->).
  pose proof (token_chars payload (auth.hmac E (auth.secretKey E) payload)) as Hc.
  assert (time.After (reading w') exp = false) as Hafter
    by (unfold time.After; apply Z.ltb_ge; lia).
  split; [|split].
  - intros d Hd. rewrite (FinishRun_bearer E runID _ w' Hid Hc).
    rewrite (ValidateToken_signed E payload _ runID w' (HE _ Hm)).
    cbn [TokenData.ExpiresAt TokenData.RunID]. rewrite Hafter, String.eqb_refl.
    cbn [negb].
    destruct (RunDoc.Finished d) eqn:Hf.
    + rewrite (MarkRunAsFinished_finished runID d (tick w') Hd Hf). cbn.
      split; [done|]. split; [by exists d|done].
    + rewrite (MarkRunAsFinished_unfinished runID d (tick w') Hd Hf). cbn.
      split; [done|]. split.
      * eexists. rewrite lookup_insert_eq. by split.
      * intros other Hne. by rewrite lookup_insert_ne.
  - intros Hnone. rewrite (FinishRun_bearer E runID _ w' Hid Hc).
    rewrite (ValidateToken_signed E payload _ runID w' (HE _ Hm)).
    cbn [TokenData.ExpiresAt TokenData.RunID]. rewrite Hafter, String.eqb_refl.
    cbn [negb].
    by rewrite (MarkRunAsFinished_missing runID (tick w') Hnone).
  - intros target Ht Hne refused. subst refused.
    rewrite (FinishRun_bearer E target _ w' Ht Hc).
    rewrite (ValidateToken_signed E payload _ target w' (HE _ Hm)).
    cbn [TokenData.ExpiresAt TokenData.RunID]. rewrite Hafter.
    assert (String.eqb runID target = false) as -> by (apply String.eqb_neq; congruence).
    done.
Qed.

Lemma GetRun_handler_path r runID w :
  http.Method r = "GET" -> http.Path r = "/runs/" +:+ runID -> runID <> "" ->
  handlers.GetRun r w =
  (match runs w !! runID with
   | Some d => http.OK (reportOf d)
   | None => http.Error "Internal server error" http.StatusInternalServerError
   end, logged [OpGet runID] w).
Proof.
  intros Hm Hp Hid. unfold handlers.GetRun. rewrite Hm, Hp, TrimPrefix_app.
  change (String.eqb "GET" http.MethodOptions) with false.
  change (String.eqb "GET" http.MethodGet) with true. cbn [negb].
  apply String.eqb_neq in Hid. rewrite Hid. unfold bind.
  pose proof (GetRun_fst runID w) as Hf. pose proof (GetRun_snd runID w) as Hs.
  destruct (storage.GetRun runID w) as [[doc err] w1]. cbn [fst snd] in *. subst w1.
  destruct (runs w !! runID) as [d|]; injection Hf as -> ->; [|done].
  unfold ret, reportOf, handlers.IsZero. by destruct (RunDoc.FinishedAt d =? time.Zero).
Qed.

(** X16 (the query route).  [Handlers.GetRun] never changes a document.
    It answers a preflight to OPTIONS, 405 to any other method than
    GET, and 400 to a path that names no run, all without a call to the
    store.  For a run that is not stored the answer is 500; for a
    stored run it is 200 with the samples, process metadata, finished
    flag and update time of the document, and with the finish time only
    when that is not the zero time. *)
Theorem GetRun_route r w :
  let out := handlers.GetRun r w in
  runs (snd out) = runs w
  /\ (http.Method r = "OPTIONS" -> out = (http.Preflight, w))
  /\ (http.Method r <> "OPTIONS" -> http.Method r <> "GET" ->
        out = (http.Error "Method not allowed" 405, w))
  /\ (http.Method r = "GET" -> strings.TrimPrefix (http.Path r) "/runs/" = "" ->
        out = (http.Error "Run ID required" 400, w))
  /\ (forall runID,
        http.Method r = "GET" -> http.Path r = "/runs/" +:+ runID -> runID <> "" ->
        ops (snd out) = ops w ++ [OpGet runID]
        /\ (runs w !! runID = None -> http.StatusCode (fst out) = 500)
        /\ (forall d, runs w !! runID = Some d ->
              exists body,
                fst out = http.OK body
                /\ RunResponse.Samples body = RunDoc.Samples d
                /\ RunResponse.ProcessInfo body = RunDoc.ProcessInfo d
                /\ RunResponse.Finished body = RunDoc.Finished d
                /\ RunResponse.UpdatedAt body = RunDoc.UpdatedAt d
                /\ (RunDoc.FinishedAt d = time.Zero -> RunResponse.FinishedAt body = None)
                /\ (RunDoc.FinishedAt d <> time.Zero ->
                      RunResponse.FinishedAt body = Some (RunDoc.FinishedAt d)))).
Proof.
  intros out. subst out. split; [|split; [|split; [|split]]].
  - unfold handlers.GetRun. repeat (case_match; [done|]). unfold bind.
    pose proof (GetRun_snd (strings.TrimPrefix (http.Path r) "/runs/") w) as Hs.
    destruct (storage.GetRun _ w) as [[[doc|] [e|]] w1]; cbn [snd] in *; by subst w1.
  - intros Hm. unfold handlers.GetRun. by rewrite Hm.
  - intros Ho Hg. unfold handlers.GetRun.
    apply String.eqb_neq in Ho, Hg. unfold http.MethodOptions, http.MethodGet.
    by rewrite Ho, Hg.
  - intros Hm Hp. unfold handlers.GetRun. by rewrite Hm, Hp.
  - intros runID Hm Hp Hid. rewrite (GetRun_handler_path r runID w Hm Hp Hid).
    split; [done|]. split; [by intros ->|].
    intros d ->. exists (reportOf d). cbn [fst]. unfold reportOf. cbn.
    repeat (split; [done|]). split.
    + intros ->. by rewrite Z.eqb_refl.
    + intros Hne. apply Z.eqb_neq in Hne. by rewrite Hne.
Qed.

(** X17 (what a query shows after a write).  After [StoreSamples] the
    query of the run answers 200 with the samples the run had followed
    by the stored ones; a run created by that call is shown unfinished
    and without a finish time.  After [MarkRunAsFinished] on a run that
    was not finished, at a clock reading other than the zero time, the
    query shows the run finished at that reading, with the samples it
    had. *)
Theorem query_after_write r runID w :
  http.Method r = "GET" -> http.Path r = "/runs/" +:+ runID -> runID <> "" ->
  (forall samples,
     exists body,
       fst (handlers.GetRun r (snd (storage.StoreSamples runID samples w)))
         = http.OK body
       /\ RunResponse.Samples body = samplesOf runID w ++ samples
       /\ (runs w !! runID = None ->
             RunResponse.Finished body = false /\ RunResponse.FinishedAt body = None))
  /\ (forall d, runs w !! runID = Some d -> RunDoc.Finished d = false ->
        reading w <> time.Zero ->
        exists body,
          fst (handlers.GetRun r (snd (storage.MarkRunAsFinished runID w)))
            = http.OK body
          /\ RunResponse.Samples body = RunDoc.Samples d
          /\ RunResponse.Finished body = true
          /\ RunResponse.FinishedAt body = Some (reading w)
          /\ RunResponse.UpdatedAt body = reading w).
Proof.
  intros Hm Hp Hid. split.
  - intros samples.
    destruct (StoreSamples_runs runID samples w) as (d' & Hr & _ & Hs & _ & _ & _ & Hd').
    rewrite (GetRun_handler_path r runID _ Hm Hp Hid), Hr, lookup_insert_eq.
    exists (reportOf d'). split; [done|]. split; [done|].
    intros Hnone. rewrite Hnone in Hd'. by destruct Hd' as [-> _].
  - intros d Hd Hf Hz.
    rewrite (MarkRunAsFinished_unfinished _ _ _ Hd Hf).
    rewrite (GetRun_handler_path r runID _ Hm Hp Hid). cbn [snd runs].
    rewrite lookup_insert_eq. eexists. split; [done|].
    unfold reportOf, finishedDoc. cbn.
    apply Z.eqb_neq in Hz. by rewrite Hz.
Qed.

(** X18 (what ingestion refuses before it reads the store).  The ingest
    handler answers a preflight to OPTIONS, 405 to any other method
    than POST and 400 to a POST whose body does not decode, whatever
    the Authorization header is and without a reading of the clock.  A
    request that passes authentication with an empty run id or empty
    data is answered 400.  In all these cases the store is not
    called. *)
Theorem Ingest_rejects_before_storage E r w :
  let out := handlers.Ingest E r w in
  (handlers.Method r = "OPTIONS" -> out = (handlers.Preflight, w))
  /\ (handlers.Method r <> "OPTIONS" -> handlers.Method r <> "POST" ->
        out = (handlers.HttpError "Method not allowed" 405, w))
  /\ (handlers.Method r = "POST" -> handlers.Body r = None ->
        out = (handlers.HttpError "Invalid request body" 400, w))
  /\ (forall req token,
        handlers.Method r = "POST" -> handlers.Body r = Some req ->
        strings.Split (handlers.Authorization r) " " = ["Bearer"; token] ->
        fst (auth.ValidateToken E token (IngestRequest.RunID req) w) = (true, None) ->
        IngestRequest.RunID req = "" \/ IngestRequest.Data req = "" ->
        fst out = handlers.HttpError "Missing run_id or data" 400
        /\ runs (snd out) = runs w /\ ops (snd out) = ops w).
Proof.
  intros out. subst out. split; [|split; [|split]].
  - intros Hm. unfold handlers.Ingest. by rewrite Hm.
  - intros Ho Hp. unfold handlers.Ingest. apply String.eqb_neq in Ho, Hp.
    by rewrite Ho, Hp.
  - intros Hm Hb. unfold handlers.Ingest. by rewrite Hm, Hb.
  - intros req token Hm Hb Hsplit Hv Hempty.
    rewrite (Ingest_authorized E r req token w Hm Hb Hsplit Hv).
    pose proof (ValidateToken_store E token (IngestRequest.RunID req) w) as (Hr & Ho & _).
    unfold handlers.ingestAuthorized.
    assert (String.eqb (IngestRequest.RunID req) ""
            || String.eqb (IngestRequest.Data req) "" = true) as ->.
    { apply orb_true_iff. destruct Hempty as [->| ->]; auto. }
    done.
Qed.

(** X19 (the first batch of a run).  An authorised ingest for a run that
    is not stored creates the run with the parsed samples and answers
    200 with their number.  The samples are stamped against the clock
    reading the handler takes when it finds no run, while the start
    time of the new document is the reading [StoreSamples] takes next.
    No other run changes. *)
Theorem Ingest_first_batch E r req token w :
  handlers.Method r = "POST" -> handlers.Body r = Some req ->
  strings.Split (handlers.Authorization r) " " = ["Bearer"; token] ->
  fst (auth.ValidateToken E token (IngestRequest.RunID req) w) = (true, None) ->
  IngestRequest.RunID req <> "" -> IngestRequest.Data req <> "" ->
  runs w !! IngestRequest.RunID req = None ->
  let w1 := snd (auth.ValidateToken E token (IngestRequest.RunID req) w) in
  let samples := fst (storage.ParseData (IngestRequest.Data req) (reading w1)) in
  exists w' d',
    handlers.Ingest E r w = (handlers.Success (length samples), w')
    /\ runs w' !! IngestRequest.RunID req = Some d'
    /\ RunDoc.Samples d' = samples
    /\ Forall (fun s => Sample.Timestamp s = stamp (reading w1) (Sample.ElapsedTime s))
         samples
    /\ RunDoc.StartTime d' = reading (tick w1)
    /\ RunDoc.CreatedAt d' = reading (tick (tick w1))
    /\ RunDoc.UpdatedAt d' = reading (tick (tick (tick w1)))
    /\ RunDoc.Finished d' = false
    /\ forall other, other <> IngestRequest.RunID req ->
         runs w' !! other = runs w !! other.
Proof.
  intros Hm Hb Hsplit Hv Hid Hdata Hnone w1 samples.
  rewrite (Ingest_authorized E r req token w Hm Hb Hsplit Hv). fold w1.
  pose proof (ValidateToken_store E token (IngestRequest.RunID req) w) as (Hr & _).
  fold w1 in Hr.
  assert (runs w1 !! IngestRequest.RunID req = None) as Hnone1 by (by rewrite Hr).
  assert (Forall (fun s => Sample.Timestamp s = stamp (reading w1) (Sample.ElapsedTime s))
            samples) as Hstamps.
  { subst samples. rewrite (ParseData_retime _ (reading w1)). cbn [fst].
    apply Forall_fmap, Forall_true. by intros s. }
  apply String.eqb_neq in Hid, Hdata.
  unfold handlers.ingestAuthorized. rewrite Hid, Hdata. cbn [orb].
  erewrite bind_run by (by apply GetRun_missing).
  cbn [isNotFound]. unfold bind at 1, bind at 1, Now at 1, ret at 1, ret at 1.
  cbn [runs ops clock ticks logged]. fold (reading w1). fold samples.
  destruct (storage.ParseData _ _) as [samples' err] eqn:Hp.
  assert (err = None) as -> by (by unfold storage.ParseData in Hp; injection Hp).
  subst samples. cbn [fst] in *.
  erewrite bind_run by (by apply StoreSamples_new).
  destruct (IngestRequest.ProcessInfo req) as [info|].
  - erewrite bind_run by (apply StoreProcessInfo_existing, lookup_insert_eq).
    unfold ret. do 2 eexists. split; [done|]. cbn [runs].
    split; [apply lookup_insert_eq|]. cbn.
    repeat (split; [done|]). intros other Hne.
    by rewrite !lookup_insert_ne, Hr by done.
  - unfold ret. do 2 eexists. split; [done|]. cbn [runs].
    split; [apply lookup_insert_eq|]. cbn.
    repeat (split; [done|]). intros other Hne.
    by rewrite lookup_insert_ne, Hr by done.
Qed.

(** ** Samples *)

Lemma stamp_millis T elapsed :
  0 <= T -> 0 <= elapsed -> T + elapsed * time.Second <= max_int64 ->
  stamp T elapsed = storage.ToMillis T + 1000 * elapsed.
Proof.
  intros HT He Hmax. unfold stamp, time.Add, storage.ToMillis, time.UnixNano.
  unfold max_int64 in Hmax. change time.Second with 1000000000 in *.
  change time.Millisecond with 1000000.
  assert (forall z, 0 <= z <= 2 ^ 63 - 1 -> wrap64 z = z) as Hw.
  { intros z Hz. apply wrap64_id. unfold in_int64, min_int64, max_int64.
    apply andb_true_iff. split; apply Z.leb_le; lia. }
  rewrite (Hw (elapsed * 1000000000)) by lia.
  rewrite !Hw by lia. rewrite !Z.quot_div_nonneg by lia.
  replace (T + elapsed * 1000000000) with (T + (1000 * elapsed) * 1000000) by lia.
  by rewrite Z.div_add by lia.
Qed.

(** X20 (timestamps).  Every sample [ParseData] returns carries the
    millisecond value of the start time plus its elapsed seconds, and
    parsing against another start time changes nothing but these
    timestamps.  For a start time after the epoch and an elapsed time
    that is not negative, within [int64], the timestamp is the
    millisecond value of the start time plus a thousand times the
    elapsed seconds. *)
Theorem sample_timestamps data T :
  Forall (fun s =>
            Sample.Timestamp s = stamp T (Sample.ElapsedTime s)
            /\ (0 <= T -> 0 <= Sample.ElapsedTime s ->
                T + Sample.ElapsedTime s * time.Second <= max_int64 ->
                Sample.Timestamp s = storage.ToMillis T + 1000 * Sample.ElapsedTime s))
    (fst (storage.ParseData data T))
  /\ forall T', fst (storage.ParseData data T')
                = retime T' <$> fst (storage.ParseData data T).
Proof.
  split.
  - rewrite (ParseData_retime _ T). cbn [fst].
    apply Forall_fmap, Forall_true. intros s. cbn. split; [done|].
    apply stamp_millis.
  - intros T'. rewrite (ParseData_retime _ T'), (ParseData_retime _ T). cbn [fst].
    rewrite <- list_fmap_compose. by apply list_fmap_ext.
Qed.

Lemma rev_string_onto_app s : forall acc, rev_string_onto s acc = rev_string s +:+ acc.
Proof.
  unfold rev_string. induction s as [|c s IH]; intros acc; [done|]. simpl.
  rewrite (IH (String c acc)), (IH (String c "")).
  by rewrite string_append_assoc.
Qed.

Lemma rev_string_app s t : rev_string (s +:+ t) = rev_string t +:+ rev_string s.
Proof.
  induction s as [|c s IH].
  - by rewrite string_append_nil_r.
  - rewrite string_append_cons.
    change (rev_string (String c (s +:+ t)))
      with (rev_string_onto (s +:+ t) (String c "")).
    change (rev_string (String c s)) with (rev_string_onto s (String c "")).
    rewrite !rev_string_onto_app, IH. by rewrite string_append_assoc.
Qed.

Lemma string_prefix_app p s : String.prefix p (p +:+ s) = true.
Proof.
  induction p as [|c p IH]; [by destruct s|]. simpl.
  destruct (ascii_dec c c); [done|congruence].
Qed.

Lemma substring_app s t :
  String.substring 0 (String.length (s +:+ t) - String.length t) (s +:+ t) = s.
Proof.
  rewrite string_length_append, Nat.add_sub.
  induction s as [|c s IH]; [by destruct t|]. rewrite string_append_cons. simpl. by rewrite IH.
Qed.

Lemma TrimSuffix_app s suffix : strings.TrimSuffix (s +:+ suffix) suffix = s.
Proof.
  unfold strings.TrimSuffix, strings.HasSuffix.
  by rewrite rev_string_app, string_prefix_app, substring_app.
Qed.

Lemma TrimSuffix_none s suffix :
  strings.HasSuffix s suffix = false -> strings.TrimSuffix s suffix = s.
Proof. unfold strings.TrimSuffix. by intros ->. Qed.

Lemma parseMB_unit v :
  strings.HasSuffix v "MB" = false ->
  storage.parseMB (v +:+ "MB") = storage.parseMB v
  /\ storage.parseMB (v +:+ "MB" +:+ "MB") = storage.parseMB v.
Proof.
  intros Hv. unfold storage.parseMB.
  rewrite <- (string_append_assoc v "MB" "MB").
  rewrite !TrimSuffix_app. by rewrite !(TrimSuffix_none v).
Qed.

(** X21 (the unit of a memory figure).  A memory field that ends in
    "MB", once or twice, is read as the field without these suffixes,
    and a field that does not end in "MB" is read as it is.  So a line
    gives the same sample whether its three memory figures come bare,
    as "100MB" or as "100MBMB". *)
Theorem memory_unit_is_optional :
  (forall v,
     strings.HasSuffix v "MB" = false ->
     storage.parseMB (v +:+ "MB") = storage.parseMB v
     /\ storage.parseMB (v +:+ "MB" +:+ "MB") = storage.parseMB v
     /\ storage.parseMB v
        = match strconv.ParseFloat v with
          | Some f => Some (strconv.int_of_float f)
          | None => None
          end)
  /\ (forall elapsed pid name used cap rss T,
        strings.HasSuffix used "MB" = false ->
        strings.HasSuffix cap "MB" = false ->
        strings.HasSuffix rss "MB" = false ->
        storage.parseParts
          [elapsed; pid; name; used +:+ "MB"; cap +:+ "MB" +:+ "MB"; rss] T
        = storage.parseParts [elapsed; pid; name; used; cap; rss] T
        /\ storage.parseParts
             [elapsed; pid; name; used +:+ "MB"; cap +:+ "MB"; rss +:+ "MB"] T
           = storage.parseParts [elapsed; pid; name; used; cap; rss] T).
Proof.
  split.
  - intros v Hv. destruct (parseMB_unit v Hv) as [H1 H2].
    split; [done|]. split; [done|].
    unfold storage.parseMB. by rewrite !(TrimSuffix_none v).
  - intros elapsed pid name used cap rss T Hu Hc Hr.
    destruct (parseMB_unit used Hu) as [Hu1 _].
    destruct (parseMB_unit cap Hc) as [Hc1 Hc2].
    destruct (parseMB_unit rss Hr) as [Hr1 _].
    unfold storage.parseParts. cbn [nth]. by rewrite Hu1, Hc1, Hc2, Hr1.
Qed.

(** * Cleanup *)


(** X23 (the admin gate).  Both cleanup handlers leave the world as it
    is, without a call to the store or a reading of the clock, unless
    the request is a POST that [RequireAdminAuth] accepts: OPTIONS is
    answered with a preflight also without the secret, any other method
    than POST with 405 also with the secret, and a POST without the
    right secret with 401. *)
Theorem cleanup_admin_gate adminSecret r w :
  http.Method r <> "POST" \/ auth.RequireAdminAuth adminSecret r = false ->
  let stale := cleanup.HandleManualStaleCleanup adminSecret r w in
  let old := cleanup.HandleManualDataRetentionCleanup adminSecret r w in
  snd stale = w /\ snd old = w
  /\ (http.Method r = "OPTIONS" ->
        fst stale = http.Preflight /\ fst old = http.Preflight)
  /\ (http.Method r <> "OPTIONS" -> http.Method r <> "POST" ->
        http.StatusCode (fst stale) = 405 /\ http.StatusCode (fst old) = 405)
  /\ (http.Method r = "POST" ->
        http.StatusCode (fst stale) = 401 /\ http.StatusCode (fst old) = 401).
Proof.
  intros Hgate stale old. subst stale old.
  unfold cleanup.HandleManualStaleCleanup, cleanup.HandleManualDataRetentionCleanup.
  unfold http.MethodOptions, http.MethodPost.
  destruct (String.eqb (http.Method r) "OPTIONS") eqn:Ho.
  { apply String.eqb_eq in Ho. rewrite Ho. by repeat split. }
  apply String.eqb_neq in Ho.
  destruct (String.eqb (http.Method r) "POST") eqn:Hp; cbn [negb].
  - apply String.eqb_eq in Hp. destruct Hgate as [?|Hno]; [done|].
    rewrite Hno. cbn [negb]. by repeat split.
  - apply String.eqb_neq in Hp. by repeat split.
Qed.

Lemma markStale_markCleaned ids : forall acc w,
  snd (cleanup.markStale ids w) = snd (cleanup.markCleaned ids acc w).
Proof.
  induction ids as [|id ids IH]; intros acc w; [done|].
  cbn [cleanup.markStale cleanup.markCleaned]. unfold bind.
  destruct (storage.MarkRunAsFinished id w) as [[e|] w1]; apply IH.
Qed.

(** What the sweep does to runs that are stored and not finished. *)
Lemma markCleaned_spec now ids : forall acc w,
  (forall k, clock w k = now) ->
  NoDup ids ->
  (forall id, id ∈ ids -> exists d, runs w !! id = Some d /\ RunDoc.Finished d = false) ->
  fst (cleanup.markCleaned ids acc w) = acc ++ ids
  /\ clock (snd (cleanup.markCleaned ids acc w)) = clock w
  /\ forall id,
       runs (snd (cleanup.markCleaned ids acc w)) !! id =
       match runs w !! id with
       | Some d => Some (if bool_decide (id ∈ ids) then finishedDoc d now else d)
       | None => None
       end.
Proof.
  induction ids as [|i ids IH]; intros acc w Hnow Hnd Hin.
  - cbn. rewrite app_nil_r. split; [done|]. split; [done|].
    intros id. by destruct (runs w !! id).
  - apply NoDup_cons in Hnd as [Hni Hnd].
    destruct (Hin i) as (d & Hd & Hf); [apply list_elem_of_here|].
    cbn [cleanup.markCleaned].
    erewrite bind_run by (by apply MarkRunAsFinished_unfinished).
    set (w1 := mkWorld _ _ _ _).
    destruct (IH (acc ++ [i]) w1) as (H1 & H2 & H3).
    { intros k. apply Hnow. }
    { done. }
    { intros id Hid. destruct (Hin id) as (d' & Hd' & Hf'); [by apply list_elem_of_further|].
      exists d'. split; [|done]. subst w1. cbn [runs].
      rewrite lookup_insert_ne; [done|]. by intros ->. }
    rewrite H1, H2, <- app_assoc. split; [done|]. split; [done|].
    intros id. rewrite H3. subst w1. cbn [runs]. unfold reading. rewrite Hnow.
    destruct (decide (id = i)) as [->|Hne].
    + rewrite lookup_insert_eq, Hd.
      rewrite bool_decide_eq_false_2 by done.
      by rewrite bool_decide_eq_true_2 by apply list_elem_of_here.
    + rewrite lookup_insert_ne by done.
      destruct (runs w !! id) as [d'|]; [|done]. f_equal.
      destruct (decide (id ∈ ids)) as [Hi|Hi].
      * rewrite !bool_decide_eq_true_2; [done| |done]. by apply list_elem_of_further.
      * rewrite !bool_decide_eq_false_2; [done| |done].
        intros [?|?]%elem_of_cons; done.
Qed.

(** X24 (the manual sweep of stale runs).  While the clock stands still
    an admitted POST to the stale cleanup answers 200 with the runs it
    marked: without repetition, exactly the unfinished runs whose last
    update is more than five minutes before the clock reading; the
    three counts of the answer all equal their number.  Each of these
    runs is finished at the clock reading, every other run is as it
    was, and a search for stale runs afterwards finds none. *)
Theorem stale_cleanup_finishes_stale_runs adminSecret r now w :
  (forall k, clock w k = now) ->
  http.Method r = "POST" -> auth.RequireAdminAuth adminSecret r = true ->
  exists report w',
    cleanup.HandleManualStaleCleanup adminSecret r w = (http.OK report, w')
    /\ cleanup.StaleReport.success report = true
    /\ cleanup.StaleReport.total_checked report
       = length (cleanup.StaleReport.cleaned_runs report)
    /\ cleanup.StaleReport.stale_found report
       = length (cleanup.StaleReport.cleaned_runs report)
    /\ cleanup.StaleReport.cleaned_up report
       = length (cleanup.StaleReport.cleaned_runs report)
    /\ NoDup (cleanup.StaleReport.cleaned_runs report)
    /\ (forall id, id ∈ cleanup.StaleReport.cleaned_runs report <->
          exists d, runs w !! id = Some d /\ isStale now d = true)
    /\ (forall id,
          runs w' !! id =
          match runs w !! id with
          | Some d => Some (if isStale now d then finishedDoc d now else d)
          | None => None
          end)
    /\ fst (storage.FindStaleRuns cleanup.BuildTimeout w') = ([], None).
Proof.
  intros Hnow Hm Hadmin. unfold cleanup.HandleManualStaleCleanup.
  rewrite Hm, Hadmin.
  change (String.eqb "POST" http.MethodOptions) with false.
  change (String.eqb "POST" http.MethodPost) with true. cbn [negb].
  destruct (FindStaleRuns_spec cleanup.BuildTimeout now now w)
    as (He & Hr & _ & Hnd & Hs1 & Hs2).
  { intros k. rewrite Hnow. lia. }
  assert (clock (snd (storage.FindStaleRuns cleanup.BuildTimeout w)) = clock w) as Hc.
  { unfold storage.FindStaleRuns, bind, documents, ret. cbn.
    destruct (staleLoop_spec cleanup.BuildTimeout now now (map_to_list (runs w)) []
                (mkWorld (runs w) (ops w ++ [OpDocuments]) (clock w) (ticks w)))
      as (extra & _ & _ & _ & Hck & _).
    { intros k. cbn. rewrite Hnow. lia. }
    destruct (storage.staleLoop _ _ _ _) as [ids w0]. by cbn in *. }
  unfold bind at 1.
  destruct (storage.FindStaleRuns cleanup.BuildTimeout w) as [[ids err] w1].
  cbn [fst snd] in *. subst err.
  assert (forall id, id ∈ ids <-> exists d, runs w !! id = Some d /\ isStale now d = true)
    as Hids.
  { intros id. unfold isStale. split.
    - intros (d & Hd & Hf & Hlt)%Hs1. exists d. split; [done|].
      rewrite Hf. apply Z.ltb_lt in Hlt. by rewrite Hlt.
    - intros (d & Hd & [Hf Hlt]%andb_true_iff). apply negb_true_iff in Hf.
      apply Z.ltb_lt in Hlt. by eapply Hs2. }
  destruct (markCleaned_spec now ids [] w1) as (H1 & H2 & H3).
  { intros k. by rewrite Hc. }
  { done. }
  { intros id (d & Hd & [Hf _]%andb_true_iff)%Hids. apply negb_true_iff in Hf.
    exists d. by rewrite Hr. }
  unfold bind, ret.
  destruct (cleanup.markCleaned ids [] w1) as [cleaned w2].
  cbn [fst snd app] in *. subst cleaned.
  assert (forall id,
            runs w2 !! id =
            match runs w !! id with
            | Some d => Some (if isStale now d then finishedDoc d now else d)
            | None => None
            end) as Hruns.
  { intros id. rewrite H3, Hr. destruct (runs w !! id) as [d|] eqn:Hd; [|done].
    f_equal. destruct (isStale now d) eqn:Hst.
    - rewrite bool_decide_eq_true_2; [done|]. apply Hids. by exists d.
    - rewrite bool_decide_eq_false_2; [done|]. intros (d' & Hd' & Hst')%Hids.
      congruence. }
  do 2 eexists. split; [done|].
  cbn [cleanup.StaleReport.success cleanup.StaleReport.total_checked
       cleanup.StaleReport.stale_found cleanup.StaleReport.cleaned_up
       cleanup.StaleReport.cleaned_runs].
  do 7 (split; [done|]).
  destruct (FindStaleRuns_spec cleanup.BuildTimeout now now w2)
    as (He2 & _ & _ & _ & Hs & _).
  { intros k. rewrite H2, Hc, Hnow. lia. }
  destruct (storage.FindStaleRuns cleanup.BuildTimeout w2) as [[ids2 err2] w3].
  cbn [fst snd] in *. subst err2. f_equal.
  destruct ids2 as [|id ids2]; [done|]. exfalso.
  destruct (Hs id) as (d' & Hd' & Hf' & Hlt'); [apply list_elem_of_here|].
  rewrite Hruns in Hd'. destruct (runs w !! id) as [d|]; [|done].
  injection Hd' as <-. destruct (isStale now d) eqn:Hst; [done|].
  unfold isStale in Hst. rewrite Hf' in Hst. cbn in Hst.
  apply Z.ltb_ge in Hst. lia.
Qed.

(** X25 (the manual cleanups and the background routines).  An
    admitted POST to the stale cleanup leaves the world a tick of the
    background sweep leaves.  An admitted POST to the retention cleanup
    answers 200 with the ids [DeleteOldRuns] returns for the three-hour
    period and their number, and leaves the store a tick of the
    background routine leaves; the cutoff it reports comes from one
    more reading of the clock. *)
Theorem manual_cleanup_is_the_tick adminSecret r w :
  http.Method r = "POST" -> auth.RequireAdminAuth adminSecret r = true ->
  snd (cleanup.HandleManualStaleCleanup adminSecret r w)
    = snd (cleanup.staleRunCleanupTick w)
  /\ snd (cleanup.HandleManualDataRetentionCleanup adminSecret r w)
     = tick (snd (cleanup.dataRetentionCleanupTick w))
  /\ snd (cleanup.dataRetentionCleanupTick w)
     = snd (storage.DeleteOldRuns cleanup.DataRetentionPeriod w)
  /\ exists report,
       fst (cleanup.HandleManualDataRetentionCleanup adminSecret r w) = http.OK report
       /\ cleanup.RetentionReport.success report = true
       /\ cleanup.RetentionReport.deleted_runs report
          = fst (fst (storage.DeleteOldRuns cleanup.DataRetentionPeriod w))
       /\ cleanup.RetentionReport.deleted_count report
          = length (cleanup.RetentionReport.deleted_runs report)
       /\ cleanup.RetentionReport.cutoff_time report
          = reading (tick w) - cleanup.DataRetentionPeriod.
Proof.
  intros Hm Hadmin.
  unfold cleanup.HandleManualStaleCleanup, cleanup.HandleManualDataRetentionCleanup,
    cleanup.staleRunCleanupTick, cleanup.dataRetentionCleanupTick.
  rewrite Hm, Hadmin.
  change (String.eqb "POST" http.MethodOptions) with false.
  change (String.eqb "POST" http.MethodPost) with true. cbn [negb].
  split; [|split; [|split]].
  - unfold bind at 1 3.
    destruct (storage.FindStaleRuns cleanup.BuildTimeout w) as [[ids [e|]] w1]; [done|].
    unfold bind, ret. rewrite (markStale_markCleaned ids [] w1).
    by destruct (cleanup.markCleaned ids [] w1).
  - pose proof (DeleteOldRuns_spec cleanup.DataRetentionPeriod w) as (He & _).
    unfold bind, Now, ret, tick.
    destruct (storage.DeleteOldRuns cleanup.DataRetentionPeriod w) as [[ids e] w1].
    cbn [fst snd] in *. by subst e.
  - unfold bind, ret.
    by destruct (storage.DeleteOldRuns cleanup.DataRetentionPeriod w) as [[ids e] w1].
  - pose proof (DeleteOldRuns_spec cleanup.DataRetentionPeriod w)
      as (He & _ & _ & _ & _ & Hc & Ht).
    unfold bind, Now, ret.
    destruct (storage.DeleteOldRuns cleanup.DataRetentionPeriod w) as [[ids e] w1].
    cbn [fst snd] in *. subst e. eexists. split; [done|].
    cbn [cleanup.RetentionReport.success cleanup.RetentionReport.deleted_runs
         cleanup.RetentionReport.deleted_count cleanup.RetentionReport.cutoff_time].
    do 3 (split; [done|]). unfold reading, tick, time.Add. cbn [clock ticks].
    by rewrite Hc, Ht.
Qed.

(** * The further properties on the small environment *)

Lemma StoreSamples_creates_run_witness :
  runs demoWorld !! "run1" = None
  /\ (forall i j, (i <= j)%nat -> clock demoWorld i <= clock demoWorld j)
  /\ fst (storage.StoreSamples "run1" [] demoWorld) = None
  /\ exists d,
       runs (snd (storage.StoreSamples "run1" [] demoWorld)) !! "run1" = Some d
       /\ RunDoc.Finished d = false
       /\ RunDoc.StartTime d <= RunDoc.CreatedAt d <= RunDoc.UpdatedAt d.
Proof.
  assert (H1 : runs demoWorld !! "run1" = None) by (vm_compute; reflexivity).
  assert (H2 : forall i j, (i <= j)%nat -> clock demoWorld i <= clock demoWorld j)
    by (intros i j _; vm_compute; discriminate).
  destruct (StoreSamples_creates_run "run1" [] demoWorld H1 H2)
    as (He & (d & Hd & _ & _ & _ & _ & Hf & _ & _ & _ & _ & Hord & _) & _).
  split; [exact H1|]. split; [exact H2|]. split; [exact He|].
  exists d. split; [exact Hd|]. split; [exact Hf|exact Hord].
Defined.

Lemma retention_by_update_time_witness :
  runs retentionWorld !! "old"
    = Some (runUpdatedAt (retentionNow - 4 * time.Hour) true)
  /\ Consistent (runUpdatedAt (retentionNow - 4 * time.Hour) true)
  /\ 0 <= cleanup.DataRetentionPeriod <= reading retentionWorld
  /\ reading retentionWorld <= max_int64
  /\ 0 <= RunDoc.UpdatedAt (runUpdatedAt (retentionNow - 4 * time.Hour) true)
       <= max_int64
  /\ runs (snd (storage.DeleteOldRuns cleanup.DataRetentionPeriod retentionWorld))
       !! "old" = None
  /\ runs (snd (storage.DeleteOldRuns cleanup.DataRetentionPeriod retentionWorld))
       !! "recent" = Some (runUpdatedAt (retentionNow - 2 * time.Hour) false).
Proof.
  assert (H1 : runs retentionWorld !! "old"
               = Some (runUpdatedAt (retentionNow - 4 * time.Hour) true))
    by (vm_compute; reflexivity).
  assert (H2 : Consistent (runUpdatedAt (retentionNow - 4 * time.Hour) true))
    by reflexivity.
  assert (H3 : 0 <= cleanup.DataRetentionPeriod <= reading retentionWorld)
    by (split; vm_compute; discriminate).
  assert (H4 : reading retentionWorld <= max_int64) by (vm_compute; discriminate).
  assert (H5 : 0 <= RunDoc.UpdatedAt (runUpdatedAt (retentionNow - 4 * time.Hour) true)
               <= max_int64) by (split; vm_compute; discriminate).
  assert (H6 : runs retentionWorld !! "recent"
               = Some (runUpdatedAt (retentionNow - 2 * time.Hour) false))
    by (vm_compute; reflexivity).
  assert (H7 : 0 <= RunDoc.UpdatedAt (runUpdatedAt (retentionNow - 2 * time.Hour) false)
               <= max_int64) by (split; vm_compute; discriminate).
  destruct (retention_by_update_time cleanup.DataRetentionPeriod retentionWorld "old"
              _ H1 H2 H3 H4 H5) as [_ Hold].
  destruct (retention_by_update_time cleanup.DataRetentionPeriod retentionWorld "recent"
              _ H6 eq_refl H3 H4 H7) as [Hrecent _].
  split; [exact H1|]. split; [exact H2|]. split; [exact H3|]. split; [exact H4|].
  split; [exact H5|]. split.
  - apply Hold. vm_compute. discriminate.
  - apply Hrecent. vm_compute. discriminate.
Defined.

Lemma DeleteOldRuns_twice_witness :
  (forall k, clock retentionWorld k = retentionNow)
  /\ fst (storage.DeleteOldRuns cleanup.DataRetentionPeriod
            (snd (storage.DeleteOldRuns cleanup.DataRetentionPeriod retentionWorld)))
     = ([], None).
Proof.
  assert (H : forall k, clock retentionWorld k = retentionNow)
    by (intros k; reflexivity).
  split; [exact H|].
  exact (proj1 (DeleteOldRuns_twice cleanup.DataRetentionPeriod retentionNow
                  retentionWorld H)).
Defined.

Lemma written_run_is_fresh_witness :
  (forall k, clock retentionWorld k = retentionNow)
  /\ in_int64 retentionNow = true
  /\ 0 <= cleanup.DataRetentionPeriod <= max_int64
  /\ in_int64 (retentionNow - cleanup.DataRetentionPeriod) = true
  /\ ("new" ∉ fst (fst (storage.DeleteOldRuns cleanup.DataRetentionPeriod
                          (snd (storage.StoreSamples "new" [] retentionWorld)))))
  /\ ("new" ∉ fst (fst (storage.FindStaleRuns cleanup.DataRetentionPeriod
                          (snd (storage.StoreSamples "new" [] retentionWorld))))).
Proof.
  assert (H1 : forall k, clock retentionWorld k = retentionNow)
    by (intros k; reflexivity).
  assert (H2 : in_int64 retentionNow = true) by (vm_compute; reflexivity).
  assert (H3 : 0 <= cleanup.DataRetentionPeriod <= max_int64)
    by (split; vm_compute; discriminate).
  assert (H4 : in_int64 (retentionNow - cleanup.DataRetentionPeriod) = true)
    by (vm_compute; reflexivity).
  destruct (written_run_is_fresh "new" [] cleanup.DataRetentionPeriod retentionNow
              retentionWorld H1 H2 H3 H4) as (Hold & _ & _ & Hstale).
  split; [exact H1|]. split; [exact H2|]. split; [exact H3|]. split; [exact H4|].
  split; [exact Hold|exact Hstale].
Defined.

Lemma demoStore_consistent : StoreConsistent demoStore.
Proof.
  intros id d Hd. unfold demoStore in Hd. cbn [runs] in Hd.
  apply lookup_singleton_Some in Hd as [_ <-]. reflexivity.
Qed.

Lemma service_keeps_timestamps_witness :
  StoreConsistent demoStore
  /\ forall id d,
       runs (serveAll demoEnv demoAdminSecret demoCalls demoStore) !! id = Some d ->
       RunDoc.UpdatedAtTimestamp d = storage.ToMillis (RunDoc.UpdatedAt d).
Proof.
  split; [exact demoStore_consistent|].
  exact (service_keeps_timestamps demoEnv demoAdminSecret demoCalls demoStore
           demoStore_consistent).
Defined.

Lemma service_extends_runs_witness :
  forallb (fun c => negb (retention c)) demoCalls = true
  /\ runs demoStore !! "run1" = Some demoDoc
  /\ exists d',
       runs (serveAll demoEnv demoAdminSecret demoCalls demoStore) !! "run1" = Some d'
       /\ Extends demoDoc d'.
Proof.
  assert (H1 : forallb (fun c => negb (retention c)) demoCalls = true) by reflexivity.
  assert (H2 : runs demoStore !! "run1" = Some demoDoc) by (vm_compute; reflexivity).
  split; [exact H1|]. split; [exact H2|].
  exact (service_extends_runs demoEnv demoAdminSecret demoCalls demoStore "run1" demoDoc
           H1 H2).
Defined.

Lemma only_ingest_creates_runs_witness :
  forallb (fun c => negb (ingests c))
    [CallFinishRun (finishRequest "run2" demoToken); TickStale; TickRetention] = true
  /\ runs demoStore !! "run2" = None
  /\ runs (serveAll demoEnv demoAdminSecret
             [CallFinishRun (finishRequest "run2" demoToken); TickStale; TickRetention]
             demoStore) !! "run2" = None.
Proof.
  assert (H1 : forallb (fun c => negb (ingests c))
                 [CallFinishRun (finishRequest "run2" demoToken); TickStale;
                  TickRetention] = true) by reflexivity.
  assert (H2 : runs demoStore !! "run2" = None) by (vm_compute; reflexivity).
  split; [exact H1|]. split; [exact H2|].
  exact (only_ingest_creates_runs demoEnv demoAdminSecret _ demoStore "run2" H1 H2).
Defined.

Lemma issued_token_shape_witness :
  fst (auth.GenerateToken demoEnv "run1" demoWorld) = (demoToken, demoExpiry, None)
  /\ allChars tokenChar demoToken = true
  /\ strings.Split ("Bearer " +:+ demoToken) " " = ["Bearer"; demoToken].
Proof.
  assert (H : fst (auth.GenerateToken demoEnv "run1" demoWorld)
              = (demoToken, demoExpiry, None)) by (vm_compute; reflexivity).
  destruct (issued_token_shape demoEnv "run1" demoWorld demoToken demoExpiry H)
    as (Hc & Hs & _).
  split; [exact H|]. split; [exact Hc|exact Hs].
Defined.

Lemma FinishRun_auth_before_storage_witness :
  FinishAuthFails demoEnv (plainRequest "POST" "/finish/run1") demoStore
  /\ http.Method (plainRequest "POST" "/finish/run1") = "POST"
  /\ strings.TrimPrefix (http.Path (plainRequest "POST" "/finish/run1")) "/finish/" <> ""
  /\ http.StatusCode
       (fst (handlers.FinishRun demoEnv (plainRequest "POST" "/finish/run1") demoStore))
     = 401
  /\ runs (snd (handlers.FinishRun demoEnv (plainRequest "POST" "/finish/run1") demoStore))
     = runs demoStore.
Proof.
  assert (H1 : FinishAuthFails demoEnv (plainRequest "POST" "/finish/run1") demoStore)
    by (left; reflexivity).
  assert (H2 : http.Method (plainRequest "POST" "/finish/run1") = "POST") by reflexivity.
  assert (H3 : strings.TrimPrefix (http.Path (plainRequest "POST" "/finish/run1"))
                 "/finish/" <> "") by (vm_compute; discriminate).
  destruct (FinishRun_auth_before_storage demoEnv (plainRequest "POST" "/finish/run1")
              demoStore H1) as (Hr & _ & Hs).
  split; [exact H1|]. split; [exact H2|]. split; [exact H3|].
  split; [exact (Hs H2 H3)|exact Hr].
Defined.

Lemma issued_token_finishes_its_run_witness :
  RoundTrip demoEnv (TokenData.mk "run1" demoExpiry (reading (tick demoWorld)))
  /\ "run1" <> ""
  /\ fst (handlers.Auth demoEnv
            (http.mkRequest "POST" ("/auth/run/" +:+ "run1") (fun _ => "")) demoWorld)
     = http.OK (TokenResponse.mk demoToken demoExpiry)
  /\ reading demoStore <= demoExpiry
  /\ runs demoStore !! "run1" = Some demoDoc
  /\ fst (handlers.FinishRun demoEnv (finishRequest "run1" demoToken) demoStore)
     = http.OK ("Run " +:+ "run1" +:+ " marked as finished")
  /\ http.StatusCode
       (fst (handlers.FinishRun demoEnv (finishRequest "run2" demoToken) demoStore))
     = 401.
Proof.
  assert (H1 : RoundTrip demoEnv
                 (TokenData.mk "run1" demoExpiry (reading (tick demoWorld))))
    by apply demoEnv_round_trip.
  assert (H2 : "run1" <> "") by discriminate.
  assert (H3 : fst (handlers.Auth demoEnv
                      (http.mkRequest "POST" ("/auth/run/" +:+ "run1") (fun _ => ""))
                      demoWorld)
               = http.OK (TokenResponse.mk demoToken demoExpiry))
    by (vm_compute; reflexivity).
  assert (H4 : reading demoStore <= demoExpiry) by (vm_compute; discriminate).
  assert (H5 : runs demoStore !! "run1" = Some demoDoc) by (vm_compute; reflexivity).
  destruct (issued_token_finishes_its_run demoEnv "POST" (fun _ => "") "run1"
              demoToken demoExpiry demoWorld demoStore H1 H2 H3 H4)
    as (Hown & _ & Hother).
  split; [exact H1|]. split; [exact H2|]. split; [exact H3|]. split; [exact H4|].
  split; [exact H5|]. split; [exact (proj1 (Hown demoDoc H5))|].
  refine (proj1 (Hother "run2" _ _)); discriminate.
Defined.

Lemma query_after_write_witness :
  http.Method (plainRequest "GET" "/runs/run1") = "GET"
  /\ http.Path (plainRequest "GET" "/runs/run1") = "/runs/" +:+ "run1"
  /\ "run1" <> ""
  /\ runs demoStore !! "run1" = Some demoDoc
  /\ RunDoc.Finished demoDoc = false
  /\ reading demoStore <> time.Zero
  /\ exists body,
       fst (handlers.GetRun (plainRequest "GET" "/runs/run1")
              (snd (storage.MarkRunAsFinished "run1" demoStore))) = http.OK body
       /\ RunResponse.Finished body = true
       /\ RunResponse.FinishedAt body = Some (reading demoStore).
Proof.
  assert (H1 : http.Method (plainRequest "GET" "/runs/run1") = "GET") by reflexivity.
  assert (H2 : http.Path (plainRequest "GET" "/runs/run1") = "/runs/" +:+ "run1")
    by reflexivity.
  assert (H3 : "run1" <> "") by discriminate.
  assert (H4 : runs demoStore !! "run1" = Some demoDoc) by (vm_compute; reflexivity).
  assert (H5 : RunDoc.Finished demoDoc = false) by reflexivity.
  assert (H6 : reading demoStore <> time.Zero) by (vm_compute; discriminate).
  destruct (query_after_write (plainRequest "GET" "/runs/run1") "run1" demoStore
              H1 H2 H3) as [_ Hfin].
  destruct (Hfin demoDoc H4 H5 H6) as (body & Hb & _ & Hf & Hat & _).
  split; [exact H1|]. split; [exact H2|]. split; [exact H3|]. split; [exact H4|].
  split; [exact H5|]. split; [exact H6|].
  exists body. split; [exact Hb|]. split; [exact Hf|exact Hat].
Defined.

Lemma Ingest_first_batch_witness :
  handlers.Method (demoRequest demoBearer sampleLine) = "POST"
  /\ strings.Split demoBearer " " = ["Bearer"; demoToken]
  /\ fst (auth.ValidateToken demoEnv demoToken "run1" demoWorld) = (true, None)
  /\ runs demoWorld !! "run1" = None
  /\ exists w' d',
       handlers.Ingest demoEnv (demoRequest demoBearer sampleLine) demoWorld
       = (handlers.Success 1, w')
       /\ runs w' !! "run1" = Some d'
       /\ RunDoc.Finished d' = false.
Proof.
  assert (H1 : handlers.Method (demoRequest demoBearer sampleLine) = "POST")
    by reflexivity.
  assert (H3 : strings.Split demoBearer " " = ["Bearer"; demoToken])
    by (vm_compute; reflexivity).
  assert (H4 : fst (auth.ValidateToken demoEnv demoToken "run1" demoWorld) = (true, None))
    by (vm_compute; reflexivity).
  assert (H5 : "run1" <> "") by discriminate.
  assert (H6 : sampleLine <> "") by discriminate.
  assert (H7 : runs demoWorld !! "run1" = None) by (vm_compute; reflexivity).
  destruct (Ingest_first_batch demoEnv (demoRequest demoBearer sampleLine)
              (IngestRequest.mk "run1" sampleLine None) demoToken demoWorld
              H1 eq_refl H3 H4 H5 H6 H7)
    as (w' & d' & Hout & Hd & _ & _ & _ & _ & _ & Hf & _).
  split; [exact H1|]. split; [exact H3|]. split; [exact H4|]. split; [exact H7|].
  exists w', d'. split; [exact Hout|]. split; [exact Hd|exact Hf].
Defined.

Lemma memory_unit_is_optional_witness :
  strings.HasSuffix "100" "MB" = false
  /\ storage.parseMB ("100" +:+ "MB") = storage.parseMB "100"
  /\ storage.parseMB ("100" +:+ "MB" +:+ "MB") = storage.parseMB "100"
  /\ storage.parseMB "100" = Some 100.
Proof.
  assert (H : strings.HasSuffix "100" "MB" = false) by (vm_compute; reflexivity).
  destruct (proj1 memory_unit_is_optional "100" H) as (H1 & H2 & _).
  split; [exact H|]. split; [exact H1|]. split; [exact H2|].
  vm_compute. reflexivity.
Defined.

Lemma cleanup_admin_gate_witness :
  (http.Method (adminRequest "POST" "guess") <> "POST"
   \/ auth.RequireAdminAuth demoAdminSecret (adminRequest "POST" "guess") = false)
  /\ snd (cleanup.HandleManualStaleCleanup demoAdminSecret (adminRequest "POST" "guess")
            staleWorld) = staleWorld
  /\ http.StatusCode
       (fst (cleanup.HandleManualDataRetentionCleanup demoAdminSecret
               (adminRequest "POST" "guess") staleWorld)) = 401.
Proof.
  assert (H : http.Method (adminRequest "POST" "guess") <> "POST"
              \/ auth.RequireAdminAuth demoAdminSecret (adminRequest "POST" "guess")
                 = false) by (right; reflexivity).
  destruct (cleanup_admin_gate demoAdminSecret (adminRequest "POST" "guess") staleWorld H)
    as (Hs & _ & _ & _ & H401).
  split; [exact H|]. split; [exact Hs|]. exact (proj2 (H401 eq_refl)).
Defined.

Lemma stale_cleanup_finishes_stale_runs_witness :
  (forall k, clock staleWorld k = staleNow)
  /\ http.Method (adminRequest "POST" demoAdminSecret) = "POST"
  /\ auth.RequireAdminAuth demoAdminSecret (adminRequest "POST" demoAdminSecret) = true
  /\ exists report w',
       cleanup.HandleManualStaleCleanup demoAdminSecret
         (adminRequest "POST" demoAdminSecret) staleWorld = (http.OK report, w')
       /\ "old" ∈ cleanup.StaleReport.cleaned_runs report
       /\ fst (storage.FindStaleRuns cleanup.BuildTimeout w') = ([], None).
Proof.
  assert (H1 : forall k, clock staleWorld k = staleNow) by (intros k; reflexivity).
  assert (H2 : http.Method (adminRequest "POST" demoAdminSecret) = "POST")
    by reflexivity.
  assert (H3 : auth.RequireAdminAuth demoAdminSecret
                 (adminRequest "POST" demoAdminSecret) = true) by reflexivity.
  destruct (stale_cleanup_finishes_stale_runs demoAdminSecret
              (adminRequest "POST" demoAdminSecret) staleNow staleWorld H1 H2 H3)
    as (report & w' & Hout & _ & _ & _ & _ & _ & Hin & _ & Hnone).
  split; [exact H1|]. split; [exact H2|]. split; [exact H3|].
  exists report, w'. split; [exact Hout|]. split; [|exact Hnone].
  apply Hin. exists (runUpdatedAt (staleNow - 6 * time.Minute) false).
  split; vm_compute; reflexivity.
Defined.

Lemma manual_cleanup_is_the_tick_witness :
  http.Method (adminRequest "POST" demoAdminSecret) = "POST"
  /\ auth.RequireAdminAuth demoAdminSecret (adminRequest "POST" demoAdminSecret) = true
  /\ snd (cleanup.HandleManualStaleCleanup demoAdminSecret
            (adminRequest "POST" demoAdminSecret) staleWorld)
     = snd (cleanup.staleRunCleanupTick staleWorld).
Proof.
  assert (H2 : http.Method (adminRequest "POST" demoAdminSecret) = "POST")
    by reflexivity.
  assert (H3 : auth.RequireAdminAuth demoAdminSecret
                 (adminRequest "POST" demoAdminSecret) = true) by reflexivity.
  split; [exact H2|]. split; [exact H3|].
  exact (proj1 (manual_cleanup_is_the_tick demoAdminSecret
                  (adminRequest "POST" demoAdminSecret) staleWorld H2 H3)).
Defined.

Lemma StoreSamples_then_GetRun_witness :
  runs demoStore !! "run1" = Some demoDoc
  /\ "run2" <> "run1"
  /\ (exists d',
        fst (storage.GetRun "run1"
               (snd (storage.StoreSamples "run1" (fst (storage.ParseData sampleLine 0))
                       demoStore))) = (Some d', None)
        /\ RunDoc.Samples d'
           = samplesOf "run1" demoStore ++ fst (storage.ParseData sampleLine 0)
        /\ RunDoc.StartTime d' = RunDoc.StartTime demoDoc)
  /\ fst (storage.GetRun "run2"
            (snd (storage.StoreSamples "run1" (fst (storage.ParseData sampleLine 0))
                    demoStore)))
     = fst (storage.GetRun "run2" demoStore).
Proof.
  assert (H1 : runs demoStore !! "run1" = Some demoDoc) by (vm_compute; reflexivity).
  assert (H2 : "run2" <> "run1") by discriminate.
  destruct (StoreSamples_then_GetRun "run1" (fst (storage.ParseData sampleLine 0))
              demoStore) as (_ & (d' & Hg & Hs & _ & Hkeep) & Hother & _).
  split; [exact H1|]. split; [exact H2|]. split.
  - exists d'. split; [exact Hg|]. split; [exact Hs|].
    exact (proj1 (proj2 (proj2 (Hkeep demoDoc H1)))).
  - exact (Hother "run2" H2).
Defined.

Lemma StoreSamples_batches_witness :
  (forall i j, clock demoWorld i = clock demoWorld j)
  /\ samplesOf "run1"
       (snd (storage.StoreSamples "run1" (fst (storage.ParseData laterLine 0))
               (snd (storage.StoreSamples "run1" (fst (storage.ParseData sampleLine 0))
                       demoWorld))))
     = samplesOf "run1" demoWorld ++ fst (storage.ParseData sampleLine 0)
         ++ fst (storage.ParseData laterLine 0)
  /\ runs (snd (storage.StoreSamples "run1" (fst (storage.ParseData laterLine 0))
                  (snd (storage.StoreSamples "run1"
                          (fst (storage.ParseData sampleLine 0)) demoWorld))))
     = runs (snd (storage.StoreSamples "run1"
                    (fst (storage.ParseData sampleLine 0)
                       ++ fst (storage.ParseData laterLine 0)) demoWorld)).
Proof.
  assert (H : forall i j, clock demoWorld i = clock demoWorld j)
    by (intros i j; reflexivity).
  destruct (StoreSamples_batches "run1" (fst (storage.ParseData sampleLine 0))
              (fst (storage.ParseData laterLine 0)) demoWorld) as (Hs & _ & Hone).
  split; [exact H|]. split; [exact Hs|exact (Hone H)].
Defined.

Lemma MarkRunAsFinished_frame_witness :
  runs demoStore !! "run2" = None
  /\ runs demoStore !! "run1" = Some demoDoc
  /\ "run1" <> "run2"
  /\ fst (storage.MarkRunAsFinished "run2" demoStore) = Some (ErrNotFound "run2")
  /\ runs (snd (storage.MarkRunAsFinished "run2" demoStore)) = runs demoStore
  /\ fst (storage.MarkRunAsFinished "run1" demoStore) = None
  /\ runs (snd (storage.MarkRunAsFinished "run2" demoStore)) !! "run1"
     = runs demoStore !! "run1".
Proof.
  assert (H1 : runs demoStore !! "run2" = None) by (vm_compute; reflexivity).
  assert (H2 : runs demoStore !! "run1" = Some demoDoc) by (vm_compute; reflexivity).
  assert (H3 : "run1" <> "run2") by discriminate.
  destruct (MarkRunAsFinished_frame "run2" demoStore) as (Hmiss & _ & Hother).
  destruct (MarkRunAsFinished_frame "run1" demoStore) as (_ & Hfound & _).
  destruct (Hmiss H1) as (He & Hr & _).
  split; [exact H1|]. split; [exact H2|]. split; [exact H3|]. split; [exact He|].
  split; [exact Hr|]. split; [exact (proj1 (Hfound demoDoc H2))|].
  exact (Hother "run1" H3).
Defined.

Lemma DeleteOldRuns_deletes_exactly_witness :
  runs retentionWorld !! "old"
    = Some (runUpdatedAt (retentionNow - 4 * time.Hour) true)
  /\ RunDoc.UpdatedAtTimestamp (runUpdatedAt (retentionNow - 4 * time.Hour) true)
     < cutoffFor cleanup.DataRetentionPeriod (reading retentionWorld)
  /\ "old" ∈ fst (fst (storage.DeleteOldRuns cleanup.DataRetentionPeriod retentionWorld))
  /\ runs (snd (storage.DeleteOldRuns cleanup.DataRetentionPeriod retentionWorld))
       !! "old" = None.
Proof.
  assert (H1 : runs retentionWorld !! "old"
               = Some (runUpdatedAt (retentionNow - 4 * time.Hour) true))
    by (vm_compute; reflexivity).
  assert (H2 : RunDoc.UpdatedAtTimestamp
                 (runUpdatedAt (retentionNow - 4 * time.Hour) true)
               < cutoffFor cleanup.DataRetentionPeriod (reading retentionWorld))
    by (vm_compute; reflexivity).
  destruct (DeleteOldRuns_deletes_exactly cleanup.DataRetentionPeriod retentionWorld)
    as (_ & _ & Hin & Hgone & _).
  assert (H3 : "old" ∈ fst (fst (storage.DeleteOldRuns cleanup.DataRetentionPeriod
                                   retentionWorld))).
  { apply Hin. exists (runUpdatedAt (retentionNow - 4 * time.Hour) true).
    split; [exact H1|exact H2]. }
  split; [exact H1|]. split; [exact H2|]. split; [exact H3|exact (Hgone "old" H3)].
Defined.

Lemma Auth_route_witness :
  strings.TrimPrefix (http.Path (plainRequest "POST" "/auth/run/")) "/auth/run/" = ""
  /\ http.Path (plainRequest "GET" "/auth/run/run1") = "/auth/run/" +:+ "run1"
  /\ "run1" <> ""
  /\ handlers.Auth demoEnv (plainRequest "POST" "/auth/run/") demoStore
     = (http.Error "run_id is required" 400, demoStore)
  /\ (exists tok,
        fst (handlers.Auth demoEnv (plainRequest "GET" "/auth/run/run1") demoStore)
        = http.OK (TokenResponse.mk tok (time.Add (reading demoStore) (2 * time.Hour))))
  /\ runs (snd (handlers.Auth demoEnv (plainRequest "GET" "/auth/run/run1") demoStore))
     = runs demoStore.
Proof.
  assert (H1 : strings.TrimPrefix (http.Path (plainRequest "POST" "/auth/run/"))
                 "/auth/run/" = "") by (vm_compute; reflexivity).
  assert (H2 : http.Path (plainRequest "GET" "/auth/run/run1") = "/auth/run/" +:+ "run1")
    by reflexivity.
  assert (H3 : "run1" <> "") by discriminate.
  destruct (Auth_route demoEnv (plainRequest "POST" "/auth/run/") demoStore)
    as (_ & _ & Hempty & _).
  destruct (Auth_route demoEnv (plainRequest "GET" "/auth/run/run1") demoStore)
    as (Hr & _ & _ & Hpath).
  pose proof (Hpath "run1" H2 H3) as Hok.
  assert (Hm : auth.jsonMarshal demoEnv
                 (TokenData.mk "run1" (time.Add (reading demoStore) (2 * time.Hour))
                    (reading (tick demoStore))) = Some "run1")
    by (vm_compute; reflexivity).
  rewrite Hm in Hok. destruct Hok as (tok & Hout & _).
  split; [exact H1|]. split; [exact H2|]. split; [exact H3|].
  split; [exact (Hempty H1)|]. split; [by exists tok|exact Hr].
Defined.

Lemma GetRun_route_witness :
  http.Method (plainRequest "GET" "/runs/run2") = "GET"
  /\ http.Path (plainRequest "GET" "/runs/run2") = "/runs/" +:+ "run2"
  /\ "run2" <> ""
  /\ runs demoStore !! "run2" = None
  /\ http.Method (plainRequest "POST" "/runs/run1") <> "OPTIONS"
  /\ http.Method (plainRequest "POST" "/runs/run1") <> "GET"
  /\ http.StatusCode (fst (handlers.GetRun (plainRequest "GET" "/runs/run2") demoStore))
     = 500
  /\ handlers.GetRun (plainRequest "POST" "/runs/run1") demoStore
     = (http.Error "Method not allowed" 405, demoStore).
Proof.
  assert (H1 : http.Method (plainRequest "GET" "/runs/run2") = "GET") by reflexivity.
  assert (H2 : http.Path (plainRequest "GET" "/runs/run2") = "/runs/" +:+ "run2")
    by reflexivity.
  assert (H3 : "run2" <> "") by discriminate.
  assert (H4 : runs demoStore !! "run2" = None) by (vm_compute; reflexivity).
  assert (H5 : http.Method (plainRequest "POST" "/runs/run1") <> "OPTIONS")
    by discriminate.
  assert (H6 : http.Method (plainRequest "POST" "/runs/run1") <> "GET") by discriminate.
  destruct (GetRun_route (plainRequest "GET" "/runs/run2") demoStore)
    as (_ & _ & _ & _ & Hget).
  destruct (GetRun_route (plainRequest "POST" "/runs/run1") demoStore)
    as (_ & _ & H405 & _).
  split; [exact H1|]. split; [exact H2|]. split; [exact H3|]. split; [exact H4|].
  split; [exact H5|]. split; [exact H6|].
  split; [exact (proj1 (proj2 (Hget "run2" H1 H2 H3)) H4)|exact (H405 H5 H6)].
Defined.

Lemma Ingest_rejects_before_storage_witness :
  handlers.Method (handlers.mkRequest "POST" demoBearer None) = "POST"
  /\ handlers.Body (handlers.mkRequest "POST" demoBearer None) = None
  /\ handlers.Ingest demoEnv (handlers.mkRequest "POST" demoBearer None) demoStore
     = (handlers.HttpError "Invalid request body" 400, demoStore)
  /\ handlers.Method (handlers.mkRequest "POST" demoBearer
                        (Some (IngestRequest.mk "run1" "" None))) = "POST"
  /\ strings.Split demoBearer " " = ["Bearer"; demoToken]
  /\ fst (auth.ValidateToken demoEnv demoToken "run1" demoStore) = (true, None)
  /\ fst (handlers.Ingest demoEnv
            (handlers.mkRequest "POST" demoBearer
               (Some (IngestRequest.mk "run1" "" None))) demoStore)
     = handlers.HttpError "Missing run_id or data" 400.
Proof.
  assert (H1 : handlers.Method (handlers.mkRequest "POST" demoBearer None) = "POST")
    by reflexivity.
  assert (H2 : handlers.Body (handlers.mkRequest "POST" demoBearer None) = None)
    by reflexivity.
  assert (H3 : handlers.Method (handlers.mkRequest "POST" demoBearer
                                  (Some (IngestRequest.mk "run1" "" None))) = "POST")
    by reflexivity.
  assert (H4 : strings.Split demoBearer " " = ["Bearer"; demoToken])
    by (vm_compute; reflexivity).
  assert (H5 : fst (auth.ValidateToken demoEnv demoToken "run1" demoStore) = (true, None))
    by (vm_compute; reflexivity).
  destruct (Ingest_rejects_before_storage demoEnv
              (handlers.mkRequest "POST" demoBearer None) demoStore)
    as (_ & _ & Hbody & _).
  destruct (Ingest_rejects_before_storage demoEnv
              (handlers.mkRequest "POST" demoBearer
                 (Some (IngestRequest.mk "run1" "" None))) demoStore)
    as (_ & _ & _ & Hempty).
  split; [exact H1|]. split; [exact H2|]. split; [exact (Hbody H1 H2)|].
  split; [exact H3|]. split; [exact H4|]. split; [exact H5|].
  exact (proj1 (Hempty (IngestRequest.mk "run1" "" None) demoToken H3 eq_refl H4 H5
                  (or_intror eq_refl))).
Defined.

Lemma sample_timestamps_witness :
  0 <= 0 /\ 0 <= 90 /\ 0 + 90 * time.Second <= max_int64
  /\ Forall (fun s => Sample.Timestamp s = storage.ToMillis 0 + 1000 * Sample.ElapsedTime s)
       (fst (storage.ParseData sampleLine 0)).
Proof.
  assert (H1 : 0 <= 0) by discriminate.
  assert (H2 : 0 <= 90) by discriminate.
  assert (H3 : 0 + 90 * time.Second <= max_int64) by (vm_compute; discriminate).
  split; [exact H1|]. split; [exact H2|]. split; [exact H3|].
  pose proof (proj1 (sample_timestamps sampleLine 0)) as Hall.
  rewrite sampleLine_at_epoch in *.
  apply Forall_cons in Hall as [[_ Hs] _].
  apply Forall_cons. split; [exact (Hs H1 H2 H3)|apply Forall_nil_2].
Defined.

